(** * Ledger and balance computations of the institute record-keeper

    A shallow embedding of the accounting code of [src/pages/Dashboard.tsx].
    That file holds two variants of the dashboard:

    - the double-entry variant (journal vouchers, ledger report, trial
      balance), embedded in [Module DoubleEntry];
    - the simple-posting variant (income entries, expenditures, opening
      balance overrides, day book, spreadsheet import), embedded in
      [Module SimplePosting].

    Conventions of the embedding.

    - A JavaScript [number] holding an amount of money is an exact rational
      ([Q]); rounding of IEEE doubles is not modelled.  Counters and voucher
      numbers are integers ([Z]).
    - A calendar date written [YYYY-MM-DD] is represented by its day ordinal
      ([Z], consecutive days are consecutive integers).  String equality and
      string order on such dates are equality and order on the ordinals.
    - The time zone of the browser is a parameter ([Zone]) of the one
      computation that converts between local dates and UTC dates.
    - React state is passed explicitly: a handler takes the collections it
      closes over and returns what it hands to the [onSave...] callbacks.
    - [generateId()] is a source of fresh identifiers; handlers take the
      identifiers they draw as arguments. *)

From Stdlib Require Import ZArith QArith Qabs List String Ascii Bool.
From Stdlib Require Import Lia Lqa Permutation Sorted.
Import ListNotations.

Local Open Scope string_scope.
Local Open Scope list_scope.
Local Open Scope Q_scope.

(** ** JavaScript primitives used by the handlers *)

(** [a > b] on numbers. *)
Definition Qgtb (a b : Q) : bool := negb (Qle_bool a b).

(** [a < b] on numbers. *)
Definition Qltb (a b : Q) : bool := negb (Qle_bool b a).

Section JsArray.
Context {A : Type}.

(** [l.reduce((sum, x) => sum + f(x), 0)]. *)
Definition reduceSum (f : A -> Q) (l : list A) : Q :=
  fold_left (fun sum x => sum + f x) l 0.

(** [l.sort(compareFn)]: the sort is stable; [x] goes before [y] when
    [compareFn x y] is negative, and equal elements keep their order. *)
Variable compareFn : A -> A -> Z.

Fixpoint insertSorted (x : A) (l : list A) : list A :=
  match l with
  | [] => [x]
  | y :: l' =>
      if (compareFn x y <=? 0)%Z then x :: y :: l'
      else y :: insertSorted x l'
  end.

Definition sortWith (l : list A) : list A :=
  fold_right insertSorted [] l.
End JsArray.

(** The order of [l.sort()] on dates written [YYYY-MM-DD]. *)
Definition ascending (a b : Z) : Z := (a - b)%Z.

(** [[...new Set(l)]]: the distinct elements in order of first occurrence. *)
Fixpoint setOfFrom (seen : list Z) (l : list Z) : list Z :=
  match l with
  | [] => []
  | x :: l' =>
      if existsb (Z.eqb x) seen then setOfFrom seen l'
      else x :: setOfFrom (x :: seen) l'
  end.

Definition setOf (l : list Z) : list Z := setOfFrom [] l.

(** [s.split(sep)] for a one-character separator. *)
Fixpoint split (sep : ascii) (s : string) : list string :=
  match s with
  | EmptyString => [EmptyString]
  | String c rest =>
      if Ascii.eqb c sep then EmptyString :: split sep rest
      else
        match split sep rest with
        | [] => [String c EmptyString]
        | part :: parts => String c part :: parts
        end
  end.

(** White space removed by [trim], among the ASCII characters: tab, line
    feed, vertical tab, form feed, carriage return and space. *)
Definition isWhiteSpace (c : ascii) : bool :=
  let n := nat_of_ascii c in
  ((9 <=? n) && (n <=? 13) || (n =? 32))%nat.

Fixpoint trimStart (s : string) : string :=
  match s with
  | EmptyString => EmptyString
  | String c rest => if isWhiteSpace c then trimStart rest else s
  end.

Fixpoint trimEnd (s : string) : string :=
  match s with
  | EmptyString => EmptyString
  | String c rest =>
      match trimEnd rest with
      | EmptyString => if isWhiteSpace c then EmptyString
                       else String c EmptyString
      | rest' => String c rest'
      end
  end.

(** [s.trim()]. *)
Definition trim (s : string) : string := trimEnd (trimStart s).

(** [s.toLowerCase()] on ASCII letters. *)
Definition lowerChar (c : ascii) : ascii :=
  let n := nat_of_ascii c in
  if ((65 <=? n) && (n <=? 90))%nat then ascii_of_nat (n + 32) else c.

Fixpoint toLowerCase (s : string) : string :=
  match s with
  | EmptyString => EmptyString
  | String c rest => String (lowerChar c) (toLowerCase rest)
  end.

(** The value of [parseFloat(...)]: a number or [NaN]. *)
Inductive JsNumber : Type := NaN | Num (q : Q).

(** [x === 0]. *)
Definition isZero (x : JsNumber) : bool :=
  match x with
  | NaN => false
  | Num q => Qeq_bool q 0
  end.

(** [x > 0]. *)
Definition isPositive (x : JsNumber) : bool :=
  match x with
  | NaN => false
  | Num q => Qgtb q 0
  end.

(** The number stored when [x] is used as an amount, which the import does
    for a positive [x] only. *)
Definition numberOf (x : JsNumber) : Q :=
  match x with
  | NaN => 0
  | Num q => q
  end.

(** ['credit' | 'debit']. *)
Inductive Side : Type := credit | debit.

(** The local time zone of the browser, as far as the day book depends on it.
    The loop of [calculateOpeningBalanceForDate] holds local midnight of a day
    in a [Date] and names that day by [toISOString().split('T')[0]], which is
    the UTC calendar date: the same day where local time is UTC or behind it,
    the day before where local time is ahead of UTC. *)
Inductive Zone : Type := AtOrBehindUTC | AheadOfUTC.

Definition toISODate (zone : Zone) (localMidnight : Z) : Z :=
  match zone with
  | AtOrBehindUTC => localMidnight
  | AheadOfUTC => (localMidnight - 1)%Z
  end.

(** ** The simple-posting variant (day book) *)

Module SimplePosting.

(** [interface OpeningBalance]: [id] is the date. *)
Record OpeningBalance : Type := mkOpeningBalance {
  ob_id : Z;
  ob_amount : Q;
  ob_type : Side
}.

(** [interface FeePayment]. *)
Record FeePayment : Type := mkFeePayment {
  fp_id : string;
  fp_studentId : string;
  fp_classFeeId : string;
  fp_amountPaid : Q;
  fp_paymentDate : Z;
  fp_remarks : string
}.

(** [interface IncomeEntry] and [interface Expenditure] have the same
    fields.  [date] is a day ordinal in the day book; the spreadsheet import
    stores the string its date parser builds, so the record is parametric
    in the representation of the date. *)
Record Posting (date : Type) : Type := mkPosting {
  p_id : string;
  p_date : date;
  p_accountId : string;
  p_amount : Q;
  p_remarks : string
}.
Arguments mkPosting {date} _ _ _ _ _.
Arguments p_id {date} _.
Arguments p_date {date} _.
Arguments p_accountId {date} _.
Arguments p_amount {date} _.
Arguments p_remarks {date} _.

Definition IncomeEntry := Posting.
Definition Expenditure := Posting.

(** The collections [DayBookManager] receives as props. *)
Record Store : Type := mkStore {
  openingBalances : list OpeningBalance;
  feePayments : list FeePayment;
  incomeEntries : list (IncomeEntry Z);
  expenditures : list (Expenditure Z)
}.

(** [{ amount: number; type: 'credit' | 'debit' }]. *)
Record Balance : Type := mkBalance {
  amount : Q;
  type : Side
}.

(** [type === 'credit' ? amount : -amount]. *)
Definition signedAmount (amount : Q) (type : Side) : Q :=
  match type with
  | credit => amount
  | debit => - amount
  end.

(** [openingBalances.find(ob => ob.id === dateStr)]. *)
Definition findOverride (obs : list OpeningBalance) (dateStr : Z)
  : option OpeningBalance :=
  find (fun ob => (ob_id ob =? dateStr)%Z) obs.

(** [incomeForDay] in the loop, [totalIncome] in the view. *)
Definition incomeForDay (st : Store) (dateStr : Z) : Q :=
  reduceSum fp_amountPaid
    (filter (fun p => (fp_paymentDate p =? dateStr)%Z) (feePayments st))
  + reduceSum p_amount
      (filter (fun i => (p_date i =? dateStr)%Z) (incomeEntries st)).

(** [expenditureForDay] in the loop, [totalExpenditure] in the view. *)
Definition expenditureForDay (st : Store) (dateStr : Z) : Q :=
  reduceSum p_amount
    (filter (fun e => (p_date e =? dateStr)%Z) (expenditures st)).

(** The body of [while (currentDate < targetDate)], run once for each of
    the [days] days from [currentDate] up to the day before [targetDate]. *)
Fixpoint replay (zone : Zone) (st : Store) (days : nat)
    (currentDate : Z) (runningBalance : Q) : Q :=
  match days with
  | O => runningBalance
  | S days' =>
      let loopDateStr := toISODate zone currentDate in
      let runningBalance :=
        runningBalance
        + (incomeForDay st loopDateStr - expenditureForDay st loopDateStr) in
      let currentDate := (currentDate + 1)%Z in
      let nextDayStr := toISODate zone currentDate in
      let runningBalance :=
        match findOverride (openingBalances st) nextDayStr with
        | Some nextDayUserBalance =>
            signedAmount (ob_amount nextDayUserBalance)
                         (ob_type nextDayUserBalance)
        | None => runningBalance
        end in
      replay zone st days' currentDate runningBalance
  end.

(** The same loop with its guard, bounded by [fuel] iterations. *)
Fixpoint replayWhile (zone : Zone) (st : Store) (fuel : nat)
    (currentDate targetDate : Z) (runningBalance : Q) : option Q :=
  if (currentDate <? targetDate)%Z then
    match fuel with
    | O => None
    | S fuel' =>
        let loopDateStr := toISODate zone currentDate in
        let runningBalance :=
          runningBalance
          + (incomeForDay st loopDateStr
             - expenditureForDay st loopDateStr) in
        let currentDate := (currentDate + 1)%Z in
        let nextDayStr := toISODate zone currentDate in
        let runningBalance :=
          match findOverride (openingBalances st) nextDayStr with
          | Some nextDayUserBalance =>
              signedAmount (ob_amount nextDayUserBalance)
                           (ob_type nextDayUserBalance)
          | None => runningBalance
          end in
        replayWhile zone st fuel' currentDate targetDate runningBalance
    end
  else Some runningBalance.

(** [allDates]: every date the stores mention, distinct and ascending. *)
Definition allDates (st : Store) : list Z :=
  sortWith ascending
    (setOf (map ob_id (openingBalances st)
            ++ map fp_paymentDate (feePayments st)
            ++ map p_date (incomeEntries st)
            ++ map p_date (expenditures st))).

(** [(a, b) => new Date(b.id).getTime() - new Date(a.id).getTime()]. *)
Definition newestFirst (a b : OpeningBalance) : Z := (ob_id b - ob_id a)%Z.

(** [{ amount: Math.abs(r), type: r >= 0 ? 'credit' : 'debit' }]. *)
Definition balanceOfSigned (runningBalance : Q) : Balance :=
  {| amount := Qabs runningBalance;
     type := if Qle_bool 0 runningBalance then credit else debit |}.

Definition calculateOpeningBalanceForDate (zone : Zone) (st : Store)
    (dateStr : Z) : Balance :=
  match findOverride (openingBalances st) dateStr with
  | Some userDefinedBalance =>
      {| amount := ob_amount userDefinedBalance;
         type := ob_type userDefinedBalance |}
  | None =>
      match allDates st with
      | [] => {| amount := 0; type := credit |}
      | first :: _ =>
          if (dateStr <? first)%Z then {| amount := 0; type := credit |}
          else
            let sortedBalances :=
              sortWith newestFirst (openingBalances st) in
            let startingPoint :=
              find (fun ob => (ob_id ob <? dateStr)%Z) sortedBalances in
            let '(currentDate, runningBalance) :=
              match startingPoint with
              | Some sp =>
                  (ob_id sp, signedAmount (ob_amount sp) (ob_type sp))
              | None => (first, 0)
              end in
            let targetDate := dateStr in
            balanceOfSigned
              (replay zone st (Z.to_nat (targetDate - currentDate))
                      currentDate runningBalance)
      end
  end.

(** [closingBalance] of the day book view for [selectedDate], given the
    [effectiveOpeningBalance] held in state. *)
Definition closingBalance (st : Store) (selectedDate : Z)
    (effectiveOpeningBalance : Balance) : Q :=
  let totalIncome := incomeForDay st selectedDate in
  let totalExpenditure := expenditureForDay st selectedDate in
  let openingBalanceAmount :=
    signedAmount (amount effectiveOpeningBalance)
                 (type effectiveOpeningBalance) in
  openingBalanceAmount + totalIncome - totalExpenditure.

(** The closing balance shown once the effect has stored
    [calculateOpeningBalanceForDate(selectedDate)] in state. *)
Definition dayBookClosingBalance (zone : Zone) (st : Store)
    (selectedDate : Z) : Q :=
  closingBalance st selectedDate
    (calculateOpeningBalanceForDate zone st selectedDate).

(** [handleSaveOpeningBalance]: the collection passed to
    [onSaveOpeningBalances]. *)
Definition handleSaveOpeningBalance (obs : list OpeningBalance)
    (selectedDate : Z) (openingBalanceForm : Balance)
  : list OpeningBalance :=
  let updatedBalances :=
    filter (fun ob => negb (ob_id ob =? selectedDate)%Z) obs in
  if Qgtb (amount openingBalanceForm) 0 then
    updatedBalances
    ++ [ {| ob_id := selectedDate;
            ob_amount := amount openingBalanceForm;
            ob_type := type openingBalanceForm |} ]
  else updatedBalances.

(** *** Chart of accounts *)

(** [interface AccountCategory]. *)
Record AccountCategory : Type := mkAccountCategory {
  cat_id : string;
  cat_name : string;
  isSystem : option bool
}.

(** [interface Account]. *)
Record Account : Type := mkAccount {
  acc_id : string;
  acc_name : string;
  fatherName : option string;
  mobile : option string;
  categoryId : string;
  isStudentAccount : option bool;
  acc_studentId : option string
}.

(** What [handleDeleteCategory] does: an [alert], nothing (the operator
    declined [window.confirm]), or a call of [onSaveAccountCategories]. *)
Inductive DeleteOutcome : Type :=
| DeleteAlert (message : string)
| DeleteDeclined
| SaveCategories (data : list AccountCategory).

Definition handleDeleteCategory (confirmed : bool)
    (accounts : list Account) (accountCategories : list AccountCategory)
    (id : string) : DeleteOutcome :=
  if existsb (fun acc => String.eqb (categoryId acc) id) accounts then
    DeleteAlert
      "Cannot delete category. It is currently used by one or more accounts."
  else if confirmed then
    SaveCategories
      (filter (fun c => negb (String.eqb (cat_id c) id)) accountCategories)
  else DeleteDeclined.

(** The category collection held by [Dashboard] after the handler ran. *)
Definition categoriesAfter (accountCategories : list AccountCategory)
    (outcome : DeleteOutcome) : list AccountCategory :=
  match outcome with
  | SaveCategories data => data
  | DeleteAlert _ | DeleteDeclined => accountCategories
  end.

(** *** Spreadsheet import *)

(** [parseDateFromDDMMYYYY] on a string; [''] is the result for a string
    the function does not accept. *)
Definition parseDateFromDDMMYYYY (ddmmyyyy : string) : string :=
  if String.eqb ddmmyyyy EmptyString then EmptyString
  else
    match split "/" ddmmyyyy with
    | [day; month; year] =>
        if negb (String.length day =? 2)%nat
           || negb (String.length month =? 2)%nat
           || negb (String.length year =? 4)%nat
        then EmptyString
        else (year ++ "-" ++ month ++ "-" ++ day)%string
    | _ => EmptyString
    end.

(** A cell of a row of [XLSX.utils.sheet_to_json]. *)
Inductive Cell : Type :=
| Undefined
| Text (s : string)
| Numeric (q : Q).

(** A row of the sheet.  [row_debit] and [row_credit] are the values of
    [parseFloat(row["Debit"] || 0)] and [parseFloat(row["Credit"] || 0)];
    [row_narration] is the value of [row["Narration"]], or the empty
    string where that is falsy. *)
Record Row : Type := mkRow {
  row_accountName : Cell;
  row_date : Cell;
  row_debit : JsNumber;
  row_credit : JsNumber;
  row_narration : string
}.

(** The variables of the loop of [handleFileUpload]; [idsDrawn] counts the
    calls of [generateId()]. *)
Record ImportState : Type := mkImportState {
  tempAccounts : list Account;
  tempExpenditures : list (Expenditure string);
  tempIncomes : list (IncomeEntry string);
  newAccountsCreated : Z;
  transactionsImported : Z;
  idsDrawn : nat
}.

Section SpreadsheetImport.
(** The identifiers [generateId()] returns, in the order of the calls. *)
Variable generateId : nat -> string.
(** [importedCategory.id]. *)
Variable importedCategoryId : string.

(** One iteration of [for (const row of json)].  [None] is an exception
    ([.trim] is not a function of a numeric cell), which leaves the loop
    and the [try] block. *)
Definition importRow (s : ImportState) (row : Row) : option ImportState :=
  match row_accountName row with
  | Numeric _ => None
  | accountNameCell =>
      let accountName :=
        match accountNameCell with
        | Text name => trim name
        | _ => EmptyString
        end in
      let debit' := row_debit row in
      let credit' := row_credit row in
      let dateMissing :=
        match row_date row with
        | Undefined => true
        | Text d => String.eqb d EmptyString
        | Numeric q => Qeq_bool q 0
        end in
      if String.eqb accountName EmptyString || dateMissing
         || (isZero debit' && isZero credit')
      then Some s
      else
        let isoDate :=
          match row_date row with
          | Text d => parseDateFromDDMMYYYY d
          | _ => EmptyString
          end in
        if String.eqb isoDate EmptyString then Some s
        else
          let found :=
            find (fun a => String.eqb (toLowerCase (acc_name a))
                                      (toLowerCase accountName))
                 (tempAccounts s) in
          let '(account, s) :=
            match found with
            | Some account => (account, s)
            | None =>
                let account :=
                  {| acc_id := generateId (idsDrawn s);
                     acc_name := accountName;
                     fatherName := None;
                     mobile := None;
                     categoryId := importedCategoryId;
                     isStudentAccount := Some false;
                     acc_studentId := None |} in
                (account,
                 {| tempAccounts := tempAccounts s ++ [account];
                    tempExpenditures := tempExpenditures s;
                    tempIncomes := tempIncomes s;
                    newAccountsCreated := (newAccountsCreated s + 1)%Z;
                    transactionsImported := transactionsImported s;
                    idsDrawn := S (idsDrawn s) |})
            end in
          if isPositive debit' then
            let newExpense :=
              {| p_id := generateId (idsDrawn s);
                 p_date := isoDate;
                 p_accountId := acc_id account;
                 p_amount := numberOf debit';
                 p_remarks := row_narration row |} in
            Some {| tempAccounts := tempAccounts s;
                    tempExpenditures := tempExpenditures s ++ [newExpense];
                    tempIncomes := tempIncomes s;
                    newAccountsCreated := newAccountsCreated s;
                    transactionsImported := (transactionsImported s + 1)%Z;
                    idsDrawn := S (idsDrawn s) |}
          else if isPositive credit' then
            let newIncome :=
              {| p_id := generateId (idsDrawn s);
                 p_date := isoDate;
                 p_accountId := acc_id account;
                 p_amount := numberOf credit';
                 p_remarks := row_narration row |} in
            Some {| tempAccounts := tempAccounts s;
                    tempExpenditures := tempExpenditures s;
                    tempIncomes := tempIncomes s ++ [newIncome];
                    newAccountsCreated := newAccountsCreated s;
                    transactionsImported := (transactionsImported s + 1)%Z;
                    idsDrawn := S (idsDrawn s) |}
          else Some s
  end.

(** The loop over the rows. *)
Fixpoint importRows (s : ImportState) (json : list Row)
  : option ImportState :=
  match json with
  | [] => Some s
  | row :: rows =>
      match importRow s row with
      | Some s' => importRows s' rows
      | None => None
      end
  end.
End SpreadsheetImport.

End SimplePosting.

(** ** The double-entry variant (journal vouchers) *)

Module DoubleEntry.

(** [keyof typeof ACCOUNT_GROUPS]. *)
Inductive AccountGroupName : Type :=
  Assets | Liabilities | Equity | Income | Expenses.

(** [interface Account]. *)
Record Account : Type := mkAccount {
  acc_id : string;
  acc_name : string;
  acc_group : AccountGroupName;
  openingBalance : Q;
  openingBalanceType : Side;
  isDefault : bool
}.

Inductive VoucherType : Type := Payment | Receipt | Journal | Contra.

(** [interface Transaction]: one line of a voucher. *)
Record Transaction : Type := mkTransaction {
  t_accountId : string;
  t_type : Side;
  t_amount : Q
}.

(** [interface JournalEntry]. *)
Record JournalEntry : Type := mkJournalEntry {
  je_id : string;
  je_date : Z;
  voucherType : VoucherType;
  voucherNumber : Z;
  narration : string;
  transactions : list Transaction;
  relatedFeePaymentId : option string
}.

(** [Omit<JournalEntry, 'id' | 'voucherNumber'>]. *)
Record JournalEntryDraft : Type := mkDraft {
  d_date : Z;
  d_voucherType : VoucherType;
  d_narration : string;
  d_transactions : list Transaction;
  d_relatedFeePaymentId : option string
}.

(** [interface FeePayment]. *)
Record FeePayment : Type := mkFeePayment {
  fp_id : string;
  fp_studentId : string;
  fp_classFeeId : string;
  fp_amountPaid : Q;
  fp_paymentDate : Z;
  fp_remarks : string
}.

(** [t.type === 'debit' ? t.amount : -t.amount], and the same expression
    on an account's opening balance. *)
Definition debitPositive (type : Side) (amount : Q) : Q :=
  match type with
  | debit => amount
  | credit => - amount
  end.

(** *** Ledger report *)

(** The [date] column of a ledger row: the literal ['Opening'] or the date
    of the voucher. *)
Inductive RowDate : Type := Opening | On (date : Z).

Record LedgerRow : Type := mkLedgerRow {
  row_date : RowDate;
  row_narration : string;
  row_debit : Q;
  row_credit : Q;
  row_balance : Q
}.

Record LedgerReport : Type := mkLedgerReport {
  accountName : string;
  report_transactions : list LedgerRow;
  finalBalance : Q
}.

(** [a.date.localeCompare(b.date) || a.voucherNumber - b.voucherNumber]. *)
Definition byDateThenNumber (a b : JournalEntry) : Z :=
  match (je_date a ?= je_date b)%Z with
  | Lt => (-1)%Z
  | Gt => 1%Z
  | Eq => (voucherNumber a - voucherNumber b)%Z
  end.

(** The body of [je.transactions.forEach(t => ...)] on the pair of the
    running [balance] and the rows pushed so far. *)
Definition ledgerLine (ledgerAccountId : string) (je : JournalEntry)
    (state : Q * list LedgerRow) (t : Transaction) : Q * list LedgerRow :=
  let '(balance, rows) := state in
  if String.eqb (t_accountId t) ledgerAccountId then
    let amount := debitPositive (t_type t) (t_amount t) in
    let balance := balance + amount in
    (balance,
     rows ++ [ {| row_date := On (je_date je);
                  row_narration := narration je;
                  row_debit :=
                    match t_type t with debit => t_amount t | credit => 0 end;
                  row_credit :=
                    match t_type t with credit => t_amount t | debit => 0 end;
                  row_balance := balance |} ])
  else state.

Definition ledgerReportData (ledgerAccountId : string)
    (ledgerStartDate ledgerEndDate : Z)
    (accounts : list Account) (journalEntries : list JournalEntry)
  : option LedgerReport :=
  if String.eqb ledgerAccountId EmptyString then None
  else
    match find (fun a => String.eqb (acc_id a) ledgerAccountId) accounts with
    | None => None
    | Some selectedAccount =>
        let balance :=
          debitPositive (openingBalanceType selectedAccount)
                        (openingBalance selectedAccount) in
        let rows :=
          if Qgtb (openingBalance selectedAccount) 0 then
            [ {| row_date := Opening;
                 row_narration := "Opening Balance";
                 row_debit :=
                   match openingBalanceType selectedAccount with
                   | debit => openingBalance selectedAccount
                   | credit => 0
                   end;
                 row_credit :=
                   match openingBalanceType selectedAccount with
                   | credit => openingBalance selectedAccount
                   | debit => 0
                   end;
                 row_balance := balance |} ]
          else [] in
        let '(balance, rows) :=
          fold_left
            (fun state je =>
               fold_left (ledgerLine ledgerAccountId je)
                         (transactions je) state)
            (sortWith byDateThenNumber
               (filter (fun je => (ledgerStartDate <=? je_date je)%Z
                                  && (je_date je <=? ledgerEndDate)%Z)
                       journalEntries))
            (balance, rows) in
        Some {| accountName := acc_name selectedAccount;
                report_transactions := rows;
                finalBalance := balance |}
    end.

(** *** Trial balance *)

(** A value of the [balances] object. *)
Record BalanceRow : Type := mkBalanceRow {
  br_name : string;
  br_group : AccountGroupName;
  br_balance : Q
}.

(** The [balances] object: its keys with their values, in the order the
    keys were first set. *)
Definition Balances : Type := list (string * BalanceRow).

(** [balances[key]]. *)
Definition lookup (balances : Balances) (key : string) : option BalanceRow :=
  option_map snd (find (fun kv => String.eqb (fst kv) key) balances).

(** [balances[key] = row]. *)
Fixpoint assign (balances : Balances) (key : string) (row : BalanceRow)
  : Balances :=
  match balances with
  | [] => [(key, row)]
  | (k, r) :: rest =>
      if String.eqb k key then (k, row) :: rest
      else (k, r) :: assign rest key row
  end.

(** [balances[key].balance += amount] where the key is present. *)
Fixpoint addTo (balances : Balances) (key : string) (amount : Q)
  : Balances :=
  match balances with
  | [] => []
  | (k, r) :: rest =>
      if String.eqb k key then
        (k, {| br_name := br_name r;
               br_group := br_group r;
               br_balance := br_balance r + amount |}) :: rest
      else (k, r) :: addTo rest key amount
  end.

Record TrialBalance : Type := mkTrialBalance {
  balances : list BalanceRow;
  totalDebits : Q;
  totalCredits : Q
}.

Section TrialBalance.
(** [String.prototype.localeCompare], which depends on the locale of the
    browser. *)
Variable localeCompare : string -> string -> Z.

Definition trialBalanceData (accounts : list Account)
    (journalEntries : list JournalEntry) : TrialBalance :=
  let balances : Balances :=
    fold_left
      (fun balances acc =>
         assign balances (acc_id acc)
           {| br_name := acc_name acc;
              br_group := acc_group acc;
              br_balance :=
                debitPositive (openingBalanceType acc)
                              (openingBalance acc) |})
      accounts [] in
  let balances : Balances :=
    fold_left
      (fun balances je =>
         fold_left
           (fun balances t =>
              match lookup balances (t_accountId t) with
              | Some _ =>
                  addTo balances (t_accountId t)
                        (debitPositive (t_type t) (t_amount t))
              | None => balances
              end)
           (transactions je) balances)
      journalEntries balances in
  let sortedBalances :=
    sortWith (fun a b => localeCompare (br_name a) (br_name b))
             (map snd balances) in
  {| balances := sortedBalances;
     totalDebits :=
       reduceSum (fun acc => if Qgtb (br_balance acc) 0
                             then br_balance acc else 0)
                 sortedBalances;
     totalCredits :=
       reduceSum (fun acc => if Qltb (br_balance acc) 0
                             then - br_balance acc else 0)
                 sortedBalances |}.
End TrialBalance.

(** The condition under which the trial balance tab renders
    "Totals do not match!". *)
Definition totalsDoNotMatch (tb : TrialBalance) : bool :=
  Qgtb (Qabs (totalDebits tb - totalCredits tb)) (1 # 100).

(** *** Voucher entry *)

(** A row of the voucher form.  [fr_debit] and [fr_credit] are the values
    of [parseFloat(t.debit) || 0] and [parseFloat(t.credit) || 0] for the
    texts typed in the row: [0] for an empty or non-numeric text. *)
Record FormRow : Type := mkFormRow {
  fr_id : string;
  fr_accountId : string;
  fr_debit : Q;
  fr_credit : Q
}.

Definition totalDebit (rows : list FormRow) : Q := reduceSum fr_debit rows.
Definition totalCredit (rows : list FormRow) : Q := reduceSum fr_credit rows.

(** What [handleSave] does: an [alert] and nothing else, or a call of
    [onSave]. *)
Inductive SaveOutcome : Type :=
| Alert (message : string)
| OnSave (entry : JournalEntryDraft).

(** The [.map(...)] of [handleSave]: [null] is [None]. *)
Definition finalTransaction (t : FormRow) : option Transaction :=
  let debit' := fr_debit t in
  let credit' := fr_credit t in
  if String.eqb (fr_accountId t) EmptyString
     || (Qeq_bool debit' 0 && Qeq_bool credit' 0)
  then None
  else Some {| t_accountId := fr_accountId t;
               t_type := if Qgtb debit' 0 then debit else credit;
               t_amount := if Qgtb debit' 0 then debit' else credit' |}.

(** [.filter((t): t is Transaction => t !== null)] after the [.map]. *)
Fixpoint finalTransactions (rows : list FormRow) : list Transaction :=
  match rows with
  | [] => []
  | t :: rows' =>
      match finalTransaction t with
      | Some line => line :: finalTransactions rows'
      | None => finalTransactions rows'
      end
  end.

(** [handleSave] of [VoucherFormModal]. *)
Definition handleSave (date : Z) (voucherType : VoucherType)
    (narration : string) (rows : list FormRow) : SaveOutcome :=
  if Qgtb (Qabs (totalDebit rows - totalCredit rows)) (1 # 100)
     || Qeq_bool (totalDebit rows) 0
  then Alert "Total debits must equal total credits, and cannot be zero."
  else
    let finalTransactions := finalTransactions rows in
    if (List.length finalTransactions <? 2)%nat
    then Alert "At least two transaction lines are required."
    else OnSave {| d_date := date;
                   d_voucherType := voucherType;
                   d_narration := narration;
                   d_transactions := finalTransactions;
                   d_relatedFeePaymentId := None |}.

(** *** The journal store *)

(** [journalEntries.reduce((max, je) => Math.max(max, je.voucherNumber), 0)]. *)
Definition lastVoucherNumber (journalEntries : list JournalEntry) : Z :=
  fold_left (fun max je => Z.max max (voucherNumber je)) journalEntries 0%Z.

(** [handleSaveNewJournalEntry]: the collection passed to
    [handleSaveJournalEntries], which stores it. *)
Definition handleSaveNewJournalEntry (journalEntries : list JournalEntry)
    (entry : JournalEntryDraft) (newId : string) : list JournalEntry :=
  let newEntry :=
    {| je_id := newId;
       je_date := d_date entry;
       voucherType := d_voucherType entry;
       voucherNumber := (lastVoucherNumber journalEntries + 1)%Z;
       narration := d_narration entry;
       transactions := d_transactions entry;
       relatedFeePaymentId := d_relatedFeePaymentId entry |} in
  journalEntries ++ [newEntry].

(** The voucher form wired to the store, as [AccountingManager] does with
    [onSave={onSaveJournalEntry}]: the journal entries stored after
    [handleSave] has run. *)
Definition saveVoucherForm (journalEntries : list JournalEntry)
    (date : Z) (voucherType : VoucherType) (narration : string)
    (rows : list FormRow) (newId : string) : list JournalEntry :=
  match handleSave date voucherType narration rows with
  | Alert _ => journalEntries
  | OnSave entry => handleSaveNewJournalEntry journalEntries entry newId
  end.

(** The fee payments and journal entries held by [Dashboard]. *)
Record Books : Type := mkBooks {
  feePayments : list FeePayment;
  journalEntries : list JournalEntry
}.

(** [deletedPaymentIds.includes(id)]. *)
Definition includes (ids : list string) (id : string) : bool :=
  existsb (String.eqb id) ids.

(** [!je.relatedFeePaymentId || !ids.includes(je.relatedFeePaymentId)]:
    an absent or empty id is falsy. *)
Definition notLinkedTo (ids : list string) (je : JournalEntry) : bool :=
  match relatedFeePaymentId je with
  | None => true
  | Some id => String.eqb id EmptyString || negb (includes ids id)
  end.

(** [handleSaveFeePayments]. *)
Definition handleSaveFeePayments (books : Books) (data : list FeePayment)
  : Books :=
  if (List.length data <? List.length (feePayments books))%nat then
    let deletedPaymentIds :=
      map fp_id
          (filter (fun p =>
                     negb (existsb (fun dp => String.eqb (fp_id dp) (fp_id p))
                                   data))
                  (feePayments books)) in
    let updatedJournalEntries :=
      filter (notLinkedTo deletedPaymentIds) (journalEntries books) in
    {| feePayments := data; journalEntries := updatedJournalEntries |}
  else {| feePayments := data; journalEntries := journalEntries books |}.

(** [handleDeletePayment] of [FeeManager], with the answer given to
    [window.confirm]. *)
Definition handleDeletePayment (confirmed : bool) (books : Books)
    (id : string) : Books :=
  if confirmed then
    handleSaveFeePayments books
      (filter (fun p => negb (String.eqb (fp_id p) id)) (feePayments books))
  else books.

(** The [disabled] attribute of the delete button of payment [p]:
    [journalEntries.some(je => je.relatedFeePaymentId === p.id)]. *)
Definition deleteDisabled (journalEntries : list JournalEntry)
    (p : FeePayment) : bool :=
  existsb (fun je => match relatedFeePaymentId je with
                     | Some id => String.eqb id (fp_id p)
                     | None => false
                     end)
          journalEntries.

End DoubleEntry.

(** ** Handlers of forms and delete buttons *)

(** What a handler does: an [alert] and nothing else, nothing at all (a
    silent [return], or the operator declined [window.confirm]), or a call
    of its [onSave...] callback with the new collection. *)
Inductive Outcome (A : Type) : Type :=
| Alerted (message : string)
| Nothing
| Saved (data : A).
Arguments Alerted {A} _.
Arguments Nothing {A}.
Arguments Saved {A} _.

(** The collection held by [Dashboard] after a handler ran on [stored]. *)
Definition stateAfter {A : Type} (stored : A) (outcome : Outcome A) : A :=
  match outcome with
  | Saved data => data
  | Alerted _ | Nothing => stored
  end.

(** ** The day book of the simple-posting variant: income and expenditure *)

Module DayBookManager.
Import SimplePosting.

(** [formatDate]: [YYYY-MM-DD] shown as [DD/MM/YYYY]. *)
Definition formatDate (isoDate : string) : string :=
  if String.eqb isoDate EmptyString then EmptyString
  else
    match split "-" isoDate with
    | year :: month :: day :: _ =>
        if String.eqb year EmptyString || String.eqb month EmptyString
           || String.eqb day EmptyString
        then isoDate
        else (day ++ "/" ++ month ++ "/" ++ year)%string
    | _ => isoDate
    end.

(** [handleSaveIncome].  [currentIncome] is the form held in state ([None]
    is [null]); its [amount] is the value of [parseFloat(...) || 0], its
    [id] is empty for a new entry.  [newId] is the value of
    [generateId()]. *)
Definition handleSaveIncome (incomeEntries : list (IncomeEntry Z))
    (currentIncome : option (IncomeEntry Z)) (newId : string)
  : Outcome (list (IncomeEntry Z)) :=
  match currentIncome with
  | None => Alerted "Please select an account and enter a valid amount."
  | Some form =>
      if String.eqb (p_accountId form) EmptyString
         || Qeq_bool (p_amount form) 0
         || Qle_bool (p_amount form) 0
      then Alerted "Please select an account and enter a valid amount."
      else if negb (String.eqb (p_id form) EmptyString) then
        Saved (map (fun e => if String.eqb (p_id e) (p_id form)
                             then form else e)
                   incomeEntries)
      else
        Saved (incomeEntries
               ++ [ {| p_id := newId;
                       p_date := p_date form;
                       p_accountId := p_accountId form;
                       p_amount := p_amount form;
                       p_remarks := p_remarks form |} ])
  end.

(** [handleDeleteIncome], with the answer given to [window.confirm]. *)
Definition handleDeleteIncome (confirmed : bool)
    (incomeEntries : list (IncomeEntry Z)) (id : string)
  : Outcome (list (IncomeEntry Z)) :=
  if confirmed then
    Saved (filter (fun e => negb (String.eqb (p_id e) id)) incomeEntries)
  else Nothing.

(** [handleSaveExpenditure]. *)
Definition handleSaveExpenditure (expenditures : list (Expenditure Z))
    (currentExpenditure : option (Expenditure Z)) (newId : string)
  : Outcome (list (Expenditure Z)) :=
  match currentExpenditure with
  | None => Alerted "Please select an account and a valid amount."
  | Some form =>
      if String.eqb (p_accountId form) EmptyString
         || Qeq_bool (p_amount form) 0
         || Qle_bool (p_amount form) 0
      then Alerted "Please select an account and a valid amount."
      else if negb (String.eqb (p_id form) EmptyString) then
        Saved (map (fun e => if String.eqb (p_id e) (p_id form)
                             then form else e)
                   expenditures)
      else
        Saved (expenditures
               ++ [ {| p_id := newId;
                       p_date := p_date form;
                       p_accountId := p_accountId form;
                       p_amount := p_amount form;
                       p_remarks := p_remarks form |} ])
  end.

(** [handleDeleteExpenditure], with the answer given to
    [window.confirm]. *)
Definition handleDeleteExpenditure (confirmed : bool)
    (expenditures : list (Expenditure Z)) (id : string)
  : Outcome (list (Expenditure Z)) :=
  if confirmed then
    Saved (filter (fun e => negb (String.eqb (p_id e) id)) expenditures)
  else Nothing.

(** The stores after [onSaveIncomeEntries] and after [onSaveExpenditures]
    stored what a handler passed. *)
Definition withIncomeEntries (st : Store) (data : list (IncomeEntry Z))
  : Store :=
  {| openingBalances := openingBalances st;
     feePayments := feePayments st;
     incomeEntries := data;
     expenditures := expenditures st |}.

Definition withExpenditures (st : Store) (data : list (Expenditure Z))
  : Store :=
  {| openingBalances := openingBalances st;
     feePayments := feePayments st;
     incomeEntries := incomeEntries st;
     expenditures := data |}.

End DayBookManager.

(** ** Records shared by the two variants *)

Module School.

(** [interface ClassInfo]. *)
Record ClassInfo : Type := mkClassInfo {
  cl_id : string;
  cl_name : string
}.

(** [interface Student]: [st_studentId] is the identifier shown to the
    operator, [st_id] the generated one. *)
Record Student : Type := mkStudent {
  st_id : string;
  st_studentId : string;
  st_name : string;
  st_fatherName : string;
  st_motherName : string;
  st_classId : string
}.

(** [interface FeeHead]. *)
Record FeeHead : Type := mkFeeHead {
  fh_id : string;
  fh_name : string
}.

(** [interface ClassFee]: a fee head assigned to a class. *)
Record ClassFee : Type := mkClassFee {
  cf_id : string;
  cf_classId : string;
  cf_feeHeadId : string;
  cf_amount : Q
}.

(** [interface FeeConcession]. *)
Record FeeConcession : Type := mkFeeConcession {
  fc_id : string;
  fc_studentId : string;
  fc_classFeeId : string;
  concessionAmount : Q
}.

(** [ids.includes(id)]. *)
Definition includes (ids : list string) (id : string) : bool :=
  existsb (String.eqb id) ids.

(** [old.filter(x => !updated.some(u => u.id === x.id)).map(x => x.id)]:
    the identifiers of [old] that [updated] no longer has. *)
Definition deletedIds {A : Type} (id : A -> string) (old updated : list A)
  : list string :=
  map id
      (filter (fun x => negb (existsb (fun u => String.eqb (id u) (id x))
                                      updated))
              old).

End School.

(** ** Fee heads and fee assignments (both variants) *)

Module FeeManager.
Import School.

(** [handleSaveHead].  [currentHead] is the form held in state; its [id]
    is empty for a new head. *)
Definition handleSaveHead (feeHeads : list FeeHead)
    (currentHead : option FeeHead) (newId : string)
  : Outcome (list FeeHead) :=
  match currentHead with
  | None => Nothing
  | Some form =>
      if String.eqb (fh_name form) EmptyString then Nothing
      else if negb (String.eqb (fh_id form) EmptyString) then
        Saved (map (fun h => if String.eqb (fh_id h) (fh_id form)
                             then {| fh_id := fh_id h;
                                     fh_name := fh_name form |}
                             else h)
                   feeHeads)
      else Saved (feeHeads ++ [ {| fh_id := newId;
                                   fh_name := fh_name form |} ])
  end.

(** [handleDeleteHead], with the answer given to [window.confirm]. *)
Definition handleDeleteHead (confirmed : bool) (classFees : list ClassFee)
    (feeHeads : list FeeHead) (id : string) : Outcome (list FeeHead) :=
  if existsb (fun cf => String.eqb (cf_feeHeadId cf) id) classFees then
    Alerted "Cannot delete this fee head because it is assigned to one or more classes."
  else if confirmed then
    Saved (filter (fun h => negb (String.eqb (fh_id h) id)) feeHeads)
  else Nothing.

(** [handleSaveAssignment].  The [amount] of the form is the value of
    [parseFloat(...) || 0]. *)
Definition handleSaveAssignment (classFees : list ClassFee)
    (currentClassFee : option ClassFee) (newId : string)
  : Outcome (list ClassFee) :=
  match currentClassFee with
  | None => Alerted "Please select a fee head and enter a valid amount."
  | Some form =>
      if String.eqb (cf_classId form) EmptyString
         || String.eqb (cf_feeHeadId form) EmptyString
         || Qeq_bool (cf_amount form) 0
         || Qle_bool (cf_amount form) 0
      then Alerted "Please select a fee head and enter a valid amount."
      else
        let isDuplicate :=
          existsb (fun cf => String.eqb (cf_classId cf) (cf_classId form)
                             && String.eqb (cf_feeHeadId cf)
                                           (cf_feeHeadId form)
                             && negb (String.eqb (cf_id cf) (cf_id form)))
                  classFees in
        if isDuplicate then
          Alerted "This fee head is already assigned to this class."
        else if negb (String.eqb (cf_id form) EmptyString) then
          Saved (map (fun cf => if String.eqb (cf_id cf) (cf_id form)
                                then form else cf)
                     classFees)
        else
          Saved (classFees
                 ++ [ {| cf_id := newId;
                         cf_classId := cf_classId form;
                         cf_feeHeadId := cf_feeHeadId form;
                         cf_amount := cf_amount form |} ])
  end.

(** [handleDeleteAssignment], with the answer given to
    [window.confirm]. *)
Definition handleDeleteAssignment (confirmed : bool)
    (classFees : list ClassFee) (id : string) : Outcome (list ClassFee) :=
  if confirmed then
    Saved (filter (fun cf => negb (String.eqb (cf_id cf) id)) classFees)
  else Nothing.

End FeeManager.

(** ** Fee payments and cascades of the double-entry variant *)

Module DoubleEntryDashboard.
Import School DoubleEntry.

(** The form [newPayment] of the payment modal.  Its [amount] and [date]
    are the values of a number input and of a date input: the empty text
    ([None]), or the text of a number, of a date; [pf_amount] holds the
    value of [parseFloat(amount)] for a text that is not empty. *)
Record PaymentForm : Type := mkPaymentForm {
  pf_classFeeId : string;
  pf_amount : option Q;
  pf_date : option Z;
  pf_remarks : string
}.

(** [x || fallback] on strings. *)
Definition orElse (x fallback : string) : string :=
  if String.eqb x EmptyString then fallback else x.

(** [feeHeads.find(fh => fh.id === classFees.find(cf => cf.id ===
    classFeeId)?.feeHeadId)?.name || 'Fee']. *)
Definition feeHeadName (feeHeads : list FeeHead) (classFees : list ClassFee)
    (classFeeId : string) : string :=
  match find (fun cf => String.eqb (cf_id cf) classFeeId) classFees with
  | Some cf =>
      match find (fun fh => String.eqb (fh_id fh) (cf_feeHeadId cf)) feeHeads
      with
      | Some fh => orElse (fh_name fh) "Fee"
      | None => "Fee"
      end
  | None => "Fee"
  end.

(** [handleSavePayment] of [FeeManager], wired as [Dashboard] does with
    [onSaveFeePayments={handleSaveFeePayments}] and
    [onSaveJournalEntry={handleSaveNewJournalEntry}]: the books stored
    after it ran.  Both callbacks read the collections of the render the
    handler was created in.  [newPaymentId] and [newEntryId] are the
    values of the two calls of [generateId()]. *)
Definition handleSavePayment (accounts : list Account)
    (feeHeads : list FeeHead) (classFees : list ClassFee) (books : Books)
    (selectedStudent : Student) (newPayment : PaymentForm)
    (newPaymentId newEntryId : string) : Outcome Books :=
  match pf_amount newPayment, pf_date newPayment with
  | Some parsedAmount, Some date =>
      if String.eqb (pf_classFeeId newPayment) EmptyString
         || Qle_bool parsedAmount 0
      then Alerted "Please select a fee, enter a valid amount and date."
      else
        match find (fun a => String.eqb (acc_name a) "Cash in Hand") accounts,
              find (fun a => String.eqb (acc_name a) "Tuition Fees") accounts
        with
        | Some cashAccount, Some feeIncomeAccount =>
            let newPaymentRecord :=
              {| fp_id := newPaymentId;
                 fp_studentId := st_id selectedStudent;
                 fp_classFeeId := pf_classFeeId newPayment;
                 fp_amountPaid := parsedAmount;
                 fp_paymentDate := date;
                 fp_remarks := pf_remarks newPayment |} in
            let afterPayments :=
              handleSaveFeePayments books
                (feePayments books ++ [newPaymentRecord]) in
            let studentName := orElse (st_name selectedStudent) "Student" in
            let studentIdentifier :=
              orElse (st_studentId selectedStudent) "ID" in
            let updatedJournalEntries :=
              handleSaveNewJournalEntry (journalEntries books)
                {| d_date := date;
                   d_voucherType := Receipt;
                   d_narration :=
                     ("Fee received from " ++ studentName ++ " ("
                      ++ studentIdentifier ++ ") for "
                      ++ feeHeadName feeHeads classFees
                                     (pf_classFeeId newPayment)
                      ++ ". " ++ pf_remarks newPayment)%string;
                   d_transactions :=
                     [ {| t_accountId := acc_id cashAccount;
                          t_type := debit;
                          t_amount := parsedAmount |};
                       {| t_accountId := acc_id feeIncomeAccount;
                          t_type := credit;
                          t_amount := parsedAmount |} ];
                   d_relatedFeePaymentId := Some newPaymentId |}
                newEntryId in
            Saved {| feePayments := feePayments afterPayments;
                     journalEntries := updatedJournalEntries |}
        | _, _ =>
            Alerted "Default accounts (Cash in Hand, Tuition Fees) not found. Please set them up in the Accounting module."
        end
  | _, _ => Alerted "Please select a fee, enter a valid amount and date."
  end.

(** The collections held by [Dashboard] that the cascades touch. *)
Record State : Type := mkState {
  classes : list ClassInfo;
  students : list Student;
  classFees : list ClassFee;
  feeConcessions : list FeeConcession;
  books : Books
}.

(** [handleSaveStudents].  The journal entries it stores last are filtered
    from the collection of the render the handler was created in. *)
Definition handleSaveStudents (s : State) (updatedStudents : list Student)
  : State :=
  let deletedStudentIds := deletedIds st_id (students s) updatedStudents in
  if (0 <? List.length deletedStudentIds)%nat then
    let updatedFeePayments :=
      filter (fun fp => negb (includes deletedStudentIds (fp_studentId fp)))
             (feePayments (books s)) in
    let afterPayments := handleSaveFeePayments (books s) updatedFeePayments in
    let updatedFeeConcessions :=
      filter (fun fc => negb (includes deletedStudentIds (fc_studentId fc)))
             (feeConcessions s) in
    let paymentIdsToDelete :=
      map fp_id
          (filter (fun fp => includes deletedStudentIds (fp_studentId fp))
                  (feePayments (books s))) in
    let updatedJournalEntries :=
      filter (notLinkedTo paymentIdsToDelete) (journalEntries (books s)) in
    {| classes := classes s;
       students := updatedStudents;
       classFees := classFees s;
       feeConcessions := updatedFeeConcessions;
       books := {| feePayments := feePayments afterPayments;
                   journalEntries := updatedJournalEntries |} |}
  else
    {| classes := classes s;
       students := updatedStudents;
       classFees := classFees s;
       feeConcessions := feeConcessions s;
       books := books s |}.

(** [handleSaveClasses]. *)
Definition handleSaveClasses (s : State) (updatedClasses : list ClassInfo)
  : State :=
  let deletedClassIds := deletedIds cl_id (classes s) updatedClasses in
  if (0 <? List.length deletedClassIds)%nat then
    let updatedStudents :=
      filter (fun st => negb (includes deletedClassIds (st_classId st)))
             (students s) in
    let afterStudents := handleSaveStudents s updatedStudents in
    let updatedClassFees :=
      filter (fun cf => negb (includes deletedClassIds (cf_classId cf)))
             (classFees s) in
    {| classes := updatedClasses;
       students := students afterStudents;
       classFees := updatedClassFees;
       feeConcessions := feeConcessions afterStudents;
       books := books afterStudents |}
  else
    {| classes := updatedClasses;
       students := students s;
       classFees := classFees s;
       feeConcessions := feeConcessions s;
       books := books s |}.

End DoubleEntryDashboard.

(** ** Students, classes and their accounts in the simple-posting variant *)

Module SimplePostingDashboard.
Import School SimplePosting.

(** The collections held by [Dashboard] that the two handlers touch. *)
Record State : Type := mkState {
  classes : list ClassInfo;
  students : list Student;
  classFees : list ClassFee;
  feeConcessions : list FeeConcession;
  feePayments : list FeePayment;
  accountCategories : list AccountCategory;
  accounts : list Account
}.

(** An optional flag used as a condition: absent is falsy. *)
Definition truthy (flag : option bool) : bool :=
  match flag with
  | Some b => b
  | None => false
  end.

(** [acc.studentId === id]. *)
Definition isAccountOf (id : string) (acc : Account) : bool :=
  match acc_studentId acc with
  | Some studentId => String.eqb studentId id
  | None => false
  end.

(** [finalAccounts[accountIndex] = { ...finalAccounts[accountIndex], name }]
    for [accountIndex = finalAccounts.findIndex(acc => acc.studentId ===
    id)]; [None] where the index is [-1]. *)
Fixpoint renameAccountOf (id name : string) (finalAccounts : list Account)
  : option (list Account) :=
  match finalAccounts with
  | [] => None
  | acc :: rest =>
      if isAccountOf id acc then
        Some ({| acc_id := acc_id acc;
                 acc_name := name;
                 fatherName := fatherName acc;
                 mobile := mobile acc;
                 categoryId := categoryId acc;
                 isStudentAccount := isStudentAccount acc;
                 acc_studentId := acc_studentId acc |} :: rest)
      else option_map (cons acc) (renameAccountOf id name rest)
  end.

(** One iteration of the loop over [updatedStudents] that follows name
    changes, on the pair of [finalAccounts] and [accountsChanged]. *)
Definition renameStep (originalStudents : list Student)
    (state : list Account * bool) (student : Student)
  : list Account * bool :=
  match find (fun s => String.eqb (st_id s) (st_id student)) originalStudents
  with
  | Some original =>
      if negb (String.eqb (st_name original) (st_name student)) then
        match renameAccountOf (st_id student) (st_name student) (fst state)
        with
        | Some renamed => (renamed, true)
        | None => state
        end
      else state
  | None => state
  end.

(** The variables of the loop over [newStudents]; [idsDrawn] counts the
    calls of [generateId()]. *)
Record Additions : Type := mkAdditions {
  finalCategories : list AccountCategory;
  newAccounts : list Account;
  categoriesChanged : bool;
  idsDrawn : nat
}.

Section Handlers.
(** The identifiers [generateId()] returns, in the order of the calls. *)
Variable generateId : nat -> string.

(** One iteration of the loop over [newStudents]. *)
Definition addStep (classes : list ClassInfo) (a : Additions)
    (student : Student) : Additions :=
  match find (fun c => String.eqb (cl_id c) (st_classId student)) classes
  with
  | Some class =>
      let className := cl_name class in
      if String.eqb className EmptyString then a
      else
        let found :=
          find (fun c => String.eqb (cat_name c) className
                         && truthy (isSystem c))
               (finalCategories a) in
        let '(category, a) :=
          match found with
          | Some category => (category, a)
          | None =>
              let category :=
                {| cat_id := generateId (idsDrawn a);
                   cat_name := className;
                   isSystem := Some true |} in
              (category,
               {| finalCategories := finalCategories a ++ [category];
                  newAccounts := newAccounts a;
                  categoriesChanged := true;
                  idsDrawn := S (idsDrawn a) |})
          end in
        {| finalCategories := finalCategories a;
           newAccounts :=
             newAccounts a
             ++ [ {| acc_id := generateId (idsDrawn a);
                     acc_name := st_name student;
                     fatherName := Some (st_fatherName student);
                     mobile := None;
                     categoryId := cat_id category;
                     isStudentAccount := Some true;
                     acc_studentId := Some (st_id student) |} ];
           categoriesChanged := categoriesChanged a;
           idsDrawn := S (idsDrawn a) |}
  | None => a
  end.

(** [handleSaveStudents(updatedStudents, newStudents)].  The loop over
    [newStudents] is guarded by [newStudents.length > 0] in the source; it
    does nothing on an empty list. *)
Definition handleSaveStudents (s : State)
    (updatedStudents newStudents : list Student) : State :=
  let originalStudents := students s in
  let '(finalAccounts, accountsChanged) :=
    fold_left (renameStep originalStudents) updatedStudents
              (accounts s, false) in
  let additions :=
    fold_left (addStep (classes s)) newStudents
              {| finalCategories := accountCategories s;
                 newAccounts := [];
                 categoriesChanged := false;
                 idsDrawn := O |} in
  let '(finalAccounts, accountsChanged) :=
    if (0 <? List.length (newAccounts additions))%nat
    then (finalAccounts ++ newAccounts additions, true)
    else (finalAccounts, accountsChanged) in
  let deletedStudentIds := deletedIds st_id originalStudents updatedStudents in
  let deleting := (0 <? List.length deletedStudentIds)%nat in
  let '(finalAccounts, accountsChanged) :=
    if deleting then
      (filter (fun acc =>
                 negb (truthy (isStudentAccount acc))
                 || negb (match acc_studentId acc with
                          | Some id => includes deletedStudentIds id
                          | None => false
                          end))
              finalAccounts,
       true)
    else (finalAccounts, accountsChanged) in
  {| classes := classes s;
     students := updatedStudents;
     classFees := classFees s;
     feeConcessions :=
       if deleting then
         filter (fun fc => negb (includes deletedStudentIds
                                          (fc_studentId fc)))
                (feeConcessions s)
       else feeConcessions s;
     feePayments :=
       if deleting then
         filter (fun fp => negb (includes deletedStudentIds
                                          (fp_studentId fp)))
                (feePayments s)
       else feePayments s;
     accountCategories :=
       if categoriesChanged additions then finalCategories additions
       else accountCategories s;
     accounts := if accountsChanged then finalAccounts else accounts s |}.

(** One iteration of the loop over [updatedClasses] that follows renames,
    on the pair of [updatedCategories] and [wasChanged]. *)
Definition renameClassStep (originalClasses : list ClassInfo)
    (state : list AccountCategory * bool) (updatedClass : ClassInfo)
  : list AccountCategory * bool :=
  match find (fun c => String.eqb (cl_id c) (cl_id updatedClass))
             originalClasses
  with
  | Some originalClass =>
      if negb (String.eqb (cl_name originalClass) (cl_name updatedClass))
      then
        match find (fun cat => truthy (isSystem cat)
                               && String.eqb (cat_name cat)
                                             (cl_name originalClass))
                   (fst state)
        with
        | Some categoryToUpdate =>
            (map (fun cat =>
                    if String.eqb (cat_id cat) (cat_id categoryToUpdate)
                    then {| cat_id := cat_id cat;
                            cat_name := cl_name updatedClass;
                            isSystem := isSystem cat |}
                    else cat)
                 (fst state),
             true)
        | None => state
        end
      else state
  | None => state
  end.

(** [handleSaveClasses(updatedClasses)]. *)
Definition handleSaveClasses (s : State) (updatedClasses : list ClassInfo)
  : State :=
  let originalClasses := classes s in
  let deletedClassIds := deletedIds cl_id originalClasses updatedClasses in
  let deleting := (0 <? List.length deletedClassIds)%nat in
  let deletedClassNames :=
    map cl_name
        (filter (fun c => includes deletedClassIds (cl_id c))
                originalClasses) in
  let updatedCategories :=
    if deleting then
      filter (fun cat => negb (truthy (isSystem cat)
                               && includes deletedClassNames (cat_name cat)))
             (accountCategories s)
    else accountCategories s in
  let afterStudents :=
    if deleting then
      handleSaveStudents s
        (filter (fun st => negb (includes deletedClassIds (st_classId st)))
                (students s))
        []
    else s in
  let '(updatedCategories, wasChanged) :=
    fold_left (renameClassStep originalClasses) updatedClasses
              (updatedCategories, deleting) in
  {| classes := updatedClasses;
     students := students afterStudents;
     classFees :=
       if deleting then
         filter (fun cf => negb (includes deletedClassIds (cf_classId cf)))
                (classFees s)
       else classFees s;
     feeConcessions := feeConcessions afterStudents;
     feePayments := feePayments afterStudents;
     accountCategories :=
       if wasChanged then updatedCategories
       else accountCategories afterStudents;
     accounts := accounts afterStudents |}.

End Handlers.

End SimplePostingDashboard.

(** ** The rows of the voucher form *)

Module VoucherFormModal.
Import DoubleEntry.

(** A row of the form as typed: [debit] and [credit] are texts. *)
Record TextRow : Type := mkTextRow {
  tr_id : string;
  tr_accountId : string;
  tr_debit : string;
  tr_credit : string
}.

(** ['accountId' | 'debit' | 'credit']. *)
Inductive Field : Type := accountIdField | debitField | creditField.

(** The rows the form opens with. *)
Definition initialRows (id1 id2 : string) : list TextRow :=
  [ {| tr_id := id1; tr_accountId := EmptyString;
       tr_debit := EmptyString; tr_credit := EmptyString |};
    {| tr_id := id2; tr_accountId := EmptyString;
       tr_debit := EmptyString; tr_credit := EmptyString |} ].

(** [handleTransactionChange]: the updater passed to [setTransactions]. *)
Definition handleTransactionChange (id : string) (field : Field)
    (value : string) (prev : list TextRow) : list TextRow :=
  map (fun t =>
         if String.eqb (tr_id t) id then
           match field with
           | debitField =>
               if negb (String.eqb value EmptyString) then
                 {| tr_id := tr_id t; tr_accountId := tr_accountId t;
                    tr_debit := value; tr_credit := EmptyString |}
               else
                 {| tr_id := tr_id t; tr_accountId := tr_accountId t;
                    tr_debit := value; tr_credit := tr_credit t |}
           | creditField =>
               if negb (String.eqb value EmptyString) then
                 {| tr_id := tr_id t; tr_accountId := tr_accountId t;
                    tr_debit := EmptyString; tr_credit := value |}
               else
                 {| tr_id := tr_id t; tr_accountId := tr_accountId t;
                    tr_debit := tr_debit t; tr_credit := value |}
           | accountIdField =>
               {| tr_id := tr_id t; tr_accountId := value;
                  tr_debit := tr_debit t; tr_credit := tr_credit t |}
           end
         else t)
      prev.

(** [addTransactionRow] and [removeTransactionRow]. *)
Definition addTransactionRow (newId : string) (prev : list TextRow)
  : list TextRow :=
  prev ++ [ {| tr_id := newId; tr_accountId := EmptyString;
               tr_debit := EmptyString; tr_credit := EmptyString |} ].

Definition removeTransactionRow (id : string) (prev : list TextRow)
  : list TextRow :=
  filter (fun t => negb (String.eqb (tr_id t) id)) prev.

Section Parsing.
(** [parseFloat] on the texts of the form. *)
Variable parseFloat : string -> JsNumber.

(** The row as [handleSave] and the totals read it:
    [parseFloat(t.debit) || 0] and [parseFloat(t.credit) || 0]. *)
Definition formRow (t : TextRow) : FormRow :=
  {| fr_id := tr_id t;
     fr_accountId := tr_accountId t;
     fr_debit := numberOf (parseFloat (tr_debit t));
     fr_credit := numberOf (parseFloat (tr_credit t)) |}.

(** [handleSave] on the rows as typed. *)
Definition handleSaveForm (date : Z) (voucherType : VoucherType)
    (narration : string) (transactions : list TextRow) : SaveOutcome :=
  handleSave date voucherType narration (map formRow transactions).
End Parsing.

End VoucherFormModal.

(** ** Concessions *)

Module ConcessionManagerModal.
Import School.

(** [Record<string, number>]: the keys with their values, in the order the
    keys were first set.  The keys are generated identifiers, which
    [for ... in] visits in that order. *)
Definition Amounts : Type := list (string * Q).

(** [amounts[key]]. *)
Definition get (amounts : Amounts) (key : string) : option Q :=
  option_map snd (find (fun kv => String.eqb (fst kv) key) amounts).

(** [amounts[key] = value], and [{ ...amounts, [key]: value }]. *)
Fixpoint set (amounts : Amounts) (key : string) (value : Q) : Amounts :=
  match amounts with
  | [] => [(key, value)]
  | (k, v) :: rest =>
      if String.eqb k key then (k, value) :: rest
      else (k, v) :: set rest key value
  end.

(** [Math.min(a, b)] and [Math.max(a, b)] on numbers. *)
Definition min (a b : Q) : Q := if Qle_bool a b then a else b.
Definition max (a b : Q) : Q := if Qle_bool a b then b else a.

(** [concessionsMap]: the amounts the modal opens with for a student. *)
Definition concessionsMap (student : Student)
    (feeConcessions : list FeeConcession) : Amounts :=
  fold_left (fun acc curr =>
               set acc (fc_classFeeId curr) (concessionAmount curr))
            (filter (fun fc => String.eqb (fc_studentId fc) (st_id student))
                    feeConcessions)
            [].

(** [handleConcessionChange]: the updater passed to
    [setLocalConcessions]. *)
Definition handleConcessionChange (classFeeId : string)
    (amount maxAmount : Q) (prev : Amounts) : Amounts :=
  let validAmount := max 0 (min amount maxAmount) in
  set prev classFeeId validAmount.

Section Saving.
(** The identifiers [generateId()] returns, in the order of the calls. *)
Variable generateId : nat -> string.

(** One iteration of [for (const classFeeId in localConcessions)], on the
    pair of [newStudentConcessions] and the number of identifiers
    drawn. *)
Definition saveStep (student : Student)
    (feeConcessions : list FeeConcession)
    (state : list FeeConcession * nat) (entry : string * Q)
  : list FeeConcession * nat :=
  let classFeeId := fst entry in
  let concessionAmount' := snd entry in
  if Qgtb concessionAmount' 0 then
    match find (fun fc => String.eqb (fc_studentId fc) (st_id student)
                          && String.eqb (fc_classFeeId fc) classFeeId)
               feeConcessions
    with
    | Some existing =>
        (fst state
         ++ [ {| fc_id := fc_id existing;
                 fc_studentId := fc_studentId existing;
                 fc_classFeeId := fc_classFeeId existing;
                 concessionAmount := concessionAmount' |} ],
         snd state)
    | None =>
        (fst state
         ++ [ {| fc_id := generateId (snd state);
                 fc_studentId := st_id student;
                 fc_classFeeId := classFeeId;
                 concessionAmount := concessionAmount' |} ],
         S (snd state))
    end
  else state.

(** [handleSaveConcessions]: the collection passed to [onSave]. *)
Definition handleSaveConcessions (student : Student)
    (feeConcessions : list FeeConcession) (localConcessions : Amounts)
  : list FeeConcession :=
  let otherStudentConcessions :=
    filter (fun fc => negb (String.eqb (fc_studentId fc) (st_id student)))
           feeConcessions in
  let newStudentConcessions :=
    fst (fold_left (saveStep student feeConcessions) localConcessions
                   ([], O)) in
  otherStudentConcessions ++ newStudentConcessions.
End Saving.

End ConcessionManagerModal.

(** ** Users *)

Module UserManager.

(** [type UserRole]. *)
Inductive UserRole : Type := superadmin | admin.

(** [interface User]. *)
Record User : Type := mkUser {
  u_id : string;
  u_email : string;
  u_password : string;
  u_role : UserRole
}.

(** [role !== 'superadmin']. *)
Definition notSuperadmin (role : UserRole) : bool :=
  match role with
  | superadmin => false
  | admin => true
  end.

(** [handleSave].  [currentUserForm] is the form held in state; the
    modal opens it with the four fields of a user, the [id] empty for a
    new user, so that [{ ...u, ...currentUserForm }] is the form. *)
Definition handleSave (users : list User) (currentUserForm : option User)
    (newId : string) : Outcome (list User) :=
  match currentUserForm with
  | None => Alerted "Email and password are required."
  | Some form =>
      if String.eqb (u_email form) EmptyString
         || String.eqb (u_password form) EmptyString
      then Alerted "Email and password are required."
      else if negb (String.eqb (u_id form) EmptyString) then
        let originalUser :=
          find (fun u => String.eqb (u_id u) (u_id form)) users in
        if match originalUser with
           | Some original => String.eqb (u_email original)
                                         "superadmin@app.com"
           | None => false
           end
           && notSuperadmin (u_role form)
        then Alerted "Cannot change the role of the default superadmin."
        else
          Saved (map (fun u => if String.eqb (u_id u) (u_id form)
                               then form else u)
                     users)
      else if existsb (fun u => String.eqb (u_email u) (u_email form)) users
      then Alerted "A user with this email already exists."
      else
        Saved (users ++ [ {| u_id := newId;
                             u_email := u_email form;
                             u_password := u_password form;
                             u_role := admin |} ])
  end.

(** [handleDelete], with the answer given to [window.confirm]. *)
Definition handleDelete (confirmed : bool) (users : list User) (id : string)
  : Outcome (list User) :=
  let userToDelete := find (fun u => String.eqb (u_id u) id) users in
  if match userToDelete with
     | Some u => negb (notSuperadmin (u_role u))
     | None => false
     end
  then Alerted "Super admin accounts cannot be deleted."
  else if confirmed then
    Saved (filter (fun u => negb (String.eqb (u_id u) id)) users)
  else Nothing.

End UserManager.

(** ** Attendance *)

Module AttendanceManager.
Import School.

(** [type AttendanceStatus]: present, absent, leave, holiday, or the empty
    string. *)
Inductive AttendanceStatus : Type := P | A | L | H | Blank.

(** [interface DailyAttendance]. *)
Record DailyAttendance : Type := mkDaily {
  status : AttendanceStatus;
  inTime : string;
  outTime : string
}.

(** [interface Holiday] and [interface WorkableSunday]; a date is a day
    ordinal, counted from 1970-01-01. *)
Record Holiday : Type := mkHoliday {
  h_id : string;
  h_date : Z;
  h_name : string
}.

Record WorkableSunday : Type := mkWorkableSunday {
  ws_id : string;
  ws_date : Z
}.

(** [interface AttendanceRecord] and [interface AttendanceData]: objects
    keyed by date and by student, as their keys with their values. *)
Definition AttendanceRecord : Type := list (Z * DailyAttendance).
Definition AttendanceData : Type := list (string * AttendanceRecord).

(** [data[studentId]] and [record[dateStr]]. *)
Definition recordOf (data : AttendanceData) (studentId : string)
  : option AttendanceRecord :=
  option_map snd (find (fun kv => String.eqb (fst kv) studentId) data).

Definition entryOf (record : AttendanceRecord) (dateStr : Z)
  : option DailyAttendance :=
  option_map snd (find (fun kv => (fst kv =? dateStr)%Z) record).

(** [record[dateStr] = daily] and [data[studentId] = record]. *)
Fixpoint setEntry (record : AttendanceRecord) (dateStr : Z)
    (daily : DailyAttendance) : AttendanceRecord :=
  match record with
  | [] => [(dateStr, daily)]
  | (k, v) :: rest =>
      if (k =? dateStr)%Z then (k, daily) :: rest
      else (k, v) :: setEntry rest dateStr daily
  end.

Fixpoint setRecord (data : AttendanceData) (studentId : string)
    (record : AttendanceRecord) : AttendanceData :=
  match data with
  | [] => [(studentId, record)]
  | (k, v) :: rest =>
      if String.eqb k studentId then (k, record) :: rest
      else (k, v) :: setRecord rest studentId record
  end.

(** [date.getDay()] of the local date: 0 is Sunday.  1970-01-01 was a
    Thursday. *)
Definition getDay (date : Z) : Z := ((date + 4) mod 7)%Z.

(** [holidaySet.has(dateStr)] and [workableSundaySet.has(dateStr)]. *)
Definition isHoliday (holidays : list Holiday) (dateStr : Z) : bool :=
  existsb (fun h => (h_date h =? dateStr)%Z) holidays.

Definition isWorkableSunday (workableSundays : list WorkableSunday)
    (dateStr : Z) : bool :=
  existsb (fun ws => (ws_date ws =? dateStr)%Z) workableSundays.

(** [getAttendanceForDay]. *)
Definition getAttendanceForDay (liveAttendance : AttendanceData)
    (studentId : string) (dateStr : Z) : DailyAttendance :=
  let blank := {| status := Blank; inTime := EmptyString;
                  outTime := EmptyString |} in
  match recordOf liveAttendance studentId with
  | Some record =>
      match entryOf record dateStr with
      | Some daily => daily
      | None => blank
      end
  | None => blank
  end.

(** The field and value of a change of a cell of the sheet. *)
Inductive Change : Type :=
| SetStatus (value : AttendanceStatus)
| SetInTime (value : string)
| SetOutTime (value : string).

(** [x || fallback] on strings. *)
Definition orElse (x fallback : string) : string :=
  if String.eqb x EmptyString then fallback else x.

(** [handleAttendanceChange]: the data passed to [setLiveAttendance].
    [randomIn] and [randomOut] are the values of
    [getRandomTimeInRange('09:00', '10:00')] and
    [getRandomTimeInRange('16:00', '17:00')]. *)
Definition handleAttendanceChange (randomIn randomOut : string)
    (liveAttendance : AttendanceData) (studentId : string) (dateStr : Z)
    (change : Change) : AttendanceData :=
  let baseData := getAttendanceForDay liveAttendance studentId dateStr in
  let record :=
    match recordOf liveAttendance studentId with
    | Some record => record
    | None => []
    end in
  let merged :=
    match entryOf record dateStr with
    | Some daily => daily
    | None => baseData
    end in
  let newDailyData :=
    match change with
    | SetStatus P =>
        {| status := P;
           inTime := orElse (inTime merged) randomIn;
           outTime := orElse (outTime merged) randomOut |}
    | SetStatus value =>
        {| status := value; inTime := EmptyString; outTime := EmptyString |}
    | SetInTime value =>
        {| status := status merged; inTime := value;
           outTime := outTime merged |}
    | SetOutTime value =>
        {| status := status merged; inTime := inTime merged;
           outTime := value |}
    end in
  setRecord liveAttendance studentId (setEntry record dateStr newDailyData).

(** [cycle[nextIndex]] of [handleStatusCycle]. *)
Definition nextStatus (currentStatus : AttendanceStatus)
  : AttendanceStatus :=
  match currentStatus with
  | P => A
  | A => L
  | L => P
  | H | Blank => P
  end.

(** [handleStatusCycle]. *)
Definition handleStatusCycle (randomIn randomOut : string)
    (liveAttendance : AttendanceData) (studentId : string) (dateStr : Z)
  : AttendanceData :=
  let currentStatus :=
    status (getAttendanceForDay liveAttendance studentId dateStr) in
  handleAttendanceChange randomIn randomOut liveAttendance studentId dateStr
                         (SetStatus (nextStatus currentStatus)).

(** The counts of a summary; the percentage, a text made by [toFixed(2)],
    is left out. *)
Record Summary : Type := mkSummary {
  present : nat;
  absent : nat;
  leave : nat;
  workingDays : nat
}.

(** The body of [month.days.forEach] in [getMonthlySummary] and in
    [overallSummary]. *)
Definition countDay (holidays : list Holiday)
    (workableSundays : list WorkableSunday)
    (liveAttendance : AttendanceData) (studentId : string)
    (counts : Summary) (dateStr : Z) : Summary :=
  let dayOfWeek := getDay dateStr in
  if (negb (dayOfWeek =? 0)%Z || isWorkableSunday workableSundays dateStr)
     && negb (isHoliday holidays dateStr)
  then
    match status (getAttendanceForDay liveAttendance studentId dateStr) with
    | P => {| present := S (present counts); absent := absent counts;
              leave := leave counts;
              workingDays := S (workingDays counts) |}
    | A => {| present := present counts; absent := S (absent counts);
              leave := leave counts;
              workingDays := S (workingDays counts) |}
    | L => {| present := present counts; absent := absent counts;
              leave := S (leave counts);
              workingDays := S (workingDays counts) |}
    | H | Blank =>
        {| present := present counts; absent := absent counts;
           leave := leave counts;
           workingDays := S (workingDays counts) |}
    end
  else counts.

(** A month of the sheet: the dates of its days. *)
Definition Month : Type := list Z.

(** The sheet held in state once it has been generated. *)
Record Sheet : Type := mkSheet {
  sheet_students : list Student;
  months : list Month
}.

Definition noCounts : Summary :=
  {| present := O; absent := O; leave := O; workingDays := O |}.

(** [getMonthlySummary]; [None] is the sheet that has not been
    generated. *)
Definition getMonthlySummary (holidays : list Holiday)
    (workableSundays : list WorkableSunday)
    (liveAttendance : AttendanceData) (sheet : option Sheet)
    (studentId : string) (month : Month) : Summary :=
  match sheet with
  | None => noCounts
  | Some _ =>
      fold_left (countDay holidays workableSundays liveAttendance studentId)
                month noCounts
  end.

(** [overallSummary]: the counts for each student of the sheet. *)
Definition overallSummary (holidays : list Holiday)
    (workableSundays : list WorkableSunday)
    (liveAttendance : AttendanceData) (sheet : option Sheet)
  : list (string * Summary) :=
  match sheet with
  | None => []
  | Some sheet =>
      map (fun student =>
             (st_id student,
              fold_left
                (fun counts month =>
                   fold_left (countDay holidays workableSundays
                                       liveAttendance (st_id student))
                             month counts)
                (months sheet) noCounts))
          (sheet_students sheet)
  end.

(** [(a, b) => new Date(a.date).getTime() - new Date(b.date).getTime()]. *)
Definition byDate {A : Type} (date : A -> Z) (a b : A) : Z :=
  (date a - date b)%Z.

(** [handleSave] of [WorkableSundayManager]; [None] is the empty text of
    the date input. *)
Definition handleSaveWorkableSunday (workableSundays : list WorkableSunday)
    (currentDate : option Z) (newId : string)
  : Outcome (list WorkableSunday) :=
  match currentDate with
  | None => Alerted "Please select a date."
  | Some date =>
      if negb (getDay date =? 0)%Z then
        Alerted "The selected date is not a Sunday."
      else if existsb (fun ws => (ws_date ws =? date)%Z) workableSundays then
        Alerted "This Sunday is already marked as workable."
      else
        Saved (sortWith (byDate ws_date)
                 (workableSundays
                  ++ [ {| ws_id := newId; ws_date := date |} ]))
  end.

(** [handleDateHeaderClick], with the answer given to [window.confirm]
    and the text given to [window.prompt] ([None] where the operator
    cancelled). *)
Definition handleDateHeaderClick (confirmed : bool)
    (holidayName : option string) (holidays : list Holiday) (dateStr : Z)
    (newId : string) : Outcome (list Holiday) :=
  match find (fun h => (h_date h =? dateStr)%Z) holidays with
  | Some existingHoliday =>
      if confirmed then
        Saved (filter (fun h => negb (String.eqb (h_id h)
                                                 (h_id existingHoliday)))
                      holidays)
      else Nothing
  | None =>
      match holidayName with
      | Some name =>
          if negb (String.eqb name EmptyString)
             && negb (String.eqb (trim name) EmptyString)
          then
            Saved (sortWith (byDate h_date)
                     (holidays
                      ++ [ {| h_id := newId; h_date := dateStr;
                              h_name := trim name |} ]))
          else Nothing
      | None => Nothing
      end
  end.

End AttendanceManager.

(** * Notions used to state the properties *)

Module SimplePostingSpec.
Import SimplePosting.

(** The overrides stored for date [D], and those stored for other dates. *)
Definition onDate (D : Z) (ob : OpeningBalance) : bool := (ob_id ob =? D)%Z.
Definition offDate (D : Z) (ob : OpeningBalance) : bool :=
  negb (ob_id ob =? D)%Z.

(** Some account's [categoryId] is [id]. *)
Definition referenced (accounts : list Account) (id : string) : Prop :=
  exists acc, In acc accounts /\ categoryId acc = id.

Definition exampleCategories : list AccountCategory :=
  [ mkAccountCategory "c1" "Staff" None;
    mkAccountCategory "c2" "Vendors" (Some false) ].

Definition exampleAccounts : list Account :=
  [ mkAccount "a1" "Head clerk" None None "c1" None None ].

End SimplePostingSpec.

Module DoubleEntrySpec.
Import DoubleEntry.

(** The journal stores that arise from the empty journal by posting
    vouchers ([handleSaveNewJournalEntry]) and by removing entries (the
    cascades filter the collection). *)
Inductive posted : list JournalEntry -> Prop :=
| posted_empty : posted []
| posted_new (js : list JournalEntry) (entry : JournalEntryDraft)
    (newId : string) :
    posted js -> posted (handleSaveNewJournalEntry js entry newId)
| posted_filter (js : list JournalEntry) (keep : JournalEntry -> bool) :
    posted js -> posted (filter keep js).

(** Voucher numbers strictly increase along the list. *)
Definition increasing (js : list JournalEntry) : Prop :=
  StronglySorted (fun a b => (voucherNumber a < voucherNumber b)%Z) js.

(** A payment with identifier [id] is in the collection. *)
Definition hasPayment (payments : list FeePayment) (id : string) : Prop :=
  exists p, In p payments /\ fp_id p = id.

(** [id] identifies a payment of [old] and no payment of [data]. *)
Definition removedId (old data : list FeePayment) (id : string) : Prop :=
  hasPayment old id /\ ~ hasPayment data id.

(** The sums of the debit lines and of the credit lines of a voucher. *)
Definition debitTotal (lines : list Transaction) : Q :=
  reduceSum (fun t => match t_type t with debit => t_amount t | credit => 0 end)
            lines.

Definition creditTotal (lines : list Transaction) : Q :=
  reduceSum (fun t => match t_type t with credit => t_amount t | debit => 0 end)
            lines.

Definition balanced (je : JournalEntry) : Prop :=
  debitTotal (transactions je) == creditTotal (transactions je).

(** Example data: two payments, the first with a linked receipt voucher. *)
Definition payment1 : FeePayment :=
  mkFeePayment "_p1" "_s1" "_cf1" 500 19727 EmptyString.
Definition payment2 : FeePayment :=
  mkFeePayment "_p2" "_s2" "_cf1" 250 19728 EmptyString.
Definition receipt1 : JournalEntry :=
  mkJournalEntry "_v1" 19727 Receipt 1 "Fee received"
    [ mkTransaction "_cash" debit 500; mkTransaction "_fees" credit 500 ]
    (Some "_p1").
Definition exampleBooks : Books :=
  {| feePayments := [ payment1; payment2 ]; journalEntries := [ receipt1 ] |}.

(** A voucher form with three rows: the third has an amount but no account
    selected. *)
Definition formWithBlankAccount : list FormRow :=
  [ mkFormRow "_r1" "_cash" 100 0;
    mkFormRow "_r2" "_fees" 0 50;
    mkFormRow "_r3" EmptyString 0 50 ].

End DoubleEntrySpec.

Module OpeningBalanceSpec.
Import SimplePosting.

(** The override with the latest date strictly before [D]; among several of
    that date, the one stored first. *)
Fixpoint nearestOverrideBefore (obs : list OpeningBalance) (D : Z)
  : option OpeningBalance :=
  match obs with
  | [] => None
  | ob :: rest =>
      if (ob_id ob <? D)%Z then
        match nearestOverrideBefore rest D with
        | Some later =>
            if (ob_id ob <? ob_id later)%Z then Some later else Some ob
        | None => Some ob
        end
      else nearestOverrideBefore rest D
  end.

(** The dates of the fee payments, income entries and expenditures. *)
Definition transactionDates (st : Store) : list Z :=
  map fp_paymentDate (feePayments st)
  ++ map p_date (incomeEntries st)
  ++ map p_date (expenditures st).

(** The least of a list of dates. *)
Fixpoint earliest (dates : list Z) : option Z :=
  match dates with
  | [] => None
  | d :: rest =>
      match earliest rest with
      | Some e => Some (Z.min d e)
      | None => Some d
      end
  end.

(** The [n] consecutive days that start with [first]. *)
Fixpoint daysFrom (first : Z) (n : nat) : list Z :=
  match n with
  | O => []
  | S n' => first :: daysFrom (first + 1)%Z n'
  end.

(** The days from [first] (inclusive) up to [D] (exclusive). *)
Definition daysBetween (first D : Z) : list Z :=
  daysFrom first (Z.to_nat (D - first)).

(** The anchor of the derivation for [D]: the date and signed value of the
    nearest override before [D]; without one, zero at the date of the
    earliest transaction; without transactions, zero at [D]. *)
Definition anchorOf (st : Store) (D : Z) : Z * Q :=
  match nearestOverrideBefore (openingBalances st) D with
  | Some a => (ob_id a, signedAmount (ob_amount a) (ob_type a))
  | None =>
      match earliest (transactionDates st) with
      | Some e => (e, 0)
      | None => (D, 0)
      end
  end.

(** Fee payments plus income minus expenditure of a day. *)
Definition netOfDay (st : Store) (day : Z) : Q :=
  incomeForDay st day - expenditureForDay st day.

(** One day of the replay as the description has it: a day that has an
    override of its own starts from that override; the net of the day is
    added. *)
Definition dayStep (st : Store) (running : Q) (day : Z) : Q :=
  let running :=
    match findOverride (openingBalances st) day with
    | Some ob => signedAmount (ob_amount ob) (ob_type ob)
    | None => running
    end in
  running + netOfDay st day.

(** The opening balance for [D] as the description derives it.  With
    [anchorDayIncluded] the replay starts on the anchor's date, otherwise
    on the day after it. *)
Definition openingBalanceBy (anchorDayIncluded : bool) (st : Store) (D : Z)
  : Balance :=
  match findOverride (openingBalances st) D with
  | Some ob => {| amount := ob_amount ob; type := ob_type ob |}
  | None =>
      let '(anchorDate, anchorValue) := anchorOf st D in
      let firstDay :=
        if anchorDayIncluded then anchorDate else (anchorDate + 1)%Z in
      balanceOfSigned
        (fold_left (dayStep st) (daysBetween firstDay D) anchorValue)
  end.

(** Dates do not increase along the list. *)
Definition descending (l : list OpeningBalance) : Prop :=
  StronglySorted (fun a b => (ob_id b <= ob_id a)%Z) l.

(** The sum the replay adds up when no override lies on its way. *)
Definition plainReplay (st : Store) (days : list Z) (start : Q) : Q :=
  fold_left (fun running day => running + netOfDay st day) days start.

(** The scenario of the description: an override of 1000 credit on
    2024-03-01, an income of 300 on 2024-03-02, an expenditure of 100 on
    2024-03-03.  Day ordinals count from 1970-01-01: 19783 is 2024-03-01. *)
Definition marchStore : Store :=
  {| openingBalances := [ mkOpeningBalance 19783 1000 credit ];
     feePayments := [];
     incomeEntries := [ mkPosting "_i1" 19784%Z "_a1" 300 EmptyString ];
     expenditures := [ mkPosting "_e1" 19785%Z "_a2" 100 EmptyString ] |}.

(** An override of 1000 credit on 2024-03-01 and an income of 300 on the
    same day. *)
Definition anchorDayStore : Store :=
  {| openingBalances := [ mkOpeningBalance 19783 1000 credit ];
     feePayments := [];
     incomeEntries := [ mkPosting "_i1" 19783%Z "_a1" 300 EmptyString ];
     expenditures := [] |}.

End OpeningBalanceSpec.

Module ReportSpec.
Import DoubleEntry DoubleEntrySpec.

(** The sum of the accounts' opening balances, debit positive. *)
Definition openingTotal (accounts : list Account) : Q :=
  reduceSum (fun acc => debitPositive (openingBalanceType acc)
                                      (openingBalance acc))
            accounts.

(** Every line of the voucher names an account of the chart. *)
Definition linesKnown (accounts : list Account) (je : JournalEntry) : Prop :=
  forall t, In t (transactions je) ->
            In (t_accountId t) (map acc_id accounts).

(** The sum of the balances held in the [balances] object. *)
Definition heldTotal (held : Balances) : Q :=
  reduceSum br_balance (map snd held).

(** The body of [je.transactions.forEach] in [trialBalanceData]. *)
Definition postLine (held : Balances) (t : Transaction) : Balances :=
  match lookup held (t_accountId t) with
  | Some _ =>
      addTo held (t_accountId t) (debitPositive (t_type t) (t_amount t))
  | None => held
  end.

(** The body of [accounts.forEach] in [trialBalanceData]. *)
Definition openAccount (held : Balances) (acc : Account) : Balances :=
  assign held (acc_id acc)
    {| br_name := acc_name acc;
       br_group := acc_group acc;
       br_balance := debitPositive (openingBalanceType acc)
                                   (openingBalance acc) |}.

(** Strings compared by their character codes, a [localeCompare] to
    evaluate examples with. *)
Definition codeCompare (a b : string) : Z :=
  match String.compare a b with
  | Lt => (-1)%Z
  | Eq => 0%Z
  | Gt => 1%Z
  end.

(** A ledger row read as date, amount with credit positive, balance. *)
Definition signedRow (row : LedgerRow) : RowDate * Q * Q :=
  (row_date row, row_credit row - row_debit row, row_balance row).

(** The scenario of the description.  Day ordinals count from 1970-01-01:
    19723 is 2024-01-01. *)
Definition accountA : Account :=
  mkAccount "_A" "A" Liabilities 1000 credit false.
Definition cashAccount : Account :=
  mkAccount "_cash" "CashAccount" Assets 0 debit true.
Definition voucherV1 : JournalEntry :=
  mkJournalEntry "_v1" 19727 Journal 1 "V1"
    [ mkTransaction "_A" debit 500; mkTransaction "_cash" credit 500 ] None.
Definition voucherV2 : JournalEntry :=
  mkJournalEntry "_v2" 19732 Journal 2 "V2"
    [ mkTransaction "_cash" debit 200; mkTransaction "_A" credit 200 ] None.

(** The rows the description lists for the scenario. *)
Definition describedRows : list (RowDate * Q * Q) :=
  [ (On 19727, -500, 500); (On 19732, 200, 700) ].

(** A chart with one account that opens at 1000 debit, and one that opens
    at half a hundredth. *)
Definition cashOpensAt1000 : Account :=
  mkAccount "_cash" "Cash in Hand" Assets 1000 debit true.
Definition feesAccount : Account :=
  mkAccount "_fees" "Tuition Fees" Income 0 credit true.
Definition cashOpensAtHalfCent : Account :=
  mkAccount "_cash" "Cash in Hand" Assets (1 # 200) debit true.

End ReportSpec.

Module ImportSpec.
Import SimplePosting.

(** The account-name cell holds a text that is not blank. *)
Definition nameGiven (row : Row) (name : string) : Prop :=
  exists text, row_accountName row = Text text
               /\ name = trim text /\ name <> EmptyString.

(** The date cell holds a text that [parseDateFromDDMMYYYY] turns into
    [isoDate]. *)
Definition dateAccepted (row : Row) (isoDate : string) : Prop :=
  exists text, row_date row = Text text
               /\ isoDate = parseDateFromDDMMYYYY text
               /\ isoDate <> EmptyString.

(** The row yields a record: it has a name, an accepted date, and a
    positive debit or a positive credit. *)
Definition importable (row : Row) (name isoDate : string) : Prop :=
  nameGiven row name
  /\ dateAccepted row isoDate
  /\ (isPositive (row_debit row) = true
      \/ isPositive (row_credit row) = true).

(** [account] is the account the row is booked against: the first account
    of the loop state with that name, letter case ignored, or else a new
    account of the imported category, appended to the accounts. *)
Definition resolved (importedCategoryId : string) (s s' : ImportState)
    (name : string) (account : Account) : Prop :=
  toLowerCase (acc_name account) = toLowerCase name
  /\ ((In account (tempAccounts s) /\ tempAccounts s' = tempAccounts s)
      \/ ((forall a, In a (tempAccounts s) ->
                     toLowerCase (acc_name a) <> toLowerCase name)
          /\ tempAccounts s' = tempAccounts s ++ [account]
          /\ acc_name account = name
          /\ categoryId account = importedCategoryId)).

(** The loop state before the first row of an import into empty stores. *)
Definition emptyImport : ImportState :=
  {| tempAccounts := [];
     tempExpenditures := [];
     tempIncomes := [];
     newAccountsCreated := 0;
     transactionsImported := 0;
     idsDrawn := 1 |}.

(** Identifiers for examples. *)
Definition numberedId (n : nat) : string :=
  String "_" (String (ascii_of_nat (48 + n)) EmptyString).

(** A row with both a debit and a credit. *)
Definition rowWithBoth : Row :=
  {| row_accountName := Text " Stationery ";
     row_date := Text "05/01/2024";
     row_debit := Num 500;
     row_credit := Num 200;
     row_narration := "Paper" |}.

(** A row with a credit only. *)
Definition rowWithCredit : Row :=
  {| row_accountName := Text "Donations";
     row_date := Text "06/01/2024";
     row_debit := Num 0;
     row_credit := Num 750;
     row_narration := "Alumni" |}.

(** Proof step for a row that appends nothing: the state is unchanged, and
    the row is shown not to be importable. *)
Ltac skipped s :=
  exists s; split; [ reflexivity | ];
  split; [ intros _; split; reflexivity | ];
  intros name iso [[text' [Hn [Hname Hne]]] [[d' [Hd [Hiso Hine]]] Hpos]].

End ImportSpec.

Module DayBookSpec.
Import SimplePosting DayBookManager OpeningBalanceSpec.

(** The character [c] occurs in [s]. *)
Fixpoint occurs (c : ascii) (s : string) : bool :=
  match s with
  | EmptyString => false
  | String c' rest => Ascii.eqb c' c || occurs c rest
  end.

(** A part of a date: [n] characters, none of them a separator. *)
Definition datePart (n : nat) (s : string) : Prop :=
  String.length s = n /\ occurs "-" s = false /\ occurs "/" s = false.

(** Two stores hold the same overrides and the same postings dated before
    [D]. *)
Definition agreeBefore (D : Z) (st st' : Store) : Prop :=
  openingBalances st = openingBalances st'
  /\ filter (fun p => (fp_paymentDate p <? D)%Z) (feePayments st)
     = filter (fun p => (fp_paymentDate p <? D)%Z) (feePayments st')
  /\ filter (fun i => (p_date i <? D)%Z) (incomeEntries st)
     = filter (fun i => (p_date i <? D)%Z) (incomeEntries st')
  /\ filter (fun e => (p_date e <? D)%Z) (expenditures st)
     = filter (fun e => (p_date e <? D)%Z) (expenditures st').

(** Every stored entry has a positive amount and names an account. *)
Definition validPostings (entries : list (Posting Z)) : Prop :=
  Forall (fun e => 0 < p_amount e /\ p_accountId e <> EmptyString) entries.

(** A form the handlers accept: an account is selected and the amount is
    positive. *)
Definition acceptable (form : Posting Z) : Prop :=
  p_accountId form <> EmptyString /\ 0 < p_amount form.

(** The entries stored under an identifier other than [id]. *)
Definition others (id : string) (entries : list (Posting Z))
  : list (Posting Z) :=
  filter (fun e => negb (String.eqb (p_id e) id)) entries.

(** The store of the March scenario with a further income of 50 on
    2024-03-05. *)
Definition marchStoreLater : Store :=
  {| openingBalances := openingBalances marchStore;
     feePayments := feePayments marchStore;
     incomeEntries :=
       incomeEntries marchStore
       ++ [ mkPosting "_i2" 19787%Z "_a1" 50 EmptyString ];
     expenditures := expenditures marchStore |}.

End DayBookSpec.

Module DashboardSpec.
Import School DoubleEntry DoubleEntrySpec DoubleEntryDashboard.

(** Every journal entry linked to a fee payment names a stored payment. *)
Definition receiptsLinked (b : Books) : Prop :=
  forall je id,
    In je (journalEntries b) ->
    relatedFeePaymentId je = Some id -> id <> EmptyString ->
    hasPayment (feePayments b) id.

(** Every fee payment and every concession names a stored student, every
    student and every fee assignment a stored class. *)
Definition paymentsOfStudents (s : State) : Prop :=
  forall p, In p (feePayments (books s)) ->
            In (fp_studentId p) (map st_id (students s)).

Definition concessionsOfStudents (s : State) : Prop :=
  forall fc, In fc (feeConcessions s) ->
             In (fc_studentId fc) (map st_id (students s)).

Definition studentsOfClasses (s : State) : Prop :=
  forall st, In st (students s) ->
             In (st_classId st) (map cl_id (classes s)).

Definition classFeesOfClasses (s : State) : Prop :=
  forall cf, In cf (classFees s) ->
             In (cf_classId cf) (map cl_id (classes s)).

Definition consistent (s : State) : Prop :=
  receiptsLinked (books s)
  /\ paymentsOfStudents s /\ concessionsOfStudents s
  /\ studentsOfClasses s /\ classFeesOfClasses s.

(** The receipt voucher posted for a fee payment. *)
Definition receiptFor (journal : list JournalEntry) (cash fee : Account)
    (amount : Q) (date : Z) (text paymentId entryId : string)
  : JournalEntry :=
  {| je_id := entryId;
     je_date := date;
     voucherType := Receipt;
     voucherNumber := (lastVoucherNumber journal + 1)%Z;
     narration := text;
     transactions :=
       [ mkTransaction (acc_id cash) debit amount;
         mkTransaction (acc_id fee) credit amount ];
     relatedFeePaymentId := Some paymentId |}.

(** Every line of the voucher names an account of the chart. *)
Definition linesInChart (accounts : list Account) (je : JournalEntry)
  : Prop :=
  forall t, In t (transactions je) ->
            exists a, In a accounts /\ acc_id a = t_accountId t.

(** Example data: one class with two students; the first student has paid
    500 with a receipt voucher, the second 250 without one. *)
Definition exampleChart : list Account :=
  [ mkAccount "_cash" "Cash in Hand" Assets 0 debit true;
    mkAccount "_fees" "Tuition Fees" Income 0 credit true ].

Definition exampleState : State :=
  {| classes := [ mkClassInfo "_c1" "Class 1" ];
     students :=
       [ mkStudent "_s1" "101" "Asha" "Ravi" "Meena" "_c1";
         mkStudent "_s2" "102" "Bala" "Kumar" "Devi" "_c1" ];
     classFees := [ mkClassFee "_cf1" "_c1" "_fh1" 1000 ];
     feeConcessions := [ mkFeeConcession "_fc1" "_s1" "_cf1" 100 ];
     books := {| feePayments := [ payment1; payment2 ];
                 journalEntries := [ receipt1 ] |} |}.

Definition examplePaymentForm : PaymentForm :=
  {| pf_classFeeId := "_cf1"; pf_amount := Some 250;
     pf_date := Some 19730%Z; pf_remarks := "Second instalment" |}.

End DashboardSpec.

Module EnrolmentSpec.
Import School SimplePosting SimplePostingDashboard.

(** Every account names a stored category. *)
Definition categoriesKnown (s : State) : Prop :=
  forall acc, In acc (accounts s) ->
              In (categoryId acc) (map cat_id (accountCategories s)).

(** Every account flagged as a student account names a stored student. *)
Definition accountsOfStudents (s : State) : Prop :=
  forall acc id,
    In acc (accounts s) -> truthy (isStudentAccount acc) = true ->
    acc_studentId acc = Some id -> In id (map st_id (students s)).

(** Every fee payment and every concession names a stored student, every
    student and every fee assignment a stored class. *)
Definition paymentsOfStudents (s : State) : Prop :=
  forall p, In p (feePayments s) ->
            In (fp_studentId p) (map st_id (students s)).

Definition concessionsOfStudents (s : State) : Prop :=
  forall fc, In fc (feeConcessions s) ->
             In (fc_studentId fc) (map st_id (students s)).

Definition studentsOfClasses (s : State) : Prop :=
  forall st, In st (students s) ->
             In (st_classId st) (map cl_id (classes s)).

Definition classFeesOfClasses (s : State) : Prop :=
  forall cf, In cf (classFees s) ->
             In (cf_classId cf) (map cl_id (classes s)).

(** The links that saving students and classes keeps. *)
Definition linked (s : State) : Prop :=
  accountsOfStudents s /\ paymentsOfStudents s /\ concessionsOfStudents s
  /\ studentsOfClasses s /\ classFeesOfClasses s.

(** An account that belongs to no student. *)
Definition manual (acc : Account) : bool :=
  match acc_studentId acc with
  | None => true
  | Some _ => false
  end.

(** [acc'] is [acc] but for its name, and is [acc] where [acc] belongs to
    no student. *)
Definition renamed (acc acc' : Account) : Prop :=
  acc_id acc' = acc_id acc
  /\ fatherName acc' = fatherName acc
  /\ mobile acc' = mobile acc
  /\ categoryId acc' = categoryId acc
  /\ isStudentAccount acc' = isStudentAccount acc
  /\ acc_studentId acc' = acc_studentId acc
  /\ (acc_studentId acc = None -> acc_name acc' = acc_name acc).

(** A category that is not a system category. *)
Definition ownCategory (cat : AccountCategory) : bool :=
  negb (truthy (isSystem cat)).

(** [cat'] is [cat] but for its name, and is [cat] where [cat] is not a
    system category. *)
Definition recategorised (cat cat' : AccountCategory) : Prop :=
  cat_id cat' = cat_id cat
  /\ isSystem cat' = isSystem cat
  /\ (truthy (isSystem cat) = false -> cat_name cat' = cat_name cat).

(** The class of the student is stored under a name that is not empty. *)
Definition enrolled (classes : list ClassInfo) (student : Student)
    (className : string) : Prop :=
  exists class,
    find (fun c => String.eqb (cl_id c) (st_classId student)) classes
    = Some class
    /\ cl_name class = className /\ className <> EmptyString.

(** [acc] is the account opened for [student]: it carries the student's
    name and father's name, is flagged as a student account, names the
    student, and lies in a system category of [categories] named after
    the student's class. *)
Definition accountFor (classes : list ClassInfo)
    (categories : list AccountCategory) (student : Student) (acc : Account)
  : Prop :=
  acc_name acc = st_name student
  /\ fatherName acc = Some (st_fatherName student)
  /\ isStudentAccount acc = Some true
  /\ acc_studentId acc = Some (st_id student)
  /\ exists cat className,
       In cat categories /\ cat_id cat = categoryId acc
       /\ cat_name cat = className /\ truthy (isSystem cat) = true
       /\ enrolled classes student className.

(** What holds of the variables of the loop over the new students after
    any number of iterations: the categories are the stored ones followed
    by system categories named after classes, and every new account is the
    account of one of the new students. *)
Definition additionsOk (classes : list ClassInfo)
    (categories : list AccountCategory) (new : list Student)
    (a : Additions) : Prop :=
  (exists added,
      finalCategories a = categories ++ added
      /\ (categoriesChanged a = false -> added = [])
      /\ forall cat, In cat added ->
                     isSystem cat = Some true
                     /\ exists c, In c classes /\ cl_name c = cat_name cat)
  /\ forall acc, In acc (newAccounts a) ->
                 exists student,
                   In student new
                   /\ accountFor classes (finalCategories a) student acc.

(** Example data: one class, one student with an account, one account that
    belongs to no student. *)
Definition exampleSchool : State :=
  {| classes := [ mkClassInfo "_c1" "Class 1" ];
     students := [ mkStudent "_s1" "101" "Asha" "Ravi" "Meena" "_c1" ];
     classFees := [ mkClassFee "_cf1" "_c1" "_fh1" 1000 ];
     feeConcessions := [ mkFeeConcession "_fc1" "_s1" "_cf1" 100 ];
     feePayments := [ mkFeePayment "_p1" "_s1" "_cf1" 500 19727 EmptyString ];
     accountCategories :=
       [ mkAccountCategory "_k1" "Class 1" (Some true);
         mkAccountCategory "_k2" "Vendors" (Some false) ];
     accounts :=
       [ mkAccount "_a1" "Asha" (Some "Ravi") None "_k1" (Some true)
                   (Some "_s1");
         mkAccount "_a2" "Stationer" None None "_k2" (Some false) None ] |}.

Definition newcomer : Student :=
  mkStudent "_s2" "102" "Bala" "Kumar" "Devi" "_c1".

(** Identifiers for examples. *)
Definition freshId (n : nat) : string :=
  String "_" (String "n" (String (ascii_of_nat (48 + n)) EmptyString)).

End EnrolmentSpec.

Module FeeSpec.
Import School FeeManager.

(** The class and fee head of an assignment. *)
Definition assignmentKey (cf : ClassFee) : string * string :=
  (cf_classId cf, cf_feeHeadId cf).

(** The assignments are stored under distinct identifiers, none of them
    empty, and no fee head is assigned twice to a class. *)
Definition assignmentsDistinct (classFees : list ClassFee) : Prop :=
  NoDup (map cf_id classFees)
  /\ ~ In EmptyString (map cf_id classFees)
  /\ NoDup (map assignmentKey classFees).

(** Every assignment has a class, a fee head and a positive amount. *)
Definition assignmentsValid (classFees : list ClassFee) : Prop :=
  Forall (fun cf => cf_classId cf <> EmptyString
                    /\ cf_feeHeadId cf <> EmptyString
                    /\ 0 < cf_amount cf)
         classFees.

(** Every assignment names a stored fee head. *)
Definition headsKnown (feeHeads : list FeeHead) (classFees : list ClassFee)
  : Prop :=
  forall cf, In cf classFees -> In (cf_feeHeadId cf) (map fh_id feeHeads).

(** Example data: one fee head assigned to two classes. *)
Definition exampleAssignments : list ClassFee :=
  [ mkClassFee "_cf1" "_c1" "_fh1" 1000;
    mkClassFee "_cf2" "_c2" "_fh1" 1200 ].

End FeeSpec.

Module LedgerSpec.
Import DoubleEntry.

(** The voucher is dated within the range of the report. *)
Definition inRange (startDate endDate : Z) (je : JournalEntry) : bool :=
  (startDate <=? je_date je)%Z && (je_date je <=? endDate)%Z.

(** The lines of the vouchers that name the account. *)
Definition linesOf (accountId : string) (js : list JournalEntry)
  : list Transaction :=
  flat_map (fun je => filter (fun t => String.eqb (t_accountId t) accountId)
                             (transactions je))
           js.

(** The sum of the lines, debit positive. *)
Definition netOf (lines : list Transaction) : Q :=
  reduceSum (fun t => debitPositive (t_type t) (t_amount t)) lines.

(** The number of opening rows of the report of an account. *)
Definition openingRows (acc : Account) : nat :=
  if Qgtb (openingBalance acc) 0 then 1%nat else 0%nat.

End LedgerSpec.

Module VoucherFormSpec.
Import DoubleEntry VoucherFormModal.

(** The rows the form can hold: those it opens with, and those that arise
    by changing a field, adding a row and removing a row. *)
Inductive reachable : list TextRow -> Prop :=
| reachable_initial (id1 id2 : string) : reachable (initialRows id1 id2)
| reachable_change (id : string) (field : Field) (value : string)
    (rows : list TextRow) :
    reachable rows -> reachable (handleTransactionChange id field value rows)
| reachable_add (newId : string) (rows : list TextRow) :
    reachable rows -> reachable (addTransactionRow newId rows)
| reachable_remove (id : string) (rows : list TextRow) :
    reachable rows -> reachable (removeTransactionRow id rows).

(** A row holds a debit or a credit, never both. *)
Definition oneSided (t : TextRow) : Prop :=
  tr_debit t = EmptyString \/ tr_credit t = EmptyString.

(** A parser for examples: the empty text is not a number, the text "100"
    is 100, every other text is 50. *)
Definition exampleParse (text : string) : JsNumber :=
  if String.eqb text EmptyString then NaN
  else if String.eqb text "100" then Num 100
  else Num 50.

(** A form filled in by the operator: 100 debited to cash, 100 credited to
    fees. *)
Definition filledForm : list TextRow :=
  handleTransactionChange "_r2" creditField "100"
    (handleTransactionChange "_r2" accountIdField "_fees"
       (handleTransactionChange "_r1" debitField "100"
          (handleTransactionChange "_r1" accountIdField "_cash"
             (initialRows "_r1" "_r2")))).

End VoucherFormSpec.

Module ConcessionSpec.
Import School ConcessionManagerModal.

(** The concession belongs to the student. *)
Definition ofStudent (student : Student) (fc : FeeConcession) : bool :=
  String.eqb (fc_studentId fc) (st_id student).

(** The concession belongs to another student. *)
Definition ofOthers (student : Student) (fc : FeeConcession) : bool :=
  negb (String.eqb (fc_studentId fc) (st_id student)).

(** The entries of the form with a positive amount. *)
Definition granted (localConcessions : Amounts) : Amounts :=
  filter (fun kv => Qgtb (snd kv) 0) localConcessions.

(** The fee assignment and the amount of a concession. *)
Definition grant (fc : FeeConcession) : string * Q :=
  (fc_classFeeId fc, concessionAmount fc).

(** Example data. *)
Definition asha : Student :=
  mkStudent "_s1" "101" "Asha" "Ravi" "Meena" "_c1".

Definition storedConcessions : list FeeConcession :=
  [ mkFeeConcession "_fc1" "_s1" "_cf1" 100;
    mkFeeConcession "_fc2" "_s2" "_cf1" 50 ].

Definition concessionId (n : nat) : string :=
  String "_" (String "g" (String (ascii_of_nat (48 + n)) EmptyString)).

End ConcessionSpec.

Module UserSpec.
Import UserManager.

(** The users are stored under distinct identifiers. *)
Definition distinctIds (users : list User) : Prop :=
  NoDup (map u_id users).

(** Example data: the default superadmin and one admin. *)
Definition exampleUsers : list User :=
  [ mkUser "superadmin_001" "superadmin@app.com" "superpassword" superadmin;
    mkUser "_u1" "clerk@school.example" "secret" admin ].

End UserSpec.

Module AttendanceSpec.
Import School AttendanceManager.

(** The day counts as a working day: it is no holiday, and no Sunday
    unless the Sunday is marked workable. *)
Definition workingDay (holidays : list Holiday)
    (workableSundays : list WorkableSunday) (date : Z) : bool :=
  (negb (getDay date =? 0)%Z || isWorkableSunday workableSundays date)
  && negb (isHoliday holidays date).

(** The sum of two summaries, count by count. *)
Definition addSummary (a b : Summary) : Summary :=
  {| present := present a + present b;
     absent := absent a + absent b;
     leave := leave a + leave b;
     workingDays := workingDays a + workingDays b |}.

(** The sum of the monthly summaries of a student. *)
Definition sumOfMonths (holidays : list Holiday)
    (workableSundays : list WorkableSunday)
    (liveAttendance : AttendanceData) (sheet : Sheet) (studentId : string)
  : Summary :=
  fold_right
    (fun month total =>
       addSummary (getMonthlySummary holidays workableSundays liveAttendance
                                     (Some sheet) studentId month)
                  total)
    noCounts (months sheet).

(** The workable Sundays are Sundays, each marked once. *)
Definition sundaysValid (workableSundays : list WorkableSunday) : Prop :=
  Forall (fun ws => getDay (ws_date ws) = 0%Z) workableSundays
  /\ NoDup (map ws_date workableSundays).

(** The holidays are stored under distinct identifiers, one for a date. *)
Definition holidaysDistinct (holidays : list Holiday) : Prop :=
  NoDup (map h_id holidays) /\ NoDup (map h_date holidays).

(** Example data.  Day 19727 is Friday 2024-01-05, day 19729 is Sunday
    2024-01-07. *)
Definition exampleAttendance : AttendanceData :=
  [ ("_s1", [ (19727%Z, mkDaily P "09:10" "16:20") ]) ].

Definition exampleHolidays : list Holiday :=
  [ mkHoliday "_h1" 19748 "Republic Day" ].

End AttendanceSpec.

Module CascadeSpec.
Import School DoubleEntry DoubleEntrySpec DoubleEntryDashboard.





End CascadeSpec.

(** * Properties *)

(** ** Arithmetic and list facts shared by the proofs *)

Lemma Qgtb_true (a b : Q) : Qgtb a b = true <-> b < a.
Proof.
  unfold Qgtb. rewrite negb_true_iff.
  split; intro H.
  - apply Qnot_le_lt. intro Hle.
    apply Qle_bool_iff in Hle. congruence.
  - destruct (Qle_bool a b) eqn:E; [ | reflexivity ].
    apply Qle_bool_iff in E. lra.
Qed.

Lemma Qgtb_false (a b : Q) : Qgtb a b = false <-> a <= b.
Proof.
  unfold Qgtb. rewrite negb_false_iff. apply Qle_bool_iff.
Qed.

Lemma Qltb_true (a b : Q) : Qltb a b = true <-> a < b.
Proof. apply (Qgtb_true b a). Qed.

Lemma Qltb_false (a b : Q) : Qltb a b = false <-> b <= a.
Proof. apply (Qgtb_false b a). Qed.

Lemma filter_filter_same {A : Type} (f : A -> bool) (l : list A) :
  filter f (filter f l) = filter f l.
Proof.
  induction l as [ | x l IH ]; simpl; [ reflexivity | ].
  destruct (f x) eqn:E; simpl; [ rewrite E, IH | ]; auto.
Qed.

Lemma filter_negb_none {A : Type} (f : A -> bool) (l : list A) :
  filter f (filter (fun x => negb (f x)) l) = [].
Proof.
  induction l as [ | x l IH ]; simpl; [ reflexivity | ].
  destruct (f x) eqn:E; simpl; [ | rewrite E ]; auto.
Qed.

(** ** Sums *)

Module SumFacts.

Lemma fold_sum_from {A : Type} (f : A -> Q) (l : list A) (start : Q) :
  fold_left (fun sum x => sum + f x) l start == start + reduceSum f l.
Proof.
  unfold reduceSum. revert start.
  induction l as [ | x l IH ]; intros start; simpl.
  - lra.
  - rewrite (IH (start + f x)), (IH (0 + f x)). lra.
Qed.

Lemma reduceSum_cons {A : Type} (f : A -> Q) (x : A) (l : list A) :
  reduceSum f (x :: l) == f x + reduceSum f l.
Proof.
  unfold reduceSum at 1. simpl. rewrite fold_sum_from. lra.
Qed.

Lemma reduceSum_app {A : Type} (f : A -> Q) (l1 l2 : list A) :
  reduceSum f (l1 ++ l2) == reduceSum f l1 + reduceSum f l2.
Proof.
  induction l1 as [ | x l1 IH ]; simpl.
  - unfold reduceSum at 2. simpl. lra.
  - rewrite !reduceSum_cons, IH. lra.
Qed.

Lemma reduceSum_ext {A : Type} (f g : A -> Q) (l : list A) :
  (forall x, In x l -> f x == g x) -> reduceSum f l == reduceSum g l.
Proof.
  induction l as [ | x l IH ]; intros H; [ reflexivity | ].
  rewrite !reduceSum_cons, IH, (H x).
  - reflexivity.
  - now left.
  - intros y Hy. apply H. now right.
Qed.

Lemma reduceSum_minus {A : Type} (f g : A -> Q) (l : list A) :
  reduceSum f l - reduceSum g l == reduceSum (fun x => f x - g x) l.
Proof.
  induction l as [ | x l IH ].
  - unfold reduceSum. simpl. lra.
  - rewrite !reduceSum_cons, <- IH. lra.
Qed.

Lemma reduceSum_perm {A : Type} (f : A -> Q) (l l' : list A) :
  Permutation l l' -> reduceSum f l == reduceSum f l'.
Proof.
  induction 1 as [ | x l l' Hp IH | x y l | l l' l'' Hp1 IH1 Hp2 IH2 ].
  - reflexivity.
  - rewrite !reduceSum_cons, IH. reflexivity.
  - rewrite !reduceSum_cons. lra.
  - now rewrite IH1.
Qed.

Lemma reduceSum_map {A B : Type} (g : A -> B) (f : B -> Q) (l : list A) :
  reduceSum f (map g l) = reduceSum (fun x => f (g x)) l.
Proof.
  unfold reduceSum. generalize 0.
  induction l as [ | x l IH ]; intros start; simpl; [ reflexivity | ].
  apply IH.
Qed.

Lemma insertSorted_perm {A : Type} (compareFn : A -> A -> Z) (x : A)
    (l : list A) :
  Permutation (insertSorted compareFn x l) (x :: l).
Proof.
  induction l as [ | y l IH ]; simpl; [ reflexivity | ].
  destruct (_ <=? 0)%Z; [ reflexivity | ].
  rewrite IH. apply perm_swap.
Qed.

Lemma sortWith_perm {A : Type} (compareFn : A -> A -> Z) (l : list A) :
  Permutation (sortWith compareFn l) l.
Proof.
  induction l as [ | x l IH ]; simpl; [ reflexivity | ].
  rewrite insertSorted_perm. now constructor.
Qed.
End SumFacts.

(** ** Opening balance overrides (simple-posting variant) *)

Module OverrideFacts.
Import SimplePosting SimplePostingSpec.

(** C10.  After [handleSaveOpeningBalance] for the selected date [D], the
    saved collection holds at most one override for [D]: exactly the
    override [{id: D, amount, type}] of the form when the entered amount is
    greater than zero, and none when it is zero or negative (an existing
    override for [D] is dropped, no zero override is stored).  The overrides
    of all other dates are the ones stored before, in the same order. *)
Theorem handleSaveOpeningBalance_one_per_date :
  forall (obs : list OpeningBalance) (D : Z) (form : Balance),
    let saved := handleSaveOpeningBalance obs D form in
    (List.length (filter (onDate D) saved) <= 1)%nat
    /\ (0 < amount form ->
        filter (onDate D) saved
        = [ {| ob_id := D; ob_amount := amount form;
               ob_type := type form |} ])
    /\ (amount form <= 0 -> filter (onDate D) saved = [])
    /\ filter (offDate D) saved = filter (offDate D) obs.
Proof.
  intros obs D form saved.
  assert (Hon : filter (onDate D) (filter (offDate D) obs) = []).
  { apply (filter_negb_none (onDate D)). }
  assert (Hoff : filter (offDate D) (filter (offDate D) obs)
                 = filter (offDate D) obs).
  { apply filter_filter_same. }
  subst saved. unfold handleSaveOpeningBalance.
  fold (offDate D).
  destruct (Qgtb (amount form) 0) eqn:E.
  - apply Qgtb_true in E.
    rewrite !filter_app, Hon, Hoff. simpl.
    unfold onDate, offDate. simpl. rewrite Z.eqb_refl. simpl.
    repeat split; auto.
    + intro Hle. lra.
    + apply app_nil_r.
  - apply Qgtb_false in E.
    rewrite Hon, Hoff. simpl.
    repeat split; auto.
    intro Hpos. lra.
Qed.

Lemma handleSaveOpeningBalance_one_per_date_witness :
  filter (onDate 5)
         (handleSaveOpeningBalance
            [ mkOpeningBalance 5 200 debit; mkOpeningBalance 7 10 credit ]
            5 (mkBalance 1000 credit))
  = [ mkOpeningBalance 5 1000 credit ]
  /\ filter (onDate 5)
            (handleSaveOpeningBalance
               [ mkOpeningBalance 5 200 debit; mkOpeningBalance 7 10 credit ]
               5 (mkBalance 0 credit))
     = [].
Proof.
  split.
  - apply (handleSaveOpeningBalance_one_per_date
             [ mkOpeningBalance 5 200 debit; mkOpeningBalance 7 10 credit ]
             5 (mkBalance 1000 credit)).
    reflexivity.
  - apply (handleSaveOpeningBalance_one_per_date
             [ mkOpeningBalance 5 200 debit; mkOpeningBalance 7 10 credit ]
             5 (mkBalance 0 credit)).
    discriminate.
Defined.
End OverrideFacts.

(** ** Deleting a category (simple-posting variant) *)

Module CategoryFacts.
Import SimplePosting SimplePostingSpec.

Lemma existsb_referenced (accounts : list Account) (id : string) :
  existsb (fun acc => String.eqb (categoryId acc) id) accounts = true
  <-> referenced accounts id.
Proof.
  unfold referenced. rewrite existsb_exists.
  split; intros [acc [Hin H]]; exists acc; split; auto.
  - now apply String.eqb_eq.
  - now apply String.eqb_eq.
Qed.

Lemma filter_removes_unique (cats : list AccountCategory)
    (c : AccountCategory) :
  NoDup (map cat_id cats) -> In c cats ->
  exists before after,
    cats = before ++ c :: after
    /\ filter (fun x => negb (String.eqb (cat_id x) (cat_id c))) cats
       = before ++ after.
Proof.
  induction cats as [ | x cats IH ]; intros Hnd Hin; [ contradiction | ].
  simpl in Hnd. inversion Hnd as [ | ? ? Hnotin Hnd' ]; subst.
  assert (Hrest : forall l,
             ~ In (cat_id c) (map cat_id l) ->
             filter (fun x => negb (String.eqb (cat_id x) (cat_id c))) l = l).
  { induction l as [ | y l IHl ]; intros Hn; simpl; [ reflexivity | ].
    destruct (String.eqb_spec (cat_id y) (cat_id c)) as [E | E].
    - exfalso. apply Hn. simpl. now left.
    - simpl. f_equal. apply IHl. intro H. apply Hn. simpl. now right. }
  destruct Hin as [-> | Hin].
  - exists [], cats. split; [ reflexivity | ].
    simpl. rewrite String.eqb_refl. simpl. now apply Hrest.
  - destruct (IH Hnd' Hin) as [before [after [Hcats Hfilter]]].
    exists (x :: before), after. split.
    + simpl. now f_equal.
    + simpl. destruct (String.eqb_spec (cat_id x) (cat_id c)) as [E | E].
      * exfalso. apply Hnotin. rewrite E. now apply in_map.
      * simpl. now f_equal.
Qed.

(** C9 (as amended).  [handleDeleteCategory] removes a stored category
    exactly when no account's [categoryId] references it and the operator
    confirms the dialog.  When some account references it the handler only
    alerts and the stored collection is unchanged; when the operator declines
    it is unchanged too.  When the category is removed, every category with
    another id is kept and, ids being unique, exactly that one category is
    removed. *)
Theorem handleDeleteCategory_iff_unreferenced :
  forall (confirmed : bool) (accounts : list Account)
         (cats : list AccountCategory) (c : AccountCategory),
    NoDup (map cat_id cats) ->
    In c cats ->
    let outcome := handleDeleteCategory confirmed accounts cats (cat_id c) in
    let after := categoriesAfter cats outcome in
    (~ In c after <-> ~ referenced accounts (cat_id c) /\ confirmed = true)
    /\ (referenced accounts (cat_id c) ->
        (exists message, outcome = DeleteAlert message) /\ after = cats)
    /\ (confirmed = false -> after = cats)
    /\ (~ referenced accounts (cat_id c) -> confirmed = true ->
        exists before rest,
          cats = before ++ c :: rest /\ after = before ++ rest).
Proof.
  intros confirmed accounts cats c Hnd Hin outcome after.
  subst after outcome. unfold handleDeleteCategory.
  destruct (existsb _ accounts) eqn:E.
  - apply existsb_referenced in E. simpl.
    split; [ | split; [ | split ] ].
    + split; [ intros H; contradiction | intros [H _]; contradiction ].
    + intros _. split; [ eexists; reflexivity | reflexivity ].
    + reflexivity.
    + intros H. contradiction.
  - assert (Hun : ~ referenced accounts (cat_id c)).
    { intro H. apply existsb_referenced in H. congruence. }
    destruct confirmed; simpl.
    + split; [ | split; [ | split ] ].
      * split; [ intros _; now split | ].
        intros _ H. apply filter_In in H. destruct H as [_ H].
        rewrite String.eqb_refl in H. discriminate.
      * contradiction.
      * discriminate.
      * intros _ _. now apply filter_removes_unique.
    + split; [ | split; [ | split ] ].
      * split; [ intros H; contradiction | intros [_ H]; discriminate ].
      * contradiction.
      * reflexivity.
      * discriminate.
Qed.

Lemma handleDeleteCategory_iff_unreferenced_witness :
  categoriesAfter exampleCategories
    (handleDeleteCategory true exampleAccounts exampleCategories "c1")
  = exampleCategories
  /\ exists before rest,
       exampleCategories
       = before ++ mkAccountCategory "c2" "Vendors" (Some false) :: rest
       /\ categoriesAfter exampleCategories
            (handleDeleteCategory true exampleAccounts exampleCategories "c2")
          = before ++ rest.
Proof.
  assert (Hnd : NoDup (map cat_id exampleCategories)).
  { repeat constructor; simpl; intuition discriminate. }
  split.
  - destruct (handleDeleteCategory_iff_unreferenced true exampleAccounts
                exampleCategories (mkAccountCategory "c1" "Staff" None) Hnd)
      as [_ [Hused _]].
    + simpl. auto.
    + apply Hused.
      exists (mkAccount "a1" "Head clerk" None None "c1" None None).
      simpl. auto.
  - destruct (handleDeleteCategory_iff_unreferenced true exampleAccounts
                exampleCategories
                (mkAccountCategory "c2" "Vendors" (Some false)) Hnd)
      as [_ [_ [_ Hfree]]].
    + simpl. auto.
    + apply Hfree; [ | reflexivity ].
      intros [acc [[<- | []] H]]. discriminate.
Defined.

(** C9 as stated fails when the operator declines the dialog: the category
    "c2" is referenced by no account and stays in the collection. *)
Lemma handleDeleteCategory_declined_keeps :
  ~ referenced exampleAccounts "c2"
  /\ handleDeleteCategory false exampleAccounts exampleCategories "c2"
     = DeleteDeclined
  /\ In (mkAccountCategory "c2" "Vendors" (Some false))
        (categoriesAfter exampleCategories
           (handleDeleteCategory false exampleAccounts exampleCategories
                                 "c2")).
Proof.
  split; [ | split ].
  - intros [acc [[<- | []] H]]. discriminate.
  - reflexivity.
  - simpl. auto.
Qed.
End CategoryFacts.

(** ** Voucher numbers (double-entry variant) *)

Module VoucherNumberFacts.
Import DoubleEntry DoubleEntrySpec.

Lemma fold_max_spec (js : list JournalEntry) (acc : Z) :
  let m := fold_left (fun max je => Z.max max (voucherNumber je)) js acc in
  (acc <= m)%Z
  /\ (forall je, In je js -> (voucherNumber je <= m)%Z)
  /\ (m = acc \/ exists je, In je js /\ voucherNumber je = m).
Proof.
  revert acc. induction js as [ | j js IH ]; intros acc; simpl.
  - split; [ lia | split; [ intros je [] | now left ] ].
  - destruct (IH (Z.max acc (voucherNumber j))) as [Hge [Hall Hin]].
    split; [ | split ].
    + lia.
    + intros je [<- | H]; [ lia | now apply Hall ].
    + destruct Hin as [Heq | [je [Hje Heq]]].
      * destruct (Z.max_spec acc (voucherNumber j)) as [[_ E] | [_ E]].
        -- right. exists j. split; [ now left | congruence ].
        -- left. congruence.
      * right. exists je. split; [ now right | assumption ].
Qed.

Lemma increasing_app (js : list JournalEntry) (e : JournalEntry) :
  increasing js ->
  (forall je, In je js -> (voucherNumber je < voucherNumber e)%Z) ->
  increasing (js ++ [e]).
Proof.
  unfold increasing.
  induction js as [ | j js IH ]; intros Hs Hlt; simpl.
  - repeat constructor.
  - inversion Hs as [ | ? ? Hs' Hall ]; subst.
    constructor.
    + apply IH; [ assumption | ]. intros je H. apply Hlt. now right.
    + apply Forall_app. split; [ assumption | ].
      constructor; [ | constructor ]. apply Hlt. now left.
Qed.

Lemma increasing_filter (js : list JournalEntry)
    (keep : JournalEntry -> bool) :
  increasing js -> increasing (filter keep js).
Proof.
  unfold increasing.
  induction js as [ | j js IH ]; intros Hs; simpl; [ constructor | ].
  inversion Hs as [ | ? ? Hs' Hall ]; subst.
  destruct (keep j).
  - constructor; [ now apply IH | ].
    rewrite Forall_forall in *. intros x Hx.
    apply filter_In in Hx. now apply Hall.
  - now apply IH.
Qed.

Lemma increasing_NoDup (js : list JournalEntry) :
  increasing js -> NoDup (map voucherNumber js).
Proof.
  unfold increasing.
  induction js as [ | j js IH ]; intros Hs; simpl; [ constructor | ].
  inversion Hs as [ | ? ? Hs' Hall ]; subst.
  constructor; [ | now apply IH ].
  intro Hin. apply in_map_iff in Hin. destruct Hin as [x [Hx Hin]].
  rewrite Forall_forall in Hall. specialize (Hall x Hin). lia.
Qed.

(** A journal built by posting and removing has positive, strictly
    increasing voucher numbers. *)
Lemma posted_invariant (js : list JournalEntry) :
  posted js ->
  increasing js /\ (forall je, In je js -> (0 < voucherNumber je)%Z).
Proof.
  induction 1 as [ | js entry newId Hp [Hinc Hpos] | js keep Hp [Hinc Hpos] ].
  - split; [ constructor | intros je [] ].
  - destruct (fold_max_spec js 0) as [Hge [Hall _]]. simpl in *.
    unfold handleSaveNewJournalEntry, lastVoucherNumber. split.
    + apply increasing_app; [ assumption | ].
      intros je Hje. simpl. specialize (Hall je Hje). lia.
    + intros je Hje. apply in_app_or in Hje.
      destruct Hje as [Hje | [<- | []]]; [ now apply Hpos | simpl; lia ].
  - split; [ now apply increasing_filter | ].
    intros je Hje. apply filter_In in Hje. now apply Hpos.
Qed.

(** C7.  A newly posted voucher is appended with [voucherNumber] equal to
    one plus the largest voucher number in the journal, zero standing for
    the largest number of an empty journal.  Hence, in a journal built from
    the empty one by posting (and by the removals of the cascades), the
    voucher numbers are pairwise distinct and strictly increase in posting
    order. *)
Theorem handleSaveNewJournalEntry_next_number :
  forall (js : list JournalEntry) (entry : JournalEntryDraft)
         (newId : string),
    posted js ->
    exists e,
      handleSaveNewJournalEntry js entry newId = js ++ [e]
      /\ transactions e = d_transactions entry
      /\ (js = [] -> voucherNumber e = 1%Z)
      /\ (js <> [] ->
          exists top, In top js
                      /\ (forall je, In je js ->
                                     (voucherNumber je <= voucherNumber top)%Z)
                      /\ voucherNumber e = (voucherNumber top + 1)%Z)
      /\ (forall je, In je js -> (voucherNumber je < voucherNumber e)%Z)
      /\ increasing (js ++ [e])
      /\ NoDup (map voucherNumber (js ++ [e])).
Proof.
  intros js entry newId Hp.
  destruct (posted_invariant js Hp) as [Hinc Hpos].
  destruct (fold_max_spec js 0) as [Hge [Hall Hin]]. simpl in *.
  eexists. split; [ reflexivity | ]. simpl.
  fold (lastVoucherNumber js) in *.
  assert (Hlt : forall je, In je js ->
                (voucherNumber je < lastVoucherNumber js + 1)%Z).
  { intros je Hje. specialize (Hall je Hje). lia. }
  assert (Hinc' : increasing
                    (js ++ [ {| je_id := newId;
                                je_date := d_date entry;
                                voucherType := d_voucherType entry;
                                voucherNumber := (lastVoucherNumber js + 1)%Z;
                                narration := d_narration entry;
                                transactions := d_transactions entry;
                                relatedFeePaymentId :=
                                  d_relatedFeePaymentId entry |} ])).
  { now apply increasing_app. }
  repeat split.
  - intros ->. reflexivity.
  - intros Hne. destruct Hin as [Hzero | [top [Htop Heq]]].
    + destruct js as [ | j js' ]; [ congruence | ].
      assert (Hj : In j (j :: js')) by now left.
      specialize (Hall j Hj). specialize (Hpos j Hj). lia.
    + exists top. repeat split; auto.
      * intros je Hje. rewrite Heq. now apply Hall.
      * now rewrite Heq.
  - exact Hlt.
  - exact Hinc'.
  - now apply increasing_NoDup.
Qed.

Lemma handleSaveNewJournalEntry_next_number_witness :
  exists e,
    handleSaveNewJournalEntry [ receipt1 ]
      (mkDraft 19728 Journal "Rent" [] None) "_v2"
    = [ receipt1 ] ++ [e]
    /\ voucherNumber e = 2%Z.
Proof.
  assert (Hp : posted [ receipt1 ]).
  { apply (posted_new []
             (mkDraft 19727 Receipt "Fee received"
                [ mkTransaction "_cash" debit 500;
                  mkTransaction "_fees" credit 500 ]
                (Some "_p1"))
             "_v1").
    constructor. }
  destruct (handleSaveNewJournalEntry_next_number [ receipt1 ]
              (mkDraft 19728 Journal "Rent" [] None) "_v2" Hp)
    as [e [He [_ [_ [Hnext _]]]]].
  exists e. split; [ exact He | ].
  destruct Hnext as [top [Hin [_ Heq]]]; [ discriminate | ].
  destruct Hin as [<- | []]. exact Heq.
Defined.
End VoucherNumberFacts.

(** ** Fee payments and their vouchers (double-entry variant) *)

Module CascadeFacts.
Import DoubleEntry DoubleEntrySpec.

Lemma includes_In (ids : list string) (id : string) :
  includes ids id = true <-> In id ids.
Proof.
  unfold includes. rewrite existsb_exists. split.
  - intros [x [Hin Heq]]. apply String.eqb_eq in Heq. now subst.
  - intros Hin. exists id. split; [ assumption | apply String.eqb_refl ].
Qed.

Lemma existsb_hasPayment (data : list FeePayment) (id : string) :
  existsb (fun dp => String.eqb (fp_id dp) id) data = true
  <-> hasPayment data id.
Proof.
  unfold hasPayment. rewrite existsb_exists.
  split; intros [p [Hin H]]; exists p; split; auto;
    now apply String.eqb_eq.
Qed.

(** [deletedPaymentIds] holds the identifiers that left the collection. *)
Lemma deletedPaymentIds_removed (old data : list FeePayment) (id : string) :
  In id (map fp_id
           (filter (fun p =>
                      negb (existsb
                              (fun dp => String.eqb (fp_id dp) (fp_id p))
                              data))
                   old))
  <-> removedId old data id.
Proof.
  unfold removedId. rewrite in_map_iff. split.
  - intros [p [Heq Hin]]. apply filter_In in Hin. destruct Hin as [Hin Hno].
    subst id. split; [ now exists p | ].
    intro H. apply existsb_hasPayment in H.
    rewrite H in Hno. discriminate.
  - intros [[p [Hin Heq]] Hno]. exists p. split; [ assumption | ].
    apply filter_In. split; [ assumption | ].
    apply negb_true_iff. apply not_true_is_false.
    intro H. apply existsb_hasPayment in H. subst id. contradiction.
Qed.

Lemma filter_length_le {A : Type} (keep : A -> bool) (l : list A) :
  (List.length (filter keep l) <= List.length l)%nat.
Proof.
  induction l as [ | x l IH ]; simpl; [ lia | ].
  destruct (keep x); simpl; lia.
Qed.

Lemma filter_length_lt {A : Type} (keep : A -> bool) (l : list A) (x : A) :
  In x l -> keep x = false ->
  (List.length (filter keep l) < List.length l)%nat.
Proof.
  induction l as [ | y l IH ]; intros Hin Hk; [ contradiction | ].
  simpl. destruct Hin as [-> | Hin].
  - rewrite Hk. pose proof (filter_length_le keep l). lia.
  - specialize (IH Hin Hk). destruct (keep y); simpl; lia.
Qed.

(** Saving any collection keeps the journal entries that are linked to a
    payment of the saved collection, and those that are linked to none. *)
Lemma handleSaveFeePayments_keeps (books : Books) (data : list FeePayment)
    (je : JournalEntry) :
  In je (journalEntries books) ->
  match relatedFeePaymentId je with
  | Some id => hasPayment data id
  | None => True
  end ->
  In je (journalEntries (handleSaveFeePayments books data)).
Proof.
  intros Hin Hlink. unfold handleSaveFeePayments.
  destruct (_ <? _)%nat; simpl; [ | assumption ].
  apply filter_In. split; [ assumption | ].
  unfold notLinkedTo. destruct (relatedFeePaymentId je) as [id | ];
    [ | reflexivity ].
  apply orb_true_iff. right. apply negb_true_iff.
  apply not_true_is_false. intro H.
  apply includes_In, deletedPaymentIds_removed in H.
  destruct H as [_ H]. contradiction.
Qed.

(** The delete button of a payment is disabled exactly when some journal
    entry is linked to the payment. *)
Lemma deleteDisabled_iff_linked (js : list JournalEntry) (p : FeePayment) :
  deleteDisabled js p = true
  <-> exists je, In je js /\ relatedFeePaymentId je = Some (fp_id p).
Proof.
  unfold deleteDisabled. rewrite existsb_exists.
  split; intros [je [Hin H]]; exists je; split; auto.
  - destruct (relatedFeePaymentId je) as [id | ]; [ | discriminate ].
    apply String.eqb_eq in H. now subst.
  - rewrite H. apply String.eqb_refl.
Qed.

(** What [handleSaveFeePayments] does with any collection.  It runs its
    cascade when the saved collection is shorter than the stored one, as it
    is whenever payments are removed and none is added.  Then the journal
    entries whose non-empty [relatedFeePaymentId] identifies a payment that
    is no longer in the collection are removed from the journal, and no
    other entry is.  A save that is not shorter leaves the journal as it
    is.  Neither this handler nor posting removes an entry linked to a
    payment that remains. *)
Lemma handleSaveFeePayments_cascade :
  forall (books : Books) (data : list FeePayment),
    let after := handleSaveFeePayments books data in
    feePayments after = data
    /\ (forall keep id,
           data = filter keep (feePayments books) ->
           removedId (feePayments books) data id ->
           (List.length data < List.length (feePayments books))%nat)
    /\ ((List.length data < List.length (feePayments books))%nat ->
        forall je,
          In je (journalEntries after)
          <-> In je (journalEntries books)
              /\ ~ (exists id, relatedFeePaymentId je = Some id
                               /\ id <> EmptyString
                               /\ removedId (feePayments books) data id))
    /\ ((List.length (feePayments books) <= List.length data)%nat ->
        journalEntries after = journalEntries books)
    /\ (forall je id,
           In je (journalEntries books) ->
           relatedFeePaymentId je = Some id ->
           hasPayment data id ->
           In je (journalEntries after))
    /\ (forall entry newId je,
           In je (journalEntries books) ->
           In je (handleSaveNewJournalEntry (journalEntries books)
                                            entry newId))
    /\ (forall p,
           deleteDisabled (journalEntries books) p = true
           <-> exists je, In je (journalEntries books)
                          /\ relatedFeePaymentId je = Some (fp_id p)).
Proof.
  intros books data after.
  split; [ | split; [ | split; [ | split; [ | split; [ | split ] ] ] ] ].
  - subst after. unfold handleSaveFeePayments.
    destruct (_ <? _)%nat; reflexivity.
  - intros keep id Hdata [[p [Hp Hid]] Hno].
    rewrite Hdata. apply (filter_length_lt keep _ p Hp).
    destruct (keep p) eqn:E; [ | reflexivity ].
    exfalso. apply Hno. exists p. split; [ | assumption ].
    rewrite Hdata. apply filter_In. now split.
  - intros Hshort je. apply Nat.ltb_lt in Hshort.
    subst after. unfold handleSaveFeePayments. rewrite Hshort. simpl.
    rewrite filter_In. unfold notLinkedTo.
    split; intros [Hin Hkeep]; (split; [ assumption | ]).
    + intros [id [Hrel [Hne Hrem]]]. rewrite Hrel in Hkeep.
      apply orb_true_iff in Hkeep. destruct Hkeep as [He | Hn].
      * apply String.eqb_eq in He. contradiction.
      * apply negb_true_iff in Hn.
        apply deletedPaymentIds_removed, includes_In in Hrem. congruence.
    + destruct (relatedFeePaymentId je) as [id | ]; [ | reflexivity ].
      destruct (String.eqb_spec id EmptyString) as [E | E];
        [ reflexivity | ].
      simpl. apply negb_true_iff. apply not_true_is_false. intro Hinc.
      apply includes_In, deletedPaymentIds_removed in Hinc.
      apply Hkeep. exists id. auto.
  - intros Hlong. apply Nat.ltb_ge in Hlong.
    subst after. unfold handleSaveFeePayments. now rewrite Hlong.
  - intros je id Hin Hrel Hhas.
    apply handleSaveFeePayments_keeps; [ assumption | ].
    now rewrite Hrel.
  - intros entry newId je Hin. unfold handleSaveNewJournalEntry.
    apply in_or_app. now left.
  - intros p. apply deleteDisabled_iff_linked.
Qed.

(** Where the delete button of a payment is enabled, deleting the payment
    leaves the journal as it is: no entry is linked to the payment. *)
Lemma handleDeletePayment_enabled (books : Books) (p : FeePayment) :
  deleteDisabled (journalEntries books) p = false ->
  journalEntries (handleDeletePayment true books (fp_id p))
  = journalEntries books.
Proof.
  intros Henabled. unfold handleDeletePayment, handleSaveFeePayments.
  destruct (_ <? _)%nat; simpl; [ | reflexivity ].
  apply forallb_filter_id. apply forallb_forall. intros je Hje.
  unfold notLinkedTo.
  destruct (relatedFeePaymentId je) as [id | ] eqn:Hrel; [ | reflexivity ].
  apply orb_true_iff. right. apply negb_true_iff.
  apply not_true_is_false. intro Hinc.
  apply includes_In, deletedPaymentIds_removed in Hinc.
  destruct Hinc as [[q [Hq Hid]] Hgone].
  destruct (String.eqb_spec (fp_id q) (fp_id p)) as [E | E].
  - assert (Hlinked : deleteDisabled (journalEntries books) p = true).
    { unfold deleteDisabled. apply existsb_exists. exists je.
      split; [ assumption | ]. rewrite Hrel. apply String.eqb_eq.
      congruence. }
    congruence.
  - apply Hgone. exists q. split; [ | assumption ].
    apply filter_In. split; [ assumption | ].
    apply negb_true_iff. now apply String.eqb_neq.
Qed.

End CascadeFacts.

(** ** The voucher form (double-entry variant) *)

Module VoucherFormFacts.
Import DoubleEntry DoubleEntrySpec SumFacts.

Lemma finalTransactions_resolved (rows : list FormRow) :
  Forall (fun t => t_accountId t <> EmptyString) (finalTransactions rows).
Proof.
  induction rows as [ | r rows IH ]; simpl; [ constructor | ].
  unfold finalTransaction.
  destruct (String.eqb_spec (fr_accountId r) EmptyString) as [E | E];
    simpl; [ assumption | ].
  destruct (Qeq_bool (fr_debit r) 0 && Qeq_bool (fr_credit r) 0);
    [ assumption | ].
  constructor; assumption.
Qed.

(** What [handleSave] checks: a rejected form leaves the journal unchanged;
    an accepted one has totals, taken over all the rows of the form, that
    differ by at most 0.01 with a non-zero debit total, and stores at least
    two lines, each with an account. *)
Lemma saveVoucherForm_checks (js : list JournalEntry) (date : Z)
    (vt : VoucherType) (text : string) (rows : list FormRow)
    (newId : string) :
  match handleSave date vt text rows with
  | Alert _ => saveVoucherForm js date vt text rows newId = js
  | OnSave entry =>
      Qabs (totalDebit rows - totalCredit rows) <= 1 # 100
      /\ ~ totalDebit rows == 0
      /\ d_transactions entry = finalTransactions rows
      /\ (2 <= List.length (d_transactions entry))%nat
      /\ Forall (fun t => t_accountId t <> EmptyString)
                (d_transactions entry)
  end.
Proof.
  unfold saveVoucherForm, handleSave.
  destruct (Qgtb _ _) eqn:Egt; simpl; [ reflexivity | ].
  destruct (Qeq_bool (totalDebit rows) 0) eqn:Ez; simpl; [ reflexivity | ].
  destruct (_ <? 2)%nat eqn:Elen; simpl; [ reflexivity | ].
  apply Qgtb_false in Egt. apply Nat.ltb_ge in Elen.
  repeat split; auto.
  - intro H. apply Qeq_bool_iff in H. congruence.
  - apply finalTransactions_resolved.
Qed.

(** Where every row of the form has an account, amounts that are not
    negative, and a debit or a credit but not both, the stored lines have
    the totals that [handleSave] compared: the stored voucher is balanced
    within 0.01. *)
Lemma finalTransactions_totals (rows : list FormRow) :
  (forall r, In r rows ->
             fr_accountId r <> EmptyString
             /\ 0 <= fr_debit r /\ 0 <= fr_credit r
             /\ (fr_debit r == 0 \/ fr_credit r == 0)) ->
  debitTotal (finalTransactions rows) == totalDebit rows
  /\ creditTotal (finalTransactions rows) == totalCredit rows.
Proof.
  unfold debitTotal, creditTotal, totalDebit, totalCredit.
  induction rows as [ | r rows IH ]; intros Hrows.
  - split; reflexivity.
  - destruct (Hrows r) as [Hacc [Hd [Hc Hone]]]; [ now left | ].
    destruct IH as [IHd IHc].
    { intros r' Hr'. apply Hrows. now right. }
    simpl finalTransactions. unfold finalTransaction.
    destruct (String.eqb_spec (fr_accountId r) EmptyString) as [E | _];
      [ contradiction | ].
    cbn [orb].
    rewrite (reduceSum_cons fr_debit), (reduceSum_cons fr_credit).
    destruct (Qeq_bool (fr_debit r) 0) eqn:Ed,
             (Qeq_bool (fr_credit r) 0) eqn:Ec; cbn [andb].
    + apply Qeq_bool_iff in Ed. apply Qeq_bool_iff in Ec.
      rewrite IHd, IHc, Ed, Ec. split; lra.
    + apply Qeq_bool_iff in Ed.
      assert (Hg : Qgtb (fr_debit r) 0 = false) by (apply Qgtb_false; lra).
      rewrite Hg, !reduceSum_cons, IHd, IHc. simpl. split; lra.
    + apply Qeq_bool_iff in Ec.
      assert (Hnz : ~ fr_debit r == 0).
      { intro H. apply Qeq_bool_iff in H. congruence. }
      assert (Hg : Qgtb (fr_debit r) 0 = true) by (apply Qgtb_true; lra).
      rewrite Hg, !reduceSum_cons, IHd, IHc. simpl. split; lra.
    + exfalso. destruct Hone as [H | H]; apply Qeq_bool_iff in H;
        congruence.
Qed.

(** C2, at a form the handler accepts although the stored voucher is not
    balanced.  The third row has a credit of 50 and no account: it counts in
    the totals that are compared (100 against 100) and is dropped from the
    lines that are stored (debit 100, credit 50). *)
Theorem handleSave_stores_unbalanced_voucher :
  totalDebit formWithBlankAccount == 100
  /\ totalCredit formWithBlankAccount == 100
  /\ exists je,
       saveVoucherForm [] 19727 Journal "Adjustment" formWithBlankAccount
                       "_v1"
       = [je]
       /\ transactions je
          = [ mkTransaction "_cash" debit 100;
              mkTransaction "_fees" credit 50 ]
       /\ debitTotal (transactions je) == 100
       /\ creditTotal (transactions je) == 50
       /\ ~ Qabs (debitTotal (transactions je)
                  - creditTotal (transactions je)) <= 1 # 100.
Proof.
  split; [ reflexivity | split; [ reflexivity | ] ].
  eexists. split; [ reflexivity | ].
  split; [ reflexivity | ].
  split; [ reflexivity | split; [ reflexivity | ] ].
  vm_compute. intro H. apply H. reflexivity.
Qed.
End VoucherFormFacts.

(** ** The opening balance of a day (simple-posting variant) *)

Module OpeningBalanceFacts.
Import SimplePosting OpeningBalanceSpec.

(** *** The guarded loop and the counted loop agree *)

Lemma replayWhile_replay (zone : Zone) (st : Store) (fuel : nat) :
  forall (currentDate targetDate : Z) (runningBalance : Q),
    (Z.to_nat (targetDate - currentDate) <= fuel)%nat ->
    replayWhile zone st fuel currentDate targetDate runningBalance
    = Some (replay zone st (Z.to_nat (targetDate - currentDate))
                   currentDate runningBalance).
Proof.
  induction fuel as [ | fuel IH ]; intros cur target bal Hfuel.
  - simpl. destruct (Z.ltb_spec cur target) as [Hlt | Hge]; [ lia | ].
    replace (Z.to_nat (target - cur)) with O by lia. reflexivity.
  - simpl. destruct (Z.ltb_spec cur target) as [Hlt | Hge].
    + replace (Z.to_nat (target - cur))
        with (S (Z.to_nat (target - (cur + 1)))) by lia.
      simpl. apply IH. lia.
    + replace (Z.to_nat (target - cur)) with O by lia. reflexivity.
Qed.

(** *** Overrides *)

Lemma findOverride_Some (obs : list OpeningBalance) (d : Z)
    (ob : OpeningBalance) :
  findOverride obs d = Some ob -> In ob obs /\ ob_id ob = d.
Proof.
  unfold findOverride. intro H. apply find_some in H.
  destruct H as [Hin Heq]. split; [ assumption | lia ].
Qed.

Lemma findOverride_None (obs : list OpeningBalance) (d : Z) :
  findOverride obs d = None <-> (forall ob, In ob obs -> ob_id ob <> d).
Proof.
  unfold findOverride. split.
  - intros H ob Hin Heq.
    apply (find_none _ _ H) in Hin. lia.
  - intros H. induction obs as [ | x obs IH ]; simpl; [ reflexivity | ].
    destruct (Z.eqb_spec (ob_id x) d) as [E | E].
    + exfalso. apply (H x); [ now left | assumption ].
    + apply IH. intros ob Hin. apply H. now right.
Qed.

(** What [nearestOverrideBefore] returns. *)
Lemma nearestOverrideBefore_spec (obs : list OpeningBalance) (D : Z) :
  match nearestOverrideBefore obs D with
  | Some a =>
      (ob_id a < D)%Z
      /\ findOverride obs (ob_id a) = Some a
      /\ (forall ob, In ob obs -> (ob_id ob < D)%Z ->
                     (ob_id ob <= ob_id a)%Z)
  | None => forall ob, In ob obs -> (D <= ob_id ob)%Z
  end.
Proof.
  induction obs as [ | x obs IH ]; simpl.
  - intros ob [].
  - destruct (Z.ltb_spec (ob_id x) D) as [Hx | Hx].
    + destruct (nearestOverrideBefore obs D) as [later | ].
      * destruct IH as [Hlt [Hfind Hmax]].
        destruct (Z.ltb_spec (ob_id x) (ob_id later)) as [Hc | Hc].
        -- split; [ assumption | split ].
           ++ unfold findOverride in *. simpl.
              destruct (Z.eqb_spec (ob_id x) (ob_id later)); [ lia | ].
              assumption.
           ++ intros ob [<- | Hin] Hob; [ lia | now apply Hmax ].
        -- split; [ assumption | split ].
           ++ unfold findOverride. simpl. now rewrite Z.eqb_refl.
           ++ intros ob [<- | Hin] Hob; [ lia | ].
              specialize (Hmax ob Hin Hob). lia.
      * split; [ assumption | split ].
        -- unfold findOverride. simpl. now rewrite Z.eqb_refl.
        -- intros ob [<- | Hin] Hob; [ lia | ].
           specialize (IH ob Hin). lia.
    + destruct (nearestOverrideBefore obs D) as [a | ].
      * destruct IH as [Hlt [Hfind Hmax]].
        split; [ assumption | split ].
        -- unfold findOverride in *. simpl.
           destruct (Z.eqb_spec (ob_id x) (ob_id a)); [ lia | assumption ].
        -- intros ob [<- | Hin] Hob; [ lia | now apply Hmax ].
      * intros ob [<- | Hin]; [ assumption | now apply IH ].
Qed.

(** *** [sortedBalances.find(...)] is the nearest override before [D] *)

Lemma insertSorted_In (x : OpeningBalance) (l : list OpeningBalance)
    (y : OpeningBalance) :
  In y (insertSorted newestFirst x l) <-> y = x \/ In y l.
Proof.
  induction l as [ | z l IH ]; simpl.
  - intuition.
  - destruct (_ <=? 0)%Z; simpl; [ intuition | ].
    rewrite IH. intuition.
Qed.

Lemma insertSorted_descending (x : OpeningBalance)
    (l : list OpeningBalance) :
  descending l -> descending (insertSorted newestFirst x l).
Proof.
  unfold descending.
  induction l as [ | z l IH ]; intros Hs; simpl.
  - repeat constructor.
  - inversion Hs as [ | ? ? Hs' Hall ]; subst.
    unfold newestFirst at 1.
    destruct (Z.leb_spec (ob_id z - ob_id x) 0) as [Hc | Hc].
    + constructor; [ assumption | ].
      constructor; [ lia | ].
      rewrite Forall_forall in *. intros y Hy.
      specialize (Hall y Hy). lia.
    + constructor; [ now apply IH | ].
      rewrite Forall_forall in *. intros y Hy.
      apply insertSorted_In in Hy. destruct Hy as [-> | Hy];
        [ lia | now apply Hall ].
Qed.

Lemma sortWith_descending (obs : list OpeningBalance) :
  descending (sortWith newestFirst obs).
Proof.
  induction obs as [ | x obs IH ]; simpl.
  - constructor.
  - now apply insertSorted_descending.
Qed.

Lemma find_insertSorted (D : Z) (x : OpeningBalance)
    (l : list OpeningBalance) :
  descending l ->
  find (fun ob => (ob_id ob <? D)%Z) (insertSorted newestFirst x l)
  = if (ob_id x <? D)%Z then
      match find (fun ob => (ob_id ob <? D)%Z) l with
      | Some later =>
          if (ob_id x <? ob_id later)%Z then Some later else Some x
      | None => Some x
      end
    else find (fun ob => (ob_id ob <? D)%Z) l.
Proof.
  unfold descending.
  induction l as [ | z l IH ]; intros Hs.
  - simpl. destruct (ob_id x <? D)%Z; reflexivity.
  - inversion Hs as [ | ? ? Hs' Hall ]; subst.
    simpl insertSorted. unfold newestFirst at 1.
    destruct (Z.leb_spec (ob_id z - ob_id x) 0) as [Hc | Hc].
    + simpl. destruct (Z.ltb_spec (ob_id x) D) as [Hx | Hx];
        [ | reflexivity ].
      destruct (Z.ltb_spec (ob_id z) D) as [Hz | Hz].
      * destruct (Z.ltb_spec (ob_id x) (ob_id z)); [ lia | reflexivity ].
      * destruct (find _ l) as [later | ] eqn:Ef; [ | reflexivity ].
        apply find_some in Ef. destruct Ef as [Hin _].
        rewrite Forall_forall in Hall. specialize (Hall later Hin).
        destruct (Z.ltb_spec (ob_id x) (ob_id later));
          [ lia | reflexivity ].
    + simpl. rewrite (IH Hs').
      destruct (Z.ltb_spec (ob_id z) D) as [Hz | Hz].
      * destruct (Z.ltb_spec (ob_id x) D) as [Hx | Hx]; [ | reflexivity ].
        destruct (Z.ltb_spec (ob_id x) (ob_id z)); [ reflexivity | lia ].
      * reflexivity.
Qed.

Lemma find_sortedBalances (obs : list OpeningBalance) (D : Z) :
  find (fun ob => (ob_id ob <? D)%Z) (sortWith newestFirst obs)
  = nearestOverrideBefore obs D.
Proof.
  induction obs as [ | x obs IH ]; simpl; [ reflexivity | ].
  rewrite find_insertSorted by apply sortWith_descending.
  now rewrite IH.
Qed.

(** *** [allDates[0]] is the earliest date *)

Lemma earliest_spec (dates : list Z) :
  match earliest dates with
  | Some e => In e dates /\ (forall d, In d dates -> (e <= d)%Z)
  | None => dates = []
  end.
Proof.
  induction dates as [ | x dates IH ]; simpl; [ reflexivity | ].
  destruct (earliest dates) as [e | ].
  - destruct IH as [Hin Hmin]. split.
    + destruct (Z.min_spec x e) as [[_ ->] | [_ ->]]; auto.
    + intros d [<- | Hd]; [ lia | ]. specialize (Hmin d Hd). lia.
  - subst dates. split; [ now left | ].
    intros d [<- | []]. lia.
Qed.

Lemma earliest_unique (l1 l2 : list Z) :
  (forall d, In d l1 <-> In d l2) -> earliest l1 = earliest l2.
Proof.
  intros Hsame.
  pose proof (earliest_spec l1) as H1. pose proof (earliest_spec l2) as H2.
  destruct (earliest l1) as [e1 | ], (earliest l2) as [e2 | ].
  - destruct H1 as [Hin1 Hmin1], H2 as [Hin2 Hmin2]. f_equal.
    apply Hsame in Hin1 as Hin1'. apply Hsame in Hin2 as Hin2'.
    specialize (Hmin1 e2 Hin2'). specialize (Hmin2 e1 Hin1'). lia.
  - subst l2. destruct H1 as [Hin1 _]. apply Hsame in Hin1. contradiction.
  - subst l1. destruct H2 as [Hin2 _]. apply Hsame in Hin2. contradiction.
  - reflexivity.
Qed.

Lemma setOfFrom_In (l seen : list Z) (d : Z) :
  In d (setOfFrom seen l) <-> In d l /\ ~ In d seen.
Proof.
  revert seen. induction l as [ | x l IH ]; intros seen; simpl.
  - intuition.
  - destruct (existsb (Z.eqb x) seen) eqn:E.
    + apply existsb_exists in E. destruct E as [y [Hy Heq]].
      apply Z.eqb_eq in Heq. subst y.
      rewrite IH. split.
      * intros [Hin Hno]. auto.
      * intros [[-> | Hin] Hno]; [ contradiction | auto ].
    + assert (Hx : ~ In x seen).
      { intro Hin. apply not_true_iff_false in E. apply E.
        apply existsb_exists. exists x. split; [ assumption | lia ]. }
      simpl. rewrite IH. simpl. split.
      * intros [<- | [Hin Hno]]; [ auto | ].
        split; [ now right | ]. intro H. apply Hno. now right.
      * intros [[<- | Hin] Hno]; [ now left | ].
        destruct (Z.eq_dec x d) as [-> | Hne]; [ now left | ].
        right. split; [ assumption | ].
        intros [H | H]; [ contradiction | contradiction ].
Qed.

Lemma setOf_In (l : list Z) (d : Z) : In d (setOf l) <-> In d l.
Proof. unfold setOf. rewrite setOfFrom_In. simpl. intuition. Qed.

Lemma hd_insertSorted (x : Z) (l : list Z) :
  hd_error (insertSorted ascending x l)
  = Some (match hd_error l with Some y => Z.min x y | None => x end).
Proof.
  destruct l as [ | y l ]; simpl; [ reflexivity | ].
  unfold ascending.
  destruct (Z.leb_spec (x - y) 0); simpl; f_equal; lia.
Qed.

Lemma hd_sortWith (l : list Z) :
  hd_error (sortWith ascending l) = earliest l.
Proof.
  induction l as [ | x l IH ]; simpl; [ reflexivity | ].
  rewrite hd_insertSorted, IH.
  destruct (earliest l); reflexivity.
Qed.

Lemma hd_allDates (st : Store) :
  hd_error (allDates st)
  = earliest (map ob_id (openingBalances st) ++ transactionDates st).
Proof.
  unfold allDates. rewrite hd_sortWith.
  apply earliest_unique. intros d. apply setOf_In.
Qed.

(** *** The replay *)

Lemma daysFrom_In (n : nat) (first d : Z) :
  In d (daysFrom first n) <-> (first <= d < first + Z.of_nat n)%Z.
Proof.
  revert first. induction n as [ | n IH ]; intros first; simpl.
  - lia.
  - rewrite IH. lia.
Qed.

Lemma daysFrom_snoc (n : nat) (first : Z) :
  daysFrom first (S n) = daysFrom first n ++ [ (first + Z.of_nat n)%Z ].
Proof.
  revert first. induction n as [ | n IH ]; intros first.
  - simpl. now rewrite Z.add_0_r.
  - change (daysFrom first (S (S n)))
      with (first :: daysFrom (first + 1) (S n)).
    rewrite IH. simpl. do 3 f_equal. lia.
Qed.

Lemma replay_plain (st : Store) (n : nat) :
  forall (currentDate : Z) (runningBalance : Q),
    (forall d, (currentDate < d <= currentDate + Z.of_nat n)%Z ->
               findOverride (openingBalances st) d = None) ->
    replay AtOrBehindUTC st n currentDate runningBalance
    = plainReplay st (daysFrom currentDate n) runningBalance.
Proof.
  induction n as [ | n IH ]; intros cur bal Hfree; [ reflexivity | ].
  simpl. rewrite (Hfree (cur + 1)%Z) by lia.
  rewrite IH; [ reflexivity | ].
  intros d Hd. apply Hfree. lia.
Qed.

Lemma dayStep_plain (st : Store) (days : list Z) :
  forall (running : Q),
    (forall d, In d days -> findOverride (openingBalances st) d = None) ->
    fold_left (dayStep st) days running = plainReplay st days running.
Proof.
  induction days as [ | d days IH ]; intros running Hfree;
    [ reflexivity | ].
  simpl. unfold dayStep at 2. rewrite (Hfree d) by now left.
  apply IH. intros d' Hd'. apply Hfree. now right.
Qed.

(** No override lies strictly between the anchor and [D]. *)
Lemma anchor_nearest (obs : list OpeningBalance) (D : Z)
    (a : OpeningBalance) :
  nearestOverrideBefore obs D = Some a ->
  forall d, (ob_id a < d < D)%Z -> findOverride obs d = None.
Proof.
  intros Hn d Hd. pose proof (nearestOverrideBefore_spec obs D) as H.
  rewrite Hn in H. destruct H as [_ [_ Hmax]].
  apply findOverride_None. intros ob Hin Heq.
  specialize (Hmax ob Hin). lia.
Qed.

Lemma no_anchor_no_override (obs : list OpeningBalance) (D : Z) :
  nearestOverrideBefore obs D = None ->
  forall d, (d < D)%Z -> findOverride obs d = None.
Proof.
  intros Hn d Hd. pose proof (nearestOverrideBefore_spec obs D) as H.
  rewrite Hn in H.
  apply findOverride_None. intros ob Hin Heq.
  specialize (H ob Hin). lia.
Qed.

(** The replay of the description adds up the same sum. *)
Lemma description_plain (st : Store) (D : Z) :
  fold_left (dayStep st) (daysBetween (fst (anchorOf st D)) D)
            (snd (anchorOf st D))
  = plainReplay st (daysBetween (fst (anchorOf st D)) D)
                (snd (anchorOf st D)).
Proof.
  unfold anchorOf.
  destruct (nearestOverrideBefore (openingBalances st) D) as [a | ] eqn:Hn.
  - simpl. unfold daysBetween.
    destruct (Z.to_nat (D - ob_id a)) as [ | n ] eqn:En; [ reflexivity | ].
    pose proof (nearestOverrideBefore_spec (openingBalances st) D) as H.
    rewrite Hn in H. destruct H as [Hlt [Hfind _]].
    simpl. unfold dayStep at 2. rewrite Hfind.
    apply dayStep_plain. intros d Hd. apply daysFrom_In in Hd.
    apply (anchor_nearest _ _ _ Hn). lia.
  - apply dayStep_plain. intros d Hd.
    unfold daysBetween in Hd. apply daysFrom_In in Hd.
    apply (no_anchor_no_override _ _ Hn).
    destruct (earliest (transactionDates st)); simpl in Hd; lia.
Qed.

Lemma balanceOfSigned_zero :
  balanceOfSigned 0 = {| amount := 0; type := credit |}.
Proof. reflexivity. Qed.

(** Where [D] has no override of its own, the code returns the anchor value
    plus the nets of the days from the anchor's date up to the day before
    [D]. *)
Lemma calculate_closed_form (st : Store) (D : Z) :
  findOverride (openingBalances st) D = None ->
  calculateOpeningBalanceForDate AtOrBehindUTC st D
  = balanceOfSigned
      (plainReplay st (daysBetween (fst (anchorOf st D)) D)
                   (snd (anchorOf st D))).
Proof.
  intros HD. unfold calculateOpeningBalanceForDate. rewrite HD.
  pose proof (hd_allDates st) as Hhd.
  pose proof (earliest_spec
                (map ob_id (openingBalances st) ++ transactionDates st))
    as Hall.
  pose proof (nearestOverrideBefore_spec (openingBalances st) D) as Hnear.
  pose proof (earliest_spec (transactionDates st)) as Htx.
  assert (Hob : forall ob, In ob (openingBalances st) ->
                In (ob_id ob)
                   (map ob_id (openingBalances st) ++ transactionDates st)).
  { intros ob Hin. apply in_or_app. left. now apply in_map. }
  destruct (allDates st) as [ | first rest ]; simpl in Hhd;
    rewrite <- Hhd in Hall.
  - (* no date at all *)
    apply app_eq_nil in Hall. destruct Hall as [Hobs Htxs].
    unfold anchorOf. rewrite Htxs.
    destruct (openingBalances st); [ | discriminate ].
    simpl. unfold daysBetween. rewrite Z.sub_diag. reflexivity.
  - destruct Hall as [Hfirst Hmin].
    destruct (Z.ltb_spec D first) as [Hbefore | Hafter].
    + (* D is before every date *)
      unfold anchorOf.
      destruct (nearestOverrideBefore (openingBalances st) D) as [a | ].
      * destruct Hnear as [Hlt [Hfind _]].
        apply findOverride_Some in Hfind. destruct Hfind as [Hin _].
        specialize (Hmin _ (Hob a Hin)). lia.
      * destruct (earliest (transactionDates st)) as [e | ].
        -- destruct Htx as [He _].
           assert (first <= e)%Z.
           { apply Hmin. apply in_or_app. now right. }
           simpl. unfold daysBetween.
           replace (Z.to_nat (D - e)) with O by lia. reflexivity.
        -- simpl. unfold daysBetween. rewrite Z.sub_diag. reflexivity.
    + rewrite find_sortedBalances. unfold anchorOf.
      destruct (nearestOverrideBefore (openingBalances st) D) as [a | ] eqn:Hn.
      * destruct Hnear as [Hlt _]. simpl. unfold daysBetween. f_equal.
        apply replay_plain. intros d Hd.
        destruct (Z.eq_dec d D) as [-> | Hne]; [ assumption | ].
        apply (anchor_nearest _ _ _ Hn). lia.
      * assert (Hfirst' : In first (transactionDates st)).
        { apply in_app_or in Hfirst. destruct Hfirst as [H | H];
            [ | assumption ].
          apply in_map_iff in H. destruct H as [ob [Hid Hin]].
          specialize (Hnear ob Hin).
          rewrite findOverride_None in HD. specialize (HD ob Hin). lia. }
        destruct (earliest (transactionDates st)) as [e | ];
          [ | rewrite Htx in Hfirst'; contradiction ].
        destruct Htx as [He Hemin].
        assert (e = first).
        { specialize (Hemin first Hfirst').
          assert (first <= e)%Z.
          { apply Hmin. apply in_or_app. now right. }
          lia. }
        subst e. simpl. unfold daysBetween. f_equal.
        apply replay_plain. intros d Hd.
        destruct (Z.eq_dec d D) as [-> | Hne]; [ assumption | ].
        apply (no_anchor_no_override _ _ Hn). lia.
Qed.

(** C1 (as amended).  For every target date [D] the opening balance the
    code derives is the one of the description with the anchor's day
    included: the stored override for [D] when there is one; otherwise the
    running balance that starts from the nearest override strictly before
    [D] (or from zero at the date of the earliest transaction), takes the
    days from the anchor's date (inclusive) up to [D] (exclusive), on each
    day starts from that day's override where it has one and adds the fee
    payments and income of the day minus its expenditure, and is returned
    as its absolute value with credit for a balance of zero or more and
    debit for a negative one.  The local time zone is UTC or behind it. *)
Theorem calculateOpeningBalanceForDate_anchor_day_included :
  forall (st : Store) (D : Z),
    calculateOpeningBalanceForDate AtOrBehindUTC st D
    = openingBalanceBy true st D.
Proof.
  intros st D. unfold openingBalanceBy.
  destruct (findOverride (openingBalances st) D) as [ob | ] eqn:HD.
  - unfold calculateOpeningBalanceForDate. now rewrite HD.
  - rewrite (calculate_closed_form st D HD).
    pose proof (description_plain st D) as Hd.
    destruct (anchorOf st D) as [anchorDate anchorValue]. simpl in *.
    now rewrite Hd.
Qed.

(** C1 as stated fails where a transaction falls on the anchor's date.
    With an override of 1000 credit on 2024-03-01 and an income of 300 on
    that day, the opening balance of 2024-03-02 is 1300 credit; a replay
    that starts after the anchor's date gives 1000 credit. *)
Lemma calculateOpeningBalanceForDate_anchor_day_not_excluded :
  calculateOpeningBalanceForDate AtOrBehindUTC anchorDayStore 19784
  = {| amount := 1300; type := credit |}
  /\ openingBalanceBy false anchorDayStore 19784
     = {| amount := 1000; type := credit |}
  /\ calculateOpeningBalanceForDate AtOrBehindUTC anchorDayStore 19784
     <> openingBalanceBy false anchorDayStore 19784.
Proof.
  split; [ reflexivity | split; [ reflexivity | ] ].
  vm_compute. discriminate.
Qed.

(** The scenario of the description, 1200 credit on 2024-03-04, is what the
    code computes where local time is UTC or behind it.  Where local time
    is ahead of UTC the loop names each day by the date before it and the
    result is 1300 credit: the income of 2024-03-02 is counted and the
    expenditure of 2024-03-03 is not. *)
Lemma calculateOpeningBalanceForDate_march_scenario :
  calculateOpeningBalanceForDate AtOrBehindUTC marchStore 19786
  = {| amount := 1200; type := credit |}
  /\ calculateOpeningBalanceForDate AheadOfUTC marchStore 19786
     = {| amount := 1300; type := credit |}.
Proof. split; reflexivity. Qed.
End OpeningBalanceFacts.

(** ** The day book (simple-posting variant) *)

Module DayBookFacts.
Import SimplePosting OpeningBalanceSpec OpeningBalanceFacts.

Lemma signed_balanceOfSigned (r : Q) :
  signedAmount (amount (balanceOfSigned r)) (type (balanceOfSigned r)) == r.
Proof.
  unfold balanceOfSigned. simpl.
  destruct (Qle_bool 0 r) eqn:E; simpl.
  - apply Qle_bool_iff in E. now apply Qabs_pos.
  - assert (Hneg : r <= 0).
    { destruct (Qlt_le_dec 0 r) as [Hlt | Hle]; [ | assumption ].
      apply Qlt_le_weak, Qle_bool_iff in Hlt. congruence. }
    rewrite (Qabs_neg r Hneg). lra.
Qed.

Lemma plainReplay_app (st : Store) (days1 days2 : list Z) (start : Q) :
  plainReplay st (days1 ++ days2) start
  = plainReplay st days2 (plainReplay st days1 start).
Proof. unfold plainReplay. apply fold_left_app. Qed.

Lemma filter_nil {A : Type} (f : A -> bool) (l : list A) :
  (forall x, In x l -> f x = false) -> filter f l = [].
Proof.
  induction l as [ | x l IH ]; intros H; simpl; [ reflexivity | ].
  rewrite (H x) by now left. apply IH. intros y Hy. apply H. now right.
Qed.

(** A day without transactions has no income and no expenditure. *)
Lemma quiet_day (st : Store) (D : Z) :
  (forall d, In d (transactionDates st) -> d <> D) ->
  netOfDay st D == 0
  /\ incomeForDay st D == 0 /\ expenditureForDay st D == 0.
Proof.
  intros Hquiet. unfold netOfDay, incomeForDay, expenditureForDay.
  rewrite !filter_nil.
  - repeat split; reflexivity.
  - intros e He. apply Z.eqb_neq. apply Hquiet.
    unfold transactionDates. apply in_or_app. right.
    apply in_or_app. right. now apply in_map.
  - intros i Hi. apply Z.eqb_neq. apply Hquiet.
    unfold transactionDates. apply in_or_app. right.
    apply in_or_app. left. now apply in_map.
  - intros p Hp. apply Z.eqb_neq. apply Hquiet.
    unfold transactionDates. apply in_or_app. left. now apply in_map.
Qed.

(** Without an override on [D], the anchors for [D] and for the day after
    [D] are the same override. *)
Lemma nearestOverrideBefore_next (obs : list OpeningBalance) (D : Z) :
  findOverride obs D = None ->
  nearestOverrideBefore obs (D + 1) = nearestOverrideBefore obs D.
Proof.
  rewrite findOverride_None.
  induction obs as [ | x obs IH ]; intros Hfree; simpl; [ reflexivity | ].
  assert (Hx : ob_id x <> D) by (apply Hfree; now left).
  rewrite IH by (intros ob Hin; apply Hfree; now right).
  destruct (Z.ltb_spec (ob_id x) (D + 1)), (Z.ltb_spec (ob_id x) D);
    try lia; reflexivity.
Qed.

(** With an override on [D], that override is the anchor for the day
    after [D]. *)
Lemma nearestOverrideBefore_after_override (obs : list OpeningBalance)
    (D : Z) (ob : OpeningBalance) :
  findOverride obs D = Some ob ->
  nearestOverrideBefore obs (D + 1) = Some ob.
Proof.
  intros Hfind.
  pose proof (nearestOverrideBefore_spec obs (D + 1)) as H.
  pose proof (findOverride_Some _ _ _ Hfind) as [Hin Hid].
  destruct (nearestOverrideBefore obs (D + 1)) as [a | ].
  - destruct H as [Hlt [Hfa Hmax]].
    specialize (Hmax ob Hin).
    assert (ob_id a = D) by lia.
    congruence.
  - specialize (H ob Hin). lia.
Qed.

Lemma daysBetween_next (first D : Z) :
  (first <= D)%Z ->
  daysBetween first (D + 1) = daysBetween first D ++ [D].
Proof.
  intros Hle. unfold daysBetween.
  replace (Z.to_nat (D + 1 - first)) with (S (Z.to_nat (D - first)))
    by lia.
  rewrite daysFrom_snoc. do 2 f_equal. lia.
Qed.

Lemma daysBetween_empty (first D : Z) :
  (D <= first)%Z -> daysBetween first D = [].
Proof.
  intros Hle. unfold daysBetween.
  replace (Z.to_nat (D - first)) with O by lia. reflexivity.
Qed.

(** The override stored for [D] is returned as it is, in every zone. *)
Lemma calculate_override (zone : Zone) (st : Store) (D : Z)
    (ob : OpeningBalance) :
  findOverride (openingBalances st) D = Some ob ->
  calculateOpeningBalanceForDate zone st D
  = {| amount := ob_amount ob; type := ob_type ob |}.
Proof.
  intros HD. unfold calculateOpeningBalanceForDate. now rewrite HD.
Qed.

(** The signed opening balance of the day after [D], where that day has no
    override, is the signed opening balance of [D] plus the net of [D]. *)
Lemma opening_of_next_day (st : Store) (D : Z) :
  findOverride (openingBalances st) (D + 1) = None ->
  let today := calculateOpeningBalanceForDate AtOrBehindUTC st D in
  let next := calculateOpeningBalanceForDate AtOrBehindUTC st (D + 1) in
  signedAmount (amount next) (type next)
  == signedAmount (amount today) (type today) + netOfDay st D.
Proof.
  intros Hnext today next. subst today next.
  rewrite (calculate_closed_form st (D + 1) Hnext).
  rewrite signed_balanceOfSigned.
  destruct (findOverride (openingBalances st) D) as [ob | ] eqn:HD.
  - rewrite (calculate_override _ st D ob HD). simpl.
    unfold anchorOf.
    rewrite (nearestOverrideBefore_after_override _ _ _ HD). simpl.
    apply findOverride_Some in HD. destruct HD as [_ ->].
    rewrite daysBetween_next by lia.
    rewrite daysBetween_empty by lia. reflexivity.
  - rewrite (calculate_closed_form st D HD).
    rewrite signed_balanceOfSigned.
    unfold anchorOf.
    rewrite (nearestOverrideBefore_next _ _ HD).
    pose proof (nearestOverrideBefore_spec (openingBalances st) D) as Hn.
    destruct (nearestOverrideBefore (openingBalances st) D) as [a | ].
    + destruct Hn as [Hlt _]. simpl.
      rewrite daysBetween_next by lia.
      rewrite plainReplay_app. reflexivity.
    + pose proof (earliest_spec (transactionDates st)) as Htx.
      destruct (earliest (transactionDates st)) as [e | ]; simpl.
      * destruct Htx as [_ Hmin].
        destruct (Z_le_gt_dec e D) as [Hle | Hgt].
        -- rewrite daysBetween_next by lia.
           rewrite plainReplay_app. reflexivity.
        -- rewrite !daysBetween_empty by lia. simpl.
           destruct (quiet_day st D) as [Hq _]; [ | rewrite Hq; lra ].
           intros d Hd. specialize (Hmin d Hd). lia.
      * rewrite !daysBetween_empty by lia. simpl.
        destruct (quiet_day st D) as [Hq _]; [ | rewrite Hq; lra ].
        rewrite Htx. intros d [].
Qed.

(** Where local time is UTC or behind it: for every date [D] the closing
    balance of the day book is the signed opening balance for [D] (credit
    positive) plus the fee payments and income entries of [D] minus the
    expenditures of [D]; and where no override is stored for the day after
    [D], it is the signed opening balance computed for that day, whatever the
    stores hold and in whatever order. *)
Lemma closingBalance_is_next_opening_behind_UTC :
  forall (st : Store) (D : Z),
    let opening := calculateOpeningBalanceForDate AtOrBehindUTC st D in
    let next := calculateOpeningBalanceForDate AtOrBehindUTC st (D + 1) in
    dayBookClosingBalance AtOrBehindUTC st D
    = signedAmount (amount opening) (type opening)
      + (reduceSum fp_amountPaid
           (filter (fun p => (fp_paymentDate p =? D)%Z) (feePayments st))
         + reduceSum p_amount
             (filter (fun i => (p_date i =? D)%Z) (incomeEntries st)))
      - reduceSum p_amount
          (filter (fun e => (p_date e =? D)%Z) (expenditures st))
    /\ (findOverride (openingBalances st) (D + 1) = None ->
        dayBookClosingBalance AtOrBehindUTC st D
        == signedAmount (amount next) (type next)).
Proof.
  intros st D opening next. split; [ reflexivity | ].
  intros Hnext. subst opening next.
  rewrite (opening_of_next_day st D Hnext).
  unfold dayBookClosingBalance, closingBalance, netOfDay. simpl. lra.
Qed.

(** C5, where local time is ahead of UTC.  With an override of 1000 credit
    on 2024-03-01, an income of 300 on 2024-03-02 and an expenditure of 100
    on 2024-03-03, and no override on 2024-03-04: the opening balance of
    2024-03-03 is 1000 credit (the income of the day before is left out), the
    day book of 2024-03-03 closes at 900, and the opening balance of
    2024-03-04 is 1300 credit (the expenditure of the day before is left
    out).  The closing balance is not the next opening balance. *)
Theorem closingBalance_differs_ahead_of_UTC :
  findOverride (openingBalances marchStore) (19785 + 1) = None
  /\ calculateOpeningBalanceForDate AheadOfUTC marchStore 19785
     = {| amount := 1000; type := credit |}
  /\ dayBookClosingBalance AheadOfUTC marchStore 19785 == 900
  /\ calculateOpeningBalanceForDate AheadOfUTC marchStore (19785 + 1)
     = {| amount := 1300; type := credit |}
  /\ ~ dayBookClosingBalance AheadOfUTC marchStore 19785
       == signedAmount
            (amount (calculateOpeningBalanceForDate AheadOfUTC marchStore
                       (19785 + 1)))
            (type (calculateOpeningBalanceForDate AheadOfUTC marchStore
                     (19785 + 1))).
Proof.
  repeat split; try reflexivity.
  vm_compute. discriminate.
Qed.
End DayBookFacts.

(** ** The trial balance (double-entry variant) *)

Module TrialBalanceFacts.
Import DoubleEntry DoubleEntrySpec ReportSpec SumFacts.

Lemma lookup_keys (held : Balances) (key : string) :
  lookup held key <> None <-> In key (map fst held).
Proof.
  unfold lookup. induction held as [ | [k r] held IH ]; simpl.
  - intuition.
  - destruct (String.eqb_spec k key) as [E | E]; simpl.
    + split; [ intros _; now left | discriminate ].
    + rewrite IH. intuition.
Qed.

Lemma addTo_keys (held : Balances) (key : string) (a : Q) :
  map fst (addTo held key a) = map fst held.
Proof.
  induction held as [ | [k r] held IH ]; simpl; [ reflexivity | ].
  destruct (String.eqb k key); simpl; [ reflexivity | now rewrite IH ].
Qed.

Lemma heldTotal_cons (k : string) (r : BalanceRow) (held : Balances) :
  heldTotal ((k, r) :: held) == br_balance r + heldTotal held.
Proof. unfold heldTotal. simpl. apply reduceSum_cons. Qed.

Lemma addTo_total (held : Balances) (key : string) (a : Q) :
  In key (map fst held) ->
  heldTotal (addTo held key a) == heldTotal held + a.
Proof.
  induction held as [ | [k r] held IH ]; intros Hin; [ contradiction | ].
  simpl. destruct (String.eqb_spec k key) as [E | E].
  - rewrite !heldTotal_cons. simpl. lra.
  - rewrite !heldTotal_cons, IH; [ lra | ].
    destruct Hin as [H | H]; [ contradiction | assumption ].
Qed.

Lemma assign_fresh (held : Balances) (key : string) (row : BalanceRow) :
  ~ In key (map fst held) -> assign held key row = held ++ [(key, row)].
Proof.
  induction held as [ | [k r] held IH ]; intros Hfresh; simpl;
    [ reflexivity | ].
  destruct (String.eqb_spec k key) as [E | E].
  - exfalso. apply Hfresh. now left.
  - rewrite IH; [ reflexivity | ]. intro H. apply Hfresh. now right.
Qed.

(** Opening the accounts of a chart with distinct ids. *)
Lemma openAccounts_total (accounts : list Account) :
  forall held : Balances,
    NoDup (map acc_id accounts) ->
    (forall id, In id (map acc_id accounts) -> ~ In id (map fst held)) ->
    let held' := fold_left openAccount accounts held in
    map fst held' = map fst held ++ map acc_id accounts
    /\ heldTotal held' == heldTotal held + openingTotal accounts.
Proof.
  induction accounts as [ | acc accounts IH ]; intros held Hnd Hfresh.
  - simpl. rewrite app_nil_r. split; [ reflexivity | ].
    unfold openingTotal, reduceSum. simpl. lra.
  - simpl in Hnd. inversion Hnd as [ | ? ? Hnotin Hnd' ]; subst.
    simpl fold_left. unfold openAccount at 2.
    rewrite assign_fresh by (apply Hfresh; now left).
    match goal with
    | |- context [ fold_left openAccount accounts ?h ] =>
        destruct (IH h Hnd') as [Hkeys Htotal]
    end.
    + intros id Hid. rewrite map_app. simpl. intro H.
      apply in_app_or in H. destruct H as [H | [H | []]].
      * apply (Hfresh id); [ now right | assumption ].
      * subst id. contradiction.
    + split.
      * rewrite Hkeys, map_app. simpl. now rewrite <- app_assoc.
      * rewrite Htotal. unfold heldTotal at 1.
        rewrite map_app, reduceSum_app. fold (heldTotal held).
        unfold openingTotal. rewrite reduceSum_cons.
        unfold reduceSum at 1. simpl. lra.
Qed.

Lemma postLine_keys (held : Balances) (t : Transaction) :
  map fst (postLine held t) = map fst held.
Proof.
  unfold postLine. destruct (lookup held (t_accountId t));
    [ apply addTo_keys | reflexivity ].
Qed.

Lemma postLine_total (held : Balances) (t : Transaction) :
  In (t_accountId t) (map fst held) ->
  heldTotal (postLine held t)
  == heldTotal held + debitPositive (t_type t) (t_amount t).
Proof.
  intros Hin. unfold postLine.
  destruct (lookup held (t_accountId t)) eqn:E.
  - now apply addTo_total.
  - apply lookup_keys in Hin. contradiction.
Qed.

Lemma postLines_total (lines : list Transaction) :
  forall held : Balances,
    (forall t, In t lines -> In (t_accountId t) (map fst held)) ->
    let held' := fold_left postLine lines held in
    map fst held' = map fst held
    /\ heldTotal held'
       == heldTotal held
          + reduceSum (fun t => debitPositive (t_type t) (t_amount t)) lines.
Proof.
  induction lines as [ | t lines IH ]; intros held Hknown.
  - simpl. split; [ reflexivity | ]. unfold reduceSum. simpl. lra.
  - simpl fold_left.
    destruct (IH (postLine held t)) as [Hkeys Htotal].
    + intros t' Ht'. rewrite postLine_keys. apply Hknown. now right.
    + split.
      * simpl. rewrite Hkeys. apply postLine_keys.
      * simpl. rewrite Htotal, postLine_total by (apply Hknown; now left).
        rewrite reduceSum_cons. lra.
Qed.

(** The signed sum of the lines of a voucher is its debit total minus its
    credit total. *)
Lemma signed_lines (lines : list Transaction) :
  reduceSum (fun t => debitPositive (t_type t) (t_amount t)) lines
  == debitTotal lines - creditTotal lines.
Proof.
  unfold debitTotal, creditTotal. rewrite reduceSum_minus.
  apply reduceSum_ext. intros t _.
  destruct (t_type t); simpl; lra.
Qed.

Lemma postVouchers_total (js : list JournalEntry) :
  forall held : Balances,
    (forall je, In je js ->
                balanced je
                /\ forall t, In t (transactions je) ->
                             In (t_accountId t) (map fst held)) ->
    let held' :=
      fold_left (fun held je => fold_left postLine (transactions je) held)
                js held in
    heldTotal held' == heldTotal held.
Proof.
  induction js as [ | je js IH ]; intros held Hjs; [ reflexivity | ].
  simpl.
  destruct (Hjs je) as [Hbal Hknown]; [ now left | ].
  destruct (postLines_total (transactions je) held Hknown)
    as [Hkeys Htotal].
  rewrite IH.
  - rewrite Htotal, signed_lines. unfold balanced in Hbal.
    rewrite Hbal. lra.
  - intros je' Hje'. destruct (Hjs je') as [Hb Hk]; [ now right | ].
    split; [ assumption | ]. intros t Ht. rewrite Hkeys. now apply Hk.
Qed.

(** Total debits minus total credits is the sum of the balances. *)
Lemma totals_difference (rows : list BalanceRow) :
  reduceSum (fun acc => if Qgtb (br_balance acc) 0
                        then br_balance acc else 0) rows
  - reduceSum (fun acc => if Qltb (br_balance acc) 0
                          then - br_balance acc else 0) rows
  == reduceSum br_balance rows.
Proof.
  rewrite reduceSum_minus. apply reduceSum_ext. intros r _.
  destruct (Qgtb (br_balance r) 0) eqn:Eg, (Qltb (br_balance r) 0) eqn:El.
  - apply Qgtb_true in Eg. apply Qltb_true in El. lra.
  - lra.
  - lra.
  - apply Qgtb_false in Eg. apply Qltb_false in El. lra.
Qed.

(** C3 (as amended).  For a chart with distinct account ids and a journal
    of balanced vouchers whose lines all name accounts of the chart, total
    debits minus total credits of the trial balance is the sum of the
    accounts' opening balances (debit positive): the two totals are equal
    when the opening balances sum to zero.  The tab reports the fault
    exactly when the difference exceeds 0.01. *)
Theorem trialBalance_totals :
  forall (localeCompare : string -> string -> Z)
         (accounts : list Account) (js : list JournalEntry),
    NoDup (map acc_id accounts) ->
    (forall je, In je js -> balanced je /\ linesKnown accounts je) ->
    let tb := trialBalanceData localeCompare accounts js in
    totalDebits tb - totalCredits tb == openingTotal accounts
    /\ (openingTotal accounts == 0 -> totalDebits tb == totalCredits tb)
    /\ (totalsDoNotMatch tb = true
        <-> 1 # 100 < Qabs (openingTotal accounts)).
Proof.
  intros localeCompare accounts js Hnd Hjs tb.
  assert (Hdiff : totalDebits tb - totalCredits tb
                  == openingTotal accounts).
  { subst tb. unfold trialBalanceData. simpl.
    rewrite totals_difference.
    rewrite (reduceSum_perm _ _ _ (sortWith_perm _ _)).
    change (fold_left _ accounts [])
      with (fold_left openAccount accounts []).
    destruct (openAccounts_total accounts [] Hnd) as [Hkeys Hopen].
    { intros id _ []. }
    simpl in Hkeys.
    match goal with
    | |- reduceSum br_balance (map snd ?h) == _ =>
        change (reduceSum br_balance (map snd h)) with (heldTotal h);
        change h with
          (fold_left
             (fun held je => fold_left postLine (transactions je) held)
             js (fold_left openAccount accounts []))
    end.
    rewrite postVouchers_total.
    - rewrite Hopen. unfold heldTotal, reduceSum. simpl. lra.
    - intros je Hje. destruct (Hjs je Hje) as [Hb Hk].
      split; [ assumption | ]. intros t Ht. rewrite Hkeys. now apply Hk. }
  split; [ exact Hdiff | split ].
  - intros Hzero. rewrite Hzero in Hdiff. lra.
  - unfold totalsDoNotMatch. rewrite Qgtb_true. now rewrite Hdiff.
Qed.

Lemma trialBalance_totals_witness :
  totalDebits (trialBalanceData codeCompare
                 [ cashOpensAt1000; feesAccount ] [ receipt1 ])
  - totalCredits (trialBalanceData codeCompare
                    [ cashOpensAt1000; feesAccount ] [ receipt1 ])
  == openingTotal [ cashOpensAt1000; feesAccount ].
Proof.
  apply (trialBalance_totals codeCompare
           [ cashOpensAt1000; feesAccount ] [ receipt1 ]).
  - repeat constructor; simpl; intuition discriminate.
  - intros je [<- | []]. split.
    + reflexivity.
    + intros t [<- | [<- | []]]; simpl; auto.
Defined.

(** C3 as stated fails for opening balances that do not sum to zero: with
    cash opening at 1000 debit and one balanced receipt of 500 the totals
    are 1500 and 500.  A difference of half a hundredth is not reported. *)
Lemma trialBalance_totals_differ :
  balanced receipt1
  /\ totalDebits (trialBalanceData codeCompare
                    [ cashOpensAt1000; feesAccount ] [ receipt1 ]) == 1500
  /\ totalCredits (trialBalanceData codeCompare
                     [ cashOpensAt1000; feesAccount ] [ receipt1 ]) == 500
  /\ ~ totalDebits (trialBalanceData codeCompare
                      [ cashOpensAt1000; feesAccount ] [ receipt1 ])
       == totalCredits (trialBalanceData codeCompare
                          [ cashOpensAt1000; feesAccount ] [ receipt1 ])
  /\ ~ totalDebits (trialBalanceData codeCompare [ cashOpensAtHalfCent ] [])
       - totalCredits (trialBalanceData codeCompare
                         [ cashOpensAtHalfCent ] [])
       == 0
  /\ totalsDoNotMatch (trialBalanceData codeCompare
                         [ cashOpensAtHalfCent ] [])
     = false.
Proof.
  repeat split; try reflexivity; vm_compute; discriminate.
Qed.
End TrialBalanceFacts.

(** ** The ledger report (double-entry variant) *)

Module LedgerFacts.
Import DoubleEntry DoubleEntrySpec ReportSpec.

(** C4 (as amended).  For account A with an opening balance of 1000
    credit, voucher V1 of 2024-01-05 debiting A 500 and voucher V2 of
    2024-01-10 crediting A 200, the ledger report over 2024-01-01 to
    2024-01-31 has three rows, in whichever order the two vouchers are
    stored: an opening row (credit 1000, balance
    -1000), then one row per voucher line on A in date order, (2024-01-05,
    debit 500, balance -500) and (2024-01-10, credit 200, balance -700).
    The running balance is debit positive and ends at -700. *)
Theorem ledgerReportData_scenario :
  forall journalEntries,
    journalEntries = [ voucherV1; voucherV2 ]
    \/ journalEntries = [ voucherV2; voucherV1 ] ->
    ledgerReportData "_A" 19723 19753 [ accountA; cashAccount ]
                     journalEntries
    = Some {| accountName := "A";
              report_transactions :=
                [ mkLedgerRow Opening "Opening Balance" 0 1000 (-1000);
                  mkLedgerRow (On 19727) "V1" 500 0 (-500);
                  mkLedgerRow (On 19732) "V2" 0 200 (-700) ];
              finalBalance := -700 |}.
Proof. intros journalEntries [-> | ->]; reflexivity. Qed.

Lemma ledgerReportData_scenario_witness :
  ledgerReportData "_A" 19723 19753 [ accountA; cashAccount ]
                   [ voucherV1; voucherV2 ]
  = Some {| accountName := "A";
            report_transactions :=
              [ mkLedgerRow Opening "Opening Balance" 0 1000 (-1000);
                mkLedgerRow (On 19727) "V1" 500 0 (-500);
                mkLedgerRow (On 19732) "V2" 0 200 (-700) ];
            finalBalance := -700 |}.
Proof.
  apply (ledgerReportData_scenario [ voucherV1; voucherV2 ]).
  left. reflexivity.
Defined.

(** C4 as stated fails: read as date, amount with credit positive and
    balance, the rows of the report are not the two rows of the
    description.  There is a third, opening, row, and the balances are
    -500 and -700. *)
Lemma ledgerReportData_not_described_rows :
  exists report,
    ledgerReportData "_A" 19723 19753 [ accountA; cashAccount ]
                     [ voucherV1; voucherV2 ]
    = Some report
    /\ map signedRow (report_transactions report)
       = [ (Opening, 1000, -1000); (On 19727, -500, -500);
           (On 19732, 200, -700) ]
    /\ map signedRow (report_transactions report) <> describedRows.
Proof.
  eexists. split; [ reflexivity | ].
  split; [ reflexivity | ].
  vm_compute. discriminate.
Qed.
End LedgerFacts.

(** ** The spreadsheet import (simple-posting variant) *)

Module ImportFacts.
Import SimplePosting ImportSpec.

Lemma isPositive_not_zero (x : JsNumber) :
  isPositive x = true -> isZero x = false.
Proof.
  destruct x as [ | q ]; simpl; [ discriminate | ].
  intros H. apply Qgtb_true in H.
  destruct (Qeq_bool q 0) eqn:E; [ | reflexivity ].
  apply Qeq_bool_iff in E. lra.
Qed.

Lemma parseDate_empty : parseDateFromDDMMYYYY EmptyString = EmptyString.
Proof. reflexivity. Qed.

Lemma find_name_Some (accounts : list Account) (name : string)
    (account : Account) :
  find (fun a => String.eqb (toLowerCase (acc_name a)) (toLowerCase name))
       accounts = Some account ->
  In account accounts
  /\ toLowerCase (acc_name account) = toLowerCase name.
Proof.
  intros H. apply find_some in H. destruct H as [Hin Heq].
  split; [ assumption | now apply String.eqb_eq ].
Qed.

Lemma find_name_None (accounts : list Account) (name : string) :
  find (fun a => String.eqb (toLowerCase (acc_name a)) (toLowerCase name))
       accounts = None ->
  forall a, In a accounts -> toLowerCase (acc_name a) <> toLowerCase name.
Proof.
  intros H a Hin Heq. apply (find_none _ _ H) in Hin.
  apply String.eqb_neq in Hin. contradiction.
Qed.

(** A row whose account-name cell is a text or blank does not raise. *)
Lemma importRow_runs :
  forall generateId importedCategoryId s row,
    (forall q, row_accountName row <> Numeric q) ->
    exists s', importRow generateId importedCategoryId s row = Some s'.
Proof.
  intros generateId catId s row Htext. unfold importRow.
  destruct (row_accountName row) as [ | text | q ];
    [ | | exfalso; now apply (Htext q) ].
  - simpl. now exists s.
  - destruct (_ || _ || _); [ now exists s | ].
    destruct (String.eqb _ EmptyString); [ now exists s | ].
    destruct (find _ _); destruct (isPositive (row_debit row));
      try (eexists; reflexivity);
      destruct (isPositive (row_credit row)); eexists; reflexivity.
Qed.

(** C8 (as amended).  A row whose account-name cell is a text or blank
    never interrupts the import.  If the account name is blank, or the date
    is missing or is not accepted by the date parser, or neither the debit
    nor the credit is positive, no expenditure and no income entry is
    appended.  Otherwise exactly one record is appended, dated by the
    parsed date: an expenditure of the debit when the debit is positive
    (also when the credit is positive too), else an income entry of the
    credit; it is booked against the account found by name, letter case
    ignored, or else against a new account of the imported category. *)
Theorem importRow_one_record :
  forall (generateId : nat -> string) (importedCategoryId : string)
         (s : ImportState) (row : Row),
    (forall q, row_accountName row <> Numeric q) ->
    exists s',
      importRow generateId importedCategoryId s row = Some s'
      /\ ((forall name iso, ~ importable row name iso) ->
          tempExpenditures s' = tempExpenditures s
          /\ tempIncomes s' = tempIncomes s)
      /\ (forall name iso,
             importable row name iso ->
             exists account id,
               resolved importedCategoryId s s' name account
               /\ if isPositive (row_debit row)
                  then tempExpenditures s'
                       = tempExpenditures s
                         ++ [ mkPosting id iso (acc_id account)
                                        (numberOf (row_debit row))
                                        (row_narration row) ]
                       /\ tempIncomes s' = tempIncomes s
                  else tempIncomes s'
                       = tempIncomes s
                         ++ [ mkPosting id iso (acc_id account)
                                        (numberOf (row_credit row))
                                        (row_narration row) ]
                       /\ tempExpenditures s' = tempExpenditures s).
Proof.
  intros generateId catId s row Htext.
  pose proof parseDate_empty as Hempty.
  unfold importRow.
  destruct (row_accountName row) as [ | text | q ] eqn:En.
  - simpl. skipped s. congruence.
  - destruct (String.eqb_spec (trim text) EmptyString) as [Eblank | Ename].
    { simpl. skipped s. congruence. }
    cbn [orb].
    destruct (row_date row) as [ | d | q ] eqn:Ed.
    + skipped s. congruence.
    + destruct (String.eqb_spec d EmptyString) as [Edate | Edate].
      { skipped s. congruence. }
      cbn [orb].
      destruct (isZero (row_debit row) && isZero (row_credit row)) eqn:Ez.
      { skipped s. apply andb_true_iff in Ez. destruct Ez as [Ez1 Ez2].
        destruct Hpos as [Hp | Hp]; apply isPositive_not_zero in Hp;
          congruence. }
      destruct (String.eqb_spec (parseDateFromDDMMYYYY d) EmptyString)
        as [Eiso | Eiso].
      { skipped s. congruence. }
      assert (Himp : importable row (trim text) (parseDateFromDDMMYYYY d)
                     \/ (isPositive (row_debit row) = false
                         /\ isPositive (row_credit row) = false)).
      { destruct (isPositive (row_debit row)) eqn:Epd.
        - left. split; [ now exists text | ].
          split; [ now exists d | now left ].
        - destruct (isPositive (row_credit row)) eqn:Epc.
          + left. split; [ now exists text | ].
            split; [ now exists d | now right ].
          + right. now split. }
      assert (Hsame : forall name iso,
                 importable row name iso ->
                 name = trim text /\ iso = parseDateFromDDMMYYYY d).
      { intros name iso [[t' [Hn [Hname _]]] [[d' [Hd [Hiso _]]] _]].
        split; congruence. }
      destruct (find _ (tempAccounts s)) as [account | ] eqn:Ef.
      * apply find_name_Some in Ef. destruct Ef as [Hin Hlow].
        destruct (isPositive (row_debit row)) eqn:Epd;
          [ | destruct (isPositive (row_credit row)) eqn:Epc ].
        -- eexists. split; [ reflexivity | ]. simpl. split.
           ++ intros Hno. exfalso.
              destruct Himp as [Hi | [Hi _]];
                [ now apply Hno in Hi | discriminate ].
           ++ intros name iso Hi. destruct (Hsame _ _ Hi) as [-> ->].
              exists account. eexists. split; [ | split; reflexivity ].
              split; [ assumption | ]. left. auto.
        -- eexists. split; [ reflexivity | ]. simpl. split.
           ++ intros Hno. exfalso.
              destruct Himp as [Hi | [_ Hi]];
                [ now apply Hno in Hi | discriminate ].
           ++ intros name iso Hi. destruct (Hsame _ _ Hi) as [-> ->].
              exists account. eexists. split; [ | split; reflexivity ].
              split; [ assumption | ]. left. auto.
        -- skipped s. destruct Hpos; congruence.
      * pose proof (find_name_None _ _ Ef) as Hnone.
        destruct (isPositive (row_debit row)) eqn:Epd;
          [ | destruct (isPositive (row_credit row)) eqn:Epc ].
        -- eexists. split; [ reflexivity | ]. simpl. split.
           ++ intros Hno. exfalso.
              destruct Himp as [Hi | [Hi _]];
                [ now apply Hno in Hi | discriminate ].
           ++ intros name iso Hi. destruct (Hsame _ _ Hi) as [-> ->].
              exists {| acc_id := generateId (idsDrawn s);
                        acc_name := trim text;
                        fatherName := None;
                        mobile := None;
                        categoryId := catId;
                        isStudentAccount := Some false;
                        acc_studentId := None |}.
              eexists. split; [ | split; reflexivity ].
              split; [ reflexivity | ]. right. simpl. auto.
        -- eexists. split; [ reflexivity | ]. simpl. split.
           ++ intros Hno. exfalso.
              destruct Himp as [Hi | [_ Hi]];
                [ now apply Hno in Hi | discriminate ].
           ++ intros name iso Hi. destruct (Hsame _ _ Hi) as [-> ->].
              exists {| acc_id := generateId (idsDrawn s);
                        acc_name := trim text;
                        fatherName := None;
                        mobile := None;
                        categoryId := catId;
                        isStudentAccount := Some false;
                        acc_studentId := None |}.
              eexists. split; [ | split; reflexivity ].
              split; [ reflexivity | ]. right. simpl. auto.
        -- eexists. split; [ reflexivity | ]. simpl.
           split; [ intros _; split; reflexivity | ].
           intros name iso [_ [_ Hpos]]. destruct Hpos; congruence.
    + destruct (Qeq_bool q 0); cbn [orb]; [ skipped s; congruence | ].
      destruct (isZero (row_debit row) && isZero (row_credit row));
        [ skipped s; congruence | ].
      simpl. skipped s. congruence.
  - exfalso. apply (Htext q). reflexivity.
Qed.

Lemma importRow_one_record_witness :
  exists s',
    importRow numberedId "_imported" emptyImport rowWithCredit = Some s'
    /\ exists account id,
         resolved "_imported" emptyImport s' "Donations" account
         /\ tempIncomes s'
            = [ mkPosting id "2024-01-06" (acc_id account) 750 "Alumni" ]
         /\ tempExpenditures s' = [].
Proof.
  destruct (importRow_one_record numberedId "_imported" emptyImport
              rowWithCredit)
    as [s' [Hrun [_ Hrecord]]].
  - intros q. discriminate.
  - exists s'. split; [ exact Hrun | ].
    destruct (Hrecord "Donations" "2024-01-06") as [account [id [Hres Happ]]].
    + split; [ | split ].
      * exists "Donations". repeat split. discriminate.
      * exists "06/01/2024". repeat split. discriminate.
      * right. reflexivity.
    + exists account, id. split; [ exact Hres | exact Happ ].
Defined.

(** C8 as stated fails for a row with both a debit and a credit: the row
    is not skipped, an expenditure of the debit is appended. *)
Lemma importRow_both_set_not_skipped :
  isPositive (row_debit rowWithBoth) = true
  /\ isPositive (row_credit rowWithBoth) = true
  /\ exists s',
       importRow numberedId "_imported" emptyImport rowWithBoth = Some s'
       /\ tempExpenditures s'
          = [ mkPosting "_2" "2024-01-05" "_1" 500 "Paper" ]
       /\ tempExpenditures s' <> tempExpenditures emptyImport.
Proof.
  split; [ reflexivity | split; [ reflexivity | ] ].
  eexists. split; [ reflexivity | ].
  split; [ reflexivity | discriminate ].
Qed.

(** The loop runs to its end over rows whose account-name cells are texts
    or blank. *)
Lemma importRows_runs :
  forall generateId importedCategoryId json s,
    (forall row q, In row json -> row_accountName row <> Numeric q) ->
    exists s', importRows generateId importedCategoryId s json = Some s'.
Proof.
  intros generateId catId json.
  induction json as [ | row json IH ]; intros s Htext; simpl.
  - now exists s.
  - destruct (importRow_runs generateId catId s row) as [s1 H1].
    + intros q. apply Htext. now left.
    + rewrite H1. apply IH. intros r q Hr. apply Htext. now right.
Qed.

(** A numeric account-name cell ends the loop with an exception. *)
Lemma importRow_numeric_name :
  forall generateId importedCategoryId s row q,
    row_accountName row = Numeric q ->
    importRow generateId importedCategoryId s row = None.
Proof.
  intros generateId catId s row q H. unfold importRow. now rewrite H.
Qed.

(** The date parser looks at the lengths of the three parts only. *)
Lemma parseDate_accepts_letters :
  parseDateFromDDMMYYYY "ab/cd/efgh" = "efgh-cd-ab".
Proof. reflexivity. Qed.
End ImportFacts.

(** ** Identifiers removed by a save *)

Module SchoolFacts.
Import School.

Lemma includes_iff (ids : list string) (id : string) :
  includes ids id = true <-> In id ids.
Proof.
  unfold includes. rewrite existsb_exists. split.
  - intros [x [Hin Heq]]. apply String.eqb_eq in Heq. now subst.
  - intros Hin. exists id. split; [ assumption | apply String.eqb_refl ].
Qed.

Lemma existsb_false {A : Type} (f : A -> bool) (l : list A) :
  existsb f l = false <-> (forall x, In x l -> f x = false).
Proof.
  induction l as [ | y l IH ]; simpl.
  - split; [ intros _ x [] | reflexivity ].
  - rewrite orb_false_iff, IH. split.
    + intros [Hy Hl] x [<- | Hx]; auto.
    + intros H. split; [ apply H; now left | ].
      intros x Hx. apply H. now right.
Qed.

Lemma deletedIds_spec {A : Type} (id : A -> string) (old updated : list A)
    (i : string) :
  In i (deletedIds id old updated)
  <-> exists x, In x old /\ id x = i
                /\ forall u, In u updated -> id u <> i.
Proof.
  unfold deletedIds. rewrite in_map_iff. split.
  - intros [x [Hid Hin]]. apply filter_In in Hin.
    destruct Hin as [Hin Hnone]. apply negb_true_iff in Hnone.
    exists x. split; [ assumption | ]. split; [ assumption | ].
    intros u Hu Heq. rewrite existsb_false in Hnone.
    specialize (Hnone u Hu). apply String.eqb_neq in Hnone. congruence.
  - intros [x [Hin [Hid Hnone]]]. exists x. split; [ assumption | ].
    apply filter_In. split; [ assumption | ].
    apply negb_true_iff. apply existsb_false. intros u Hu.
    apply String.eqb_neq. specialize (Hnone u Hu). congruence.
Qed.

(** An element whose identifier was not removed has its identifier in the
    updated collection. *)
Lemma kept_id {A : Type} (id : A -> string) (old updated : list A) (x : A) :
  In x old -> ~ In (id x) (deletedIds id old updated) ->
  In (id x) (map id updated).
Proof.
  intros Hin Hkept.
  destruct (existsb (fun u => String.eqb (id u) (id x)) updated) eqn:E.
  - apply existsb_exists in E. destruct E as [u [Hu Heq]].
    apply String.eqb_eq in Heq. rewrite <- Heq. now apply in_map.
  - exfalso. apply Hkept. apply deletedIds_spec.
    exists x. split; [ assumption | ]. split; [ reflexivity | ].
    intros u Hu. rewrite existsb_false in E. specialize (E u Hu).
    now apply String.eqb_neq.
Qed.

Lemma none_deleted (ids : list string) :
  (0 <? List.length ids)%nat = false -> ids = [].
Proof. destruct ids; simpl; [ reflexivity | discriminate ]. Qed.

Lemma filter_all {A : Type} (f : A -> bool) (l : list A) :
  (forall x, In x l -> f x = true) -> filter f l = l.
Proof.
  induction l as [ | x l IH ]; simpl; intros H; [ reflexivity | ].
  rewrite (H x) by now left. f_equal. apply IH.
  intros y Hy. apply H. now right.
Qed.

Lemma filter_none {A : Type} (f : A -> bool) (l : list A) :
  (forall x, In x l -> f x = false) -> filter f l = [].
Proof.
  induction l as [ | x l IH ]; simpl; intros H; [ reflexivity | ].
  rewrite (H x) by now left. apply IH.
  intros y Hy. apply H. now right.
Qed.

Lemma filter_NoDup_map {A B : Type} (f : A -> B) (keep : A -> bool)
    (l : list A) :
  NoDup (map f l) -> NoDup (map f (filter keep l)).
Proof.
  induction l as [ | x l IH ]; simpl; intros Hnd; [ constructor | ].
  inversion Hnd as [ | ? ? Hnotin Hnd' ]; subst.
  destruct (keep x); simpl; [ | now apply IH ].
  constructor; [ | now apply IH ].
  intros Hin. apply Hnotin. apply in_map_iff in Hin.
  destruct Hin as [y [Hy Hyin]]. apply filter_In in Hyin.
  rewrite <- Hy. apply in_map. apply Hyin.
Qed.

Lemma NoDup_snoc {A : Type} (l : list A) (x : A) :
  NoDup l -> ~ In x l -> NoDup (l ++ [x]).
Proof.
  intros Hnd Hnotin. induction l as [ | y l IH ]; simpl.
  - constructor; [ intros [] | constructor ].
  - inversion Hnd as [ | ? ? Hy Hnd' ]; subst. constructor.
    + intros Hin. apply in_app_or in Hin. destruct Hin as [Hin | [<- | []]].
      * contradiction.
      * apply Hnotin. now left.
    + apply IH; [ assumption | ]. intros Hin. apply Hnotin. now right.
Qed.

Lemma NoDup_map_injective {A B : Type} (f : A -> B) (l : list A) (x y : A) :
  NoDup (map f l) -> In x l -> In y l -> f x = f y -> x = y.
Proof.
  induction l as [ | z l IH ]; simpl; intros Hnd Hx Hy Heq;
    [ contradiction | ].
  inversion Hnd as [ | ? ? Hnotin Hnd' ]; subst.
  destruct Hx as [-> | Hx], Hy as [-> | Hy].
  - reflexivity.
  - exfalso. apply Hnotin. rewrite Heq. now apply in_map.
  - exfalso. apply Hnotin. rewrite <- Heq. now apply in_map.
  - now apply IH.
Qed.

End SchoolFacts.

(** ** Income and expenditure of the day book *)

Module DayBookManagerFacts.
Import SimplePosting DayBookManager DayBookSpec OpeningBalanceSpec.
Import SumFacts OpeningBalanceFacts DayBookFacts.

(** *** Dates shown and dates read *)

Lemma split_no_sep (sep : ascii) (s : string) :
  occurs sep s = false -> split sep s = [s].
Proof.
  induction s as [ | c rest IH ]; simpl; [ reflexivity | ].
  intros H. apply orb_false_iff in H. destruct H as [Hc Hrest].
  rewrite Hc, (IH Hrest). reflexivity.
Qed.

Lemma split_app (sep : ascii) (a b : string) :
  occurs sep a = false ->
  split sep (a ++ String sep b)%string = a :: split sep b.
Proof.
  induction a as [ | c a IH ]; simpl.
  - intros _. now rewrite Ascii.eqb_refl.
  - intros H. apply orb_false_iff in H. destruct H as [Hc Ha].
    rewrite Hc, (IH Ha). reflexivity.
Qed.

Lemma split_not_nil (sep : ascii) (s : string) : split sep s <> [].
Proof.
  destruct s as [ | c rest ]; simpl; [ discriminate | ].
  destruct (Ascii.eqb c sep); [ discriminate | ].
  destruct (split sep rest); discriminate.
Qed.

Lemma split_one (sep : ascii) (s part : string) :
  split sep s = [part] -> s = part.
Proof.
  revert part. induction s as [ | ch rest IH ]; simpl; intros part H.
  - now injection H.
  - destruct (Ascii.eqb ch sep).
    + injection H as _ Hnil. now apply split_not_nil in Hnil.
    + destruct (split sep rest) as [ | p ps ] eqn:Es;
        [ now apply split_not_nil in Es | ].
      injection H as <- ->. f_equal. now apply IH.
Qed.

Lemma split_cons (sep : ascii) (s a b : string) (parts : list string) :
  split sep s = a :: b :: parts ->
  exists rest, s = (a ++ String sep rest)%string
               /\ split sep rest = b :: parts.
Proof.
  revert a. induction s as [ | ch rest IH ]; simpl; intros a H;
    [ discriminate | ].
  destruct (Ascii.eqb ch sep) eqn:Ec.
  - apply Ascii.eqb_eq in Ec. subst ch.
    injection H as <- Hrest. exists rest. split; [ reflexivity | assumption ].
  - destruct (split sep rest) as [ | p ps ] eqn:Es; [ discriminate | ].
    injection H as <- ->.
    destruct (IH p eq_refl) as [r [-> Hr]]. exists r.
    split; [ reflexivity | assumption ].
Qed.

Lemma split_three (sep : ascii) (s a b c : string) :
  split sep s = [a; b; c] ->
  s = (a ++ String sep (b ++ String sep c))%string.
Proof.
  intros H. apply split_cons in H. destruct H as [r [-> H]].
  apply split_cons in H. destruct H as [r' [-> H]].
  apply split_one in H. now subst r'.
Qed.

Lemma occurs_app (c : ascii) (a b : string) :
  occurs c (a ++ b)%string = occurs c a || occurs c b.
Proof.
  induction a as [ | ch a IH ]; simpl; [ reflexivity | ].
  now rewrite IH, orb_assoc.
Qed.

Lemma length_not_empty (n : nat) (s : string) :
  String.length s = S n -> String.eqb s EmptyString = false.
Proof. destruct s; simpl; [ discriminate | reflexivity ]. Qed.

(** X1.  A date written [YYYY-MM-DD] that [formatDate] shows as
    [DD/MM/YYYY] is read back by [parseDateFromDDMMYYYY] as the date it
    came from: for a year of four characters and a month and a day of two
    characters each, none of them a separator, parsing the formatted date
    gives the original string. *)
Theorem parseDate_formatDate :
  forall (year month day : string),
    datePart 4 year -> datePart 2 month -> datePart 2 day ->
    formatDate (year ++ "-" ++ month ++ "-" ++ day)
    = (day ++ "/" ++ month ++ "/" ++ year)%string
    /\ parseDateFromDDMMYYYY
         (formatDate (year ++ "-" ++ month ++ "-" ++ day))
       = (year ++ "-" ++ month ++ "-" ++ day)%string.
Proof.
  intros year month day [Ly [Hy Hy']] [Lm [Hm Hm']] [Ld [Hd Hd']].
  assert (Hfmt : formatDate (year ++ "-" ++ month ++ "-" ++ day)
                 = (day ++ "/" ++ month ++ "/" ++ year)%string).
  { unfold formatDate.
    assert (Hne : String.eqb (year ++ "-" ++ month ++ "-" ++ day)
                             EmptyString = false).
    { destruct year; [ discriminate | reflexivity ]. }
    rewrite Hne.
    change (year ++ "-" ++ month ++ "-" ++ day)%string
      with (year ++ String "-" (month ++ String "-" day))%string.
    rewrite (split_app _ _ _ Hy), (split_app _ _ _ Hm),
      (split_no_sep _ _ Hd).
    rewrite (length_not_empty _ _ Ly), (length_not_empty _ _ Lm),
      (length_not_empty _ _ Ld).
    reflexivity. }
  split; [ exact Hfmt | ].
  rewrite Hfmt. unfold parseDateFromDDMMYYYY.
  assert (Hne : String.eqb (day ++ "/" ++ month ++ "/" ++ year)
                           EmptyString = false).
  { destruct day; [ discriminate | reflexivity ]. }
  rewrite Hne.
  change (day ++ "/" ++ month ++ "/" ++ year)%string
    with (day ++ String "/" (month ++ String "/" year))%string.
  rewrite (split_app _ _ _ Hd'), (split_app _ _ _ Hm'),
    (split_no_sep _ _ Hy').
  rewrite Ld, Lm, Ly. reflexivity.
Qed.

Lemma parseDate_formatDate_witness :
  parseDateFromDDMMYYYY (formatDate "2024-03-01") = "2024-03-01".
Proof.
  apply (parseDate_formatDate "2024" "03" "01");
    repeat split; reflexivity.
Defined.

(** X2.  The other way round: a string that [parseDateFromDDMMYYYY]
    accepts and that holds no hyphen is shown again by [formatDate] of the
    date it was read as. *)
Theorem formatDate_parseDate :
  forall (ddmmyyyy : string),
    parseDateFromDDMMYYYY ddmmyyyy <> EmptyString ->
    occurs "-" ddmmyyyy = false ->
    formatDate (parseDateFromDDMMYYYY ddmmyyyy) = ddmmyyyy.
Proof.
  intros s Hacc Hhy. unfold parseDateFromDDMMYYYY in *.
  destruct (String.eqb s EmptyString); [ contradiction | ].
  destruct (split "/" s) as [ | d [ | m [ | y [ | ? ? ] ] ] ] eqn:Es;
    try contradiction.
  destruct (Nat.eqb_spec (String.length d) 2) as [Ld | ];
    [ | simpl in Hacc; contradiction ].
  destruct (Nat.eqb_spec (String.length m) 2) as [Lm | ];
    [ | simpl in Hacc; contradiction ].
  destruct (Nat.eqb_spec (String.length y) 4) as [Ly | ];
    [ | simpl in Hacc; contradiction ].
  simpl negb. simpl orb. cbv iota.
  apply split_three in Es. subst s.
  rewrite !occurs_app in Hhy. simpl in Hhy. rewrite occurs_app in Hhy.
  simpl in Hhy.
  apply orb_false_iff in Hhy. destruct Hhy as [Hd Hhy].
  apply orb_false_iff in Hhy. destruct Hhy as [Hm Hy].
  unfold formatDate.
  assert (Hne : String.eqb (y ++ "-" ++ m ++ "-" ++ d) EmptyString = false).
  { destruct y; [ discriminate | reflexivity ]. }
  rewrite Hne.
  change (y ++ "-" ++ m ++ "-" ++ d)%string
    with (y ++ String "-" (m ++ String "-" d))%string.
  rewrite (split_app _ _ _ Hy), (split_app _ _ _ Hm), (split_no_sep _ _ Hd).
  rewrite (length_not_empty _ _ Ly), (length_not_empty _ _ Lm),
    (length_not_empty _ _ Ld).
  reflexivity.
Qed.

Lemma formatDate_parseDate_witness :
  formatDate (parseDateFromDDMMYYYY "05/01/2024") = "05/01/2024".
Proof.
  apply (formatDate_parseDate "05/01/2024");
    [ vm_compute; discriminate | reflexivity ].
Defined.


(** *** The opening balance and later postings *)

Lemma filter_filter_imp {A : Type} (f g : A -> bool) (l : list A) :
  (forall x, f x = true -> g x = true) ->
  filter f (filter g l) = filter f l.
Proof.
  intros Himp. induction l as [ | x l IH ]; simpl; [ reflexivity | ].
  destruct (g x) eqn:Eg; simpl.
  - now rewrite IH.
  - destruct (f x) eqn:Ef; [ | assumption ].
    apply Himp in Ef. congruence.
Qed.

Lemma filter_map_comm {A B : Type} (g : A -> B) (f : B -> bool)
    (l : list A) :
  filter f (map g l) = map g (filter (fun x => f (g x)) l).
Proof.
  induction l as [ | x l IH ]; simpl; [ reflexivity | ].
  destruct (f (g x)); simpl; now rewrite IH.
Qed.

Lemma day_before (d D : Z) :
  (d < D)%Z -> forall x : Z, (x =? d)%Z = true -> (x <? D)%Z = true.
Proof. intros Hd x Hx. apply Z.eqb_eq in Hx. apply Z.ltb_lt. lia. Qed.

Lemma sums_agree (D d : Z) (st st' : Store) :
  agreeBefore D st st' -> (d < D)%Z ->
  incomeForDay st d = incomeForDay st' d
  /\ expenditureForDay st d = expenditureForDay st' d.
Proof.
  intros [_ [Hfp [Hin Hex]]] Hd.
  unfold incomeForDay, expenditureForDay.
  rewrite <- (filter_filter_imp (fun p => (fp_paymentDate p =? d)%Z)
                (fun p => (fp_paymentDate p <? D)%Z) (feePayments st))
    by (intros x; apply (day_before d D Hd)).
  rewrite <- (filter_filter_imp (fun i : Posting Z => (p_date i =? d)%Z)
                (fun i => (p_date i <? D)%Z) (incomeEntries st))
    by (intros x; apply (day_before d D Hd)).
  rewrite <- (filter_filter_imp (fun e : Posting Z => (p_date e =? d)%Z)
                (fun e => (p_date e <? D)%Z) (expenditures st))
    by (intros x; apply (day_before d D Hd)).
  rewrite Hfp, Hin, Hex.
  rewrite !filter_filter_imp
    by (intros x; apply (day_before d D Hd)).
  split; reflexivity.
Qed.

Lemma toISODate_le (zone : Zone) (c : Z) : (toISODate zone c <= c)%Z.
Proof. destruct zone; simpl; lia. Qed.

Lemma replay_agree (zone : Zone) (st st' : Store) (D : Z) (n : nat) :
  agreeBefore D st st' ->
  forall (currentDate : Z) (runningBalance : Q),
    (currentDate + Z.of_nat n <= D)%Z ->
    replay zone st n currentDate runningBalance
    = replay zone st' n currentDate runningBalance.
Proof.
  intros Hagree. induction n as [ | n IH ]; intros cur bal Hn;
    [ reflexivity | ].
  simpl.
  assert (Hday : (toISODate zone cur < D)%Z).
  { pose proof (toISODate_le zone cur). lia. }
  destruct (sums_agree D _ st st' Hagree Hday) as [-> ->].
  destruct Hagree as [Hobs Hrest]. rewrite <- Hobs.
  apply IH. lia.
Qed.

(** The value the code returns for a date without an override of its own,
    in either zone. *)
Lemma calculate_from_anchor (zone : Zone) (st : Store) (D : Z) :
  findOverride (openingBalances st) D = None ->
  calculateOpeningBalanceForDate zone st D
  = match nearestOverrideBefore (openingBalances st) D with
    | Some a =>
        balanceOfSigned
          (replay zone st (Z.to_nat (D - ob_id a)) (ob_id a)
                  (signedAmount (ob_amount a) (ob_type a)))
    | None =>
        match earliest (filter (fun d => (d <? D)%Z) (transactionDates st))
        with
        | Some e => balanceOfSigned (replay zone st (Z.to_nat (D - e)) e 0)
        | None => {| amount := 0; type := credit |}
        end
    end.
Proof.
  intros HD. unfold calculateOpeningBalanceForDate. rewrite HD.
  pose proof (hd_allDates st) as Hhd.
  pose proof (earliest_spec
                (map ob_id (openingBalances st) ++ transactionDates st))
    as Hall.
  pose proof (nearestOverrideBefore_spec (openingBalances st) D) as Hnear.
  pose proof (earliest_spec
                (filter (fun d => (d <? D)%Z) (transactionDates st)))
    as Htx.
  assert (Hob : forall ob, In ob (openingBalances st) ->
                In (ob_id ob)
                   (map ob_id (openingBalances st) ++ transactionDates st)).
  { intros ob Hin. apply in_or_app. left. now apply in_map. }
  destruct (allDates st) as [ | first rest ]; simpl in Hhd;
    rewrite <- Hhd in Hall.
  - apply app_eq_nil in Hall. destruct Hall as [Hobs Htxs].
    rewrite Htxs. destruct (openingBalances st); [ | discriminate ].
    reflexivity.
  - destruct Hall as [Hfirst Hmin].
    destruct (Z.ltb_spec D first) as [Hbefore | Hafter].
    + destruct (nearestOverrideBefore (openingBalances st) D) as [a | ].
      * destruct Hnear as [Hlt [Hfind _]].
        apply findOverride_Some in Hfind. destruct Hfind as [Hin _].
        specialize (Hmin _ (Hob a Hin)). lia.
      * destruct (earliest (filter (fun d => (d <? D)%Z)
                                   (transactionDates st))) as [e | ];
          [ | reflexivity ].
        destruct Htx as [He _]. apply filter_In in He.
        destruct He as [He Hlt]. apply Z.ltb_lt in Hlt.
        assert (first <= e)%Z.
        { apply Hmin. apply in_or_app. now right. }
        lia.
    + rewrite find_sortedBalances.
      destruct (nearestOverrideBefore (openingBalances st) D) as [a | ] eqn:Hn;
        [ reflexivity | ].
      assert (Hfirst' : In first (transactionDates st)).
      { apply in_app_or in Hfirst. destruct Hfirst as [H | H];
          [ | assumption ].
        apply in_map_iff in H. destruct H as [ob [Hid Hin]].
        specialize (Hnear ob Hin).
        rewrite findOverride_None in HD. specialize (HD ob Hin). lia. }
      destruct (earliest (filter (fun d => (d <? D)%Z)
                                 (transactionDates st))) as [e | ].
      * destruct Htx as [He Hemin]. apply filter_In in He.
        destruct He as [He Hlt]. apply Z.ltb_lt in Hlt.
        assert (first <= e)%Z.
        { apply Hmin. apply in_or_app. now right. }
        assert (e <= first)%Z.
        { apply Hemin. apply filter_In. split; [ assumption | ].
          apply Z.ltb_lt. lia. }
        replace e with first by lia. reflexivity.
      * assert (Hnot : ~ (first < D)%Z).
        { intros Hlt.
          assert (Hin : In first (filter (fun d => (d <? D)%Z)
                                         (transactionDates st))).
          { apply filter_In. split; [ assumption | ].
            now apply Z.ltb_lt. }
          rewrite Htx in Hin. contradiction. }
        replace (Z.to_nat (D - first)) with O by lia. reflexivity.
Qed.

Lemma transactionDates_before (D : Z) (st st' : Store) :
  agreeBefore D st st' ->
  filter (fun d => (d <? D)%Z) (transactionDates st)
  = filter (fun d => (d <? D)%Z) (transactionDates st').
Proof.
  intros [_ [Hfp [Hin Hex]]]. unfold transactionDates.
  rewrite !filter_app, !filter_map_comm.
  now rewrite Hfp, Hin, Hex.
Qed.

Lemma calculate_agree (zone : Zone) (D : Z) (st st' : Store) :
  agreeBefore D st st' ->
  calculateOpeningBalanceForDate zone st D
  = calculateOpeningBalanceForDate zone st' D.
Proof.
  intros Hagree.
  pose proof Hagree as [Hobs _].
  destruct (findOverride (openingBalances st) D) as [ob | ] eqn:Hov.
  - rewrite (calculate_override zone st D ob Hov).
    rewrite Hobs in Hov.
    now rewrite (calculate_override zone st' D ob Hov).
  - rewrite (calculate_from_anchor zone st D Hov).
    rewrite Hobs in Hov.
    rewrite (calculate_from_anchor zone st' D Hov).
    rewrite <- Hobs, <- (transactionDates_before D st st' Hagree).
    pose proof (nearestOverrideBefore_spec (openingBalances st) D) as Hnear.
    destruct (nearestOverrideBefore (openingBalances st) D) as [a | ].
    + destruct Hnear as [Hlt _]. f_equal.
      apply (replay_agree zone st st' D); [ assumption | lia ].
    + pose proof (earliest_spec
                    (filter (fun d => (d <? D)%Z) (transactionDates st)))
        as Htx.
      destruct (earliest (filter (fun d => (d <? D)%Z)
                                 (transactionDates st))) as [e | ];
        [ | reflexivity ].
      destruct Htx as [He _]. apply filter_In in He.
      destruct He as [_ Hlt]. apply Z.ltb_lt in Hlt. f_equal.
      apply (replay_agree zone st st' D); [ assumption | lia ].
Qed.

(** X3.  The opening balance derived for a date [D] depends on the
    overrides and on the postings dated before [D] only: two stores with
    the same overrides and the same fee payments, income entries and
    expenditures dated before [D] give the same opening balance for [D],
    in either zone.  Postings dated [D] or later never change it. *)
Theorem opening_balance_ignores_later_postings :
  forall (zone : Zone) (D : Z) (st st' : Store),
    agreeBefore D st st' ->
    calculateOpeningBalanceForDate zone st D
    = calculateOpeningBalanceForDate zone st' D.
Proof. intros zone D st st'. apply calculate_agree. Qed.

Lemma opening_balance_ignores_later_postings_witness :
  calculateOpeningBalanceForDate AheadOfUTC marchStore 19786
  = calculateOpeningBalanceForDate AheadOfUTC marchStoreLater 19786.
Proof.
  apply (opening_balance_ignores_later_postings AheadOfUTC 19786
           marchStore marchStoreLater).
  repeat split; reflexivity.
Defined.

(** *** Saving and deleting entries *)

Lemma accepted_form (form : Posting Z) :
  acceptable form ->
  String.eqb (p_accountId form) EmptyString
  || Qeq_bool (p_amount form) 0 || Qle_bool (p_amount form) 0 = false.
Proof.
  intros [Hacc Hpos].
  apply String.eqb_neq in Hacc. rewrite Hacc. simpl.
  apply orb_false_iff. split.
  - destruct (Qeq_bool (p_amount form) 0) eqn:E; [ | reflexivity ].
    apply Qeq_bool_iff in E. lra.
  - destruct (Qle_bool (p_amount form) 0) eqn:E; [ | reflexivity ].
    apply Qle_bool_iff in E. lra.
Qed.

Lemma rejected_form (form : Posting Z) :
  ~ acceptable form ->
  String.eqb (p_accountId form) EmptyString
  || Qeq_bool (p_amount form) 0 || Qle_bool (p_amount form) 0 = true.
Proof.
  intros Hno.
  destruct (String.eqb_spec (p_accountId form) EmptyString) as [ | Hacc ];
    [ reflexivity | ].
  simpl. apply orb_true_iff. right.
  apply Qle_bool_iff. apply Qnot_lt_le. intros Hpos.
  apply Hno. now split.
Qed.

Lemma save_valid (entries : list (Posting Z)) (form : Posting Z)
    (newId : string) :
  validPostings entries -> acceptable form ->
  validPostings (map (fun e => if String.eqb (p_id e) (p_id form)
                               then form else e) entries)
  /\ validPostings
       (entries ++ [ {| p_id := newId; p_date := p_date form;
                        p_accountId := p_accountId form;
                        p_amount := p_amount form;
                        p_remarks := p_remarks form |} ]).
Proof.
  intros Hvalid [Hacc Hpos]. split.
  - unfold validPostings. apply Forall_map.
    apply (Forall_impl _ (P := fun e => 0 < p_amount e
                                        /\ p_accountId e <> EmptyString));
      [ | exact Hvalid ].
    intros e He. destruct (String.eqb (p_id e) (p_id form)); auto.
  - apply Forall_app. split; [ exact Hvalid | ].
    constructor; [ | constructor ]. simpl. auto.
Qed.

Lemma filter_valid (keep : Posting Z -> bool) (entries : list (Posting Z)) :
  validPostings entries -> validPostings (filter keep entries).
Proof.
  intros Hvalid. apply Forall_forall. intros e He.
  apply filter_In in He. destruct He as [He _].
  unfold validPostings in Hvalid. rewrite Forall_forall in Hvalid. auto.
Qed.

(** X4.  Whatever form is submitted and whatever entry is deleted, the
    stored income entries and expenditures keep a positive amount and an
    account: each of [handleSaveIncome], [handleDeleteIncome],
    [handleSaveExpenditure] and [handleDeleteExpenditure] takes a
    collection of such entries to a collection of such entries, and a form
    that lacks an account or a positive amount changes nothing. *)
Theorem day_book_entries_stay_valid :
  forall (entries : list (Posting Z)) (form : option (Posting Z))
         (newId id : string) (confirmed : bool),
    validPostings entries ->
    validPostings (stateAfter entries (handleSaveIncome entries form newId))
    /\ validPostings
         (stateAfter entries (handleSaveExpenditure entries form newId))
    /\ validPostings
         (stateAfter entries (handleDeleteIncome confirmed entries id))
    /\ validPostings
         (stateAfter entries (handleDeleteExpenditure confirmed entries id))
    /\ ((forall f, form = Some f -> ~ acceptable f) ->
        stateAfter entries (handleSaveIncome entries form newId) = entries
        /\ stateAfter entries (handleSaveExpenditure entries form newId)
           = entries).
Proof.
  intros entries form newId id confirmed Hvalid.
  repeat split.
  - unfold handleSaveIncome. destruct form as [form | ]; [ | exact Hvalid ].
    destruct (String.eqb (p_accountId form) EmptyString
              || Qeq_bool (p_amount form) 0
              || Qle_bool (p_amount form) 0) eqn:Echeck; [ exact Hvalid | ].
    assert (Hok : acceptable form).
    { apply orb_false_iff in Echeck. destruct Echeck as [Echeck Hle].
      apply orb_false_iff in Echeck. destruct Echeck as [Hacc _].
      split; [ now apply String.eqb_neq | ].
      apply Qnot_le_lt. intros H. apply Qle_bool_iff in H. congruence. }
    destruct (save_valid entries form newId Hvalid Hok) as [Hmap Happ].
    destruct (negb (String.eqb (p_id form) EmptyString)); assumption.
  - unfold handleSaveExpenditure.
    destruct form as [form | ]; [ | exact Hvalid ].
    destruct (String.eqb (p_accountId form) EmptyString
              || Qeq_bool (p_amount form) 0
              || Qle_bool (p_amount form) 0) eqn:Echeck; [ exact Hvalid | ].
    assert (Hok : acceptable form).
    { apply orb_false_iff in Echeck. destruct Echeck as [Echeck Hle].
      apply orb_false_iff in Echeck. destruct Echeck as [Hacc _].
      split; [ now apply String.eqb_neq | ].
      apply Qnot_le_lt. intros H. apply Qle_bool_iff in H. congruence. }
    destruct (save_valid entries form newId Hvalid Hok) as [Hmap Happ].
    destruct (negb (String.eqb (p_id form) EmptyString)); assumption.
  - unfold handleDeleteIncome. destruct confirmed; [ | exact Hvalid ].
    now apply filter_valid.
  - unfold handleDeleteExpenditure. destruct confirmed; [ | exact Hvalid ].
    now apply filter_valid.
  - unfold handleSaveIncome. destruct form as [form | ]; [ | reflexivity ].
    now rewrite (rejected_form form (H form eq_refl)).
  - unfold handleSaveExpenditure.
    destruct form as [form | ]; [ | reflexivity ].
    now rewrite (rejected_form form (H form eq_refl)).
Qed.

Lemma day_book_entries_stay_valid_witness :
  validPostings
    (stateAfter (incomeEntries marchStore)
       (handleSaveIncome (incomeEntries marchStore)
          (Some (mkPosting EmptyString 19785%Z "_a1" 40 "Donation"))
          "_i9")).
Proof.
  apply (day_book_entries_stay_valid (incomeEntries marchStore)
           (Some (mkPosting EmptyString 19785%Z "_a1" 40 "Donation"))
           "_i9" "_i1" true).
  repeat constructor; discriminate.
Defined.

Lemma income_with_new (st : Store) (new : Posting Z) (D : Z) :
  p_date new = D ->
  incomeForDay (withIncomeEntries st (incomeEntries st ++ [new])) D
  == incomeForDay st D + p_amount new.
Proof.
  intros Hdate. unfold incomeForDay, withIncomeEntries. simpl.
  rewrite filter_app. simpl. rewrite Hdate, Z.eqb_refl.
  rewrite reduceSum_app.
  assert (Hnew : reduceSum p_amount [new] == p_amount new)
    by (unfold reduceSum; simpl; lra).
  unfold IncomeEntry, Expenditure in *. lra.
Qed.

Lemma expenditure_with_new (st : Store) (new : Posting Z) (D : Z) :
  p_date new = D ->
  expenditureForDay (withExpenditures st (expenditures st ++ [new])) D
  == expenditureForDay st D + p_amount new.
Proof.
  intros Hdate. unfold expenditureForDay, withExpenditures. simpl.
  rewrite filter_app. simpl. rewrite Hdate, Z.eqb_refl.
  rewrite reduceSum_app.
  assert (Hnew : reduceSum p_amount [new] == p_amount new)
    by (unfold reduceSum; simpl; lra).
  unfold IncomeEntry, Expenditure in *. lra.
Qed.

Lemma filter_before_new {A : Type} (date : A -> Z) (D : Z) (l : list A)
    (new : A) :
  date new = D ->
  filter (fun x => (date x <? D)%Z) (l ++ [new])
  = filter (fun x => (date x <? D)%Z) l.
Proof.
  intros Hdate. rewrite filter_app. simpl.
  rewrite Hdate, Z.ltb_irrefl. apply app_nil_r.
Qed.

(** X5.  Recording a new income entry on the selected day raises that
    day's closing balance by the amount of the entry, recording a new
    expenditure lowers it by the amount, and neither changes the day's
    opening balance; this holds in either zone. *)
Theorem new_posting_moves_closing_balance :
  forall (zone : Zone) (st : Store) (form : Posting Z) (newId : string),
    p_id form = EmptyString -> acceptable form ->
    let D := p_date form in
    let withIncome :=
      withIncomeEntries st
        (stateAfter (incomeEntries st)
           (handleSaveIncome (incomeEntries st) (Some form) newId)) in
    let withExpenditure :=
      withExpenditures st
        (stateAfter (expenditures st)
           (handleSaveExpenditure (expenditures st) (Some form) newId)) in
    calculateOpeningBalanceForDate zone withIncome D
    = calculateOpeningBalanceForDate zone st D
    /\ dayBookClosingBalance zone withIncome D
       == dayBookClosingBalance zone st D + p_amount form
    /\ calculateOpeningBalanceForDate zone withExpenditure D
       = calculateOpeningBalanceForDate zone st D
    /\ dayBookClosingBalance zone withExpenditure D
       == dayBookClosingBalance zone st D - p_amount form.
Proof.
  intros zone st form newId Hid Hok D withIncome withExpenditure.
  set (new := {| p_id := newId; p_date := p_date form;
                 p_accountId := p_accountId form;
                 p_amount := p_amount form;
                 p_remarks := p_remarks form |}).
  assert (Hinc : withIncome
                 = withIncomeEntries st (incomeEntries st ++ [new])).
  { unfold withIncome, handleSaveIncome.
    rewrite (accepted_form form Hok), Hid. reflexivity. }
  assert (Hexp : withExpenditure
                 = withExpenditures st (expenditures st ++ [new])).
  { unfold withExpenditure, handleSaveExpenditure.
    rewrite (accepted_form form Hok), Hid. reflexivity. }
  assert (Hopen1 : calculateOpeningBalanceForDate zone withIncome D
                   = calculateOpeningBalanceForDate zone st D).
  { symmetry. apply calculate_agree.
    rewrite Hinc. repeat split; simpl.
    symmetry. now apply (filter_before_new (@p_date Z)). }
  assert (Hopen2 : calculateOpeningBalanceForDate zone withExpenditure D
                   = calculateOpeningBalanceForDate zone st D).
  { symmetry. apply calculate_agree.
    rewrite Hexp. repeat split; simpl.
    symmetry. now apply (filter_before_new (@p_date Z)). }
  split; [ exact Hopen1 | ]. split; [ | split; [ exact Hopen2 | ] ].
  - unfold dayBookClosingBalance, closingBalance. rewrite Hopen1.
    rewrite Hinc at 1 2.
    rewrite (income_with_new st new D eq_refl).
    change (expenditureForDay
              (withIncomeEntries st (incomeEntries st ++ [new])) D)
      with (expenditureForDay st D).
    simpl. lra.
  - unfold dayBookClosingBalance, closingBalance. rewrite Hopen2.
    rewrite Hexp at 1 2.
    rewrite (expenditure_with_new st new D eq_refl).
    change (incomeForDay
              (withExpenditures st (expenditures st ++ [new])) D)
      with (incomeForDay st D).
    simpl. lra.
Qed.

Lemma new_posting_moves_closing_balance_witness :
  dayBookClosingBalance AheadOfUTC
    (withIncomeEntries marchStore
       (stateAfter (incomeEntries marchStore)
          (handleSaveIncome (incomeEntries marchStore)
             (Some (mkPosting EmptyString 19785%Z "_a1" 40 "Donation"))
             "_i9")))
    19785
  == dayBookClosingBalance AheadOfUTC marchStore 19785 + 40.
Proof.
  destruct (new_posting_moves_closing_balance AheadOfUTC marchStore
              (mkPosting EmptyString 19785%Z "_a1" 40 "Donation") "_i9")
    as [_ [H _]].
  - reflexivity.
  - split; [ discriminate | reflexivity ].
  - exact H.
Defined.

Lemma edit_map_ids (entries : list (Posting Z)) (form : Posting Z) :
  map p_id (map (fun e => if String.eqb (p_id e) (p_id form)
                          then form else e) entries)
  = map p_id entries.
Proof.
  induction entries as [ | e entries IH ]; simpl; [ reflexivity | ].
  rewrite IH. f_equal.
  destruct (String.eqb_spec (p_id e) (p_id form)); congruence.
Qed.

Lemma edit_map_others (entries : list (Posting Z)) (form : Posting Z) :
  others (p_id form)
         (map (fun e => if String.eqb (p_id e) (p_id form)
                        then form else e) entries)
  = others (p_id form) entries.
Proof.
  unfold others.
  induction entries as [ | e entries IH ]; simpl; [ reflexivity | ].
  destruct (String.eqb (p_id e) (p_id form)) eqn:E; simpl.
  - now rewrite String.eqb_refl.
  - rewrite E. simpl. now rewrite IH.
Qed.

Lemma edit_map_same (entries : list (Posting Z)) (form : Posting Z) :
  forall e, In e (map (fun e => if String.eqb (p_id e) (p_id form)
                                then form else e) entries) ->
            p_id e = p_id form -> e = form.
Proof.
  intros e Hin Hid. apply in_map_iff in Hin.
  destruct Hin as [e0 [He0 _]].
  destruct (String.eqb_spec (p_id e0) (p_id form)) as [ | Hne ];
    [ congruence | ].
  subst e0. contradiction.
Qed.

(** X6.  Saving the form of an existing entry edits it in place: the
    stored collection keeps its identifiers in their order, every entry
    stored under another identifier is unchanged, and every entry stored
    under the identifier of the form is the form.  The same holds for
    income entries and for expenditures. *)
Theorem edit_posting_in_place :
  forall (entries : list (Posting Z)) (form : Posting Z) (newId : string),
    p_id form <> EmptyString -> acceptable form ->
    forall data,
      data = stateAfter entries (handleSaveIncome entries (Some form) newId)
      \/ data = stateAfter entries
                  (handleSaveExpenditure entries (Some form) newId) ->
      map p_id data = map p_id entries
      /\ others (p_id form) data = others (p_id form) entries
      /\ (forall e, In e data -> p_id e = p_id form -> e = form).
Proof.
  intros entries form newId Hid Hok data Hdata.
  assert (Heq : data = map (fun e => if String.eqb (p_id e) (p_id form)
                                     then form else e) entries).
  { apply String.eqb_neq in Hid.
    destruct Hdata as [-> | ->];
      unfold handleSaveIncome, handleSaveExpenditure;
      rewrite (accepted_form form Hok), Hid; reflexivity. }
  subst data. split; [ apply edit_map_ids | ].
  split; [ apply edit_map_others | apply edit_map_same ].
Qed.

Lemma edit_posting_in_place_witness :
  map p_id
    (stateAfter (incomeEntries marchStore)
       (handleSaveIncome (incomeEntries marchStore)
          (Some (mkPosting "_i1" 19784%Z "_a1" 350 "Corrected")) "_i9"))
  = map p_id (incomeEntries marchStore).
Proof.
  destruct (edit_posting_in_place (incomeEntries marchStore)
              (mkPosting "_i1" 19784%Z "_a1" 350 "Corrected") "_i9")
    with (data := stateAfter (incomeEntries marchStore)
                    (handleSaveIncome (incomeEntries marchStore)
                       (Some (mkPosting "_i1" 19784%Z "_a1" 350
                                        "Corrected")) "_i9"))
    as [H _].
  - discriminate.
  - split; [ discriminate | reflexivity ].
  - now left.
  - exact H.
Defined.

End DayBookManagerFacts.

(** ** Fee payments and cascades of the double-entry variant *)

Module DashboardFacts.
Import School DoubleEntry DoubleEntrySpec DoubleEntryDashboard DashboardSpec.
Import SumFacts VoucherNumberFacts CascadeFacts SchoolFacts.

Lemma notLinkedTo_nil (je : JournalEntry) : notLinkedTo [] je = true.
Proof.
  unfold notLinkedTo. destruct (relatedFeePaymentId je); [ | reflexivity ].
  apply orb_true_r.
Qed.

Lemma feePayments_saved (b : Books) (data : list FeePayment) :
  feePayments (handleSaveFeePayments b data) = data.
Proof.
  unfold handleSaveFeePayments.
  destruct (List.length data <? List.length (feePayments b))%nat;
    reflexivity.
Qed.

(** *** What [handleSaveStudents] stores *)

Lemma students_after (s : State) (updated : list Student) :
  students (handleSaveStudents s updated) = updated
  /\ classes (handleSaveStudents s updated) = classes s
  /\ classFees (handleSaveStudents s updated) = classFees s.
Proof.
  unfold handleSaveStudents.
  destruct (0 <? List.length (deletedIds st_id (students s) updated))%nat;
    repeat split.
Qed.

Lemma payments_after (s : State) (updated : list Student) :
  feePayments (books (handleSaveStudents s updated))
  = filter (fun fp => negb (includes (deletedIds st_id (students s) updated)
                                     (fp_studentId fp)))
           (feePayments (books s)).
Proof.
  unfold handleSaveStudents.
  destruct (0 <? List.length (deletedIds st_id (students s) updated))%nat
    eqn:E.
  - simpl. apply feePayments_saved.
  - apply none_deleted in E. rewrite E. simpl.
    symmetry. now apply filter_all.
Qed.

Lemma concessions_after (s : State) (updated : list Student) :
  feeConcessions (handleSaveStudents s updated)
  = filter (fun fc => negb (includes (deletedIds st_id (students s) updated)
                                     (fc_studentId fc)))
           (feeConcessions s).
Proof.
  unfold handleSaveStudents.
  destruct (0 <? List.length (deletedIds st_id (students s) updated))%nat
    eqn:E.
  - reflexivity.
  - apply none_deleted in E. rewrite E. simpl.
    symmetry. now apply filter_all.
Qed.

Lemma journal_after (s : State) (updated : list Student) :
  journalEntries (books (handleSaveStudents s updated))
  = filter (notLinkedTo
              (map fp_id
                   (filter (fun fp =>
                              includes (deletedIds st_id (students s) updated)
                                       (fp_studentId fp))
                           (feePayments (books s)))))
           (journalEntries (books s)).
Proof.
  unfold handleSaveStudents.
  destruct (0 <? List.length (deletedIds st_id (students s) updated))%nat
    eqn:E.
  - reflexivity.
  - apply none_deleted in E. rewrite E. simpl.
    rewrite (filter_none (fun _ => false)) by reflexivity. simpl.
    symmetry. apply filter_all. intros je _. apply notLinkedTo_nil.
Qed.

Lemma students_keep_receipts (s : State) (updated : list Student) :
  receiptsLinked (books s) ->
  receiptsLinked (books (handleSaveStudents s updated)).
Proof.
  intros Hlinked je id Hje Hrel Hid.
  rewrite journal_after in Hje. apply filter_In in Hje.
  destruct Hje as [Hje Hkeep].
  destruct (Hlinked je id Hje Hrel Hid) as [p [Hp Hpid]].
  exists p. split; [ | assumption ].
  rewrite payments_after. apply filter_In. split; [ assumption | ].
  apply negb_true_iff.
  destruct (includes (deletedIds st_id (students s) updated)
                     (fp_studentId p)) eqn:E; [ | reflexivity ].
  exfalso. unfold notLinkedTo in Hkeep. rewrite Hrel in Hkeep.
  apply orb_true_iff in Hkeep. destruct Hkeep as [Hempty | Hnot].
  - apply String.eqb_eq in Hempty. contradiction.
  - apply negb_true_iff in Hnot.
    assert (Hin : includes
                    (map fp_id
                       (filter (fun fp =>
                          includes (deletedIds st_id (students s) updated)
                                   (fp_studentId fp))
                          (feePayments (books s)))) id = true).
    { apply includes_In. rewrite <- Hpid. apply in_map.
      apply filter_In. now split. }
    congruence.
Qed.

Lemma students_keep_payments (s : State) (updated : list Student) :
  paymentsOfStudents s -> paymentsOfStudents (handleSaveStudents s updated).
Proof.
  intros Hpay p Hp. rewrite payments_after in Hp.
  apply filter_In in Hp. destruct Hp as [Hp Hkept].
  destruct (students_after s updated) as [-> _].
  specialize (Hpay p Hp). apply in_map_iff in Hpay.
  destruct Hpay as [st [Hid Hst]]. rewrite <- Hid.
  apply (kept_id st_id (students s)); [ assumption | ].
  intros Hdel. apply includes_In in Hdel.
  rewrite Hid in Hdel. rewrite Hdel in Hkept. discriminate.
Qed.

Lemma students_keep_concessions (s : State) (updated : list Student) :
  concessionsOfStudents s ->
  concessionsOfStudents (handleSaveStudents s updated).
Proof.
  intros Hcon fc Hfc. rewrite concessions_after in Hfc.
  apply filter_In in Hfc. destruct Hfc as [Hfc Hkept].
  destruct (students_after s updated) as [-> _].
  specialize (Hcon fc Hfc). apply in_map_iff in Hcon.
  destruct Hcon as [st [Hid Hst]]. rewrite <- Hid.
  apply (kept_id st_id (students s)); [ assumption | ].
  intros Hdel. apply includes_In in Hdel.
  rewrite Hid in Hdel. rewrite Hdel in Hkept. discriminate.
Qed.

(** X7.  Saving the students cascades completely and keeps the links of
    the books intact, whatever collection is saved: afterwards no stored
    fee payment and no stored concession belongs to a student that was
    removed, no journal entry is linked to a payment of a removed student,
    every journal entry that is kept was stored before; and if before the
    save every linked journal entry named a stored payment and every
    payment and concession a stored student, the same holds after it. *)
Theorem handleSaveStudents_cascade :
  forall (s : State) (updated : list Student),
    let s' := handleSaveStudents s updated in
    let removed := deletedIds st_id (students s) updated in
    students s' = updated
    /\ (forall p, In p (feePayments (books s')) ->
                  In p (feePayments (books s))
                  /\ ~ In (fp_studentId p) removed)
    /\ (forall fc, In fc (feeConcessions s') ->
                   In fc (feeConcessions s)
                   /\ ~ In (fc_studentId fc) removed)
    /\ (forall je, In je (journalEntries (books s')) ->
                   In je (journalEntries (books s))
                   /\ forall p id,
                        In p (feePayments (books s)) ->
                        In (fp_studentId p) removed ->
                        relatedFeePaymentId je = Some id ->
                        id <> EmptyString -> fp_id p <> id)
    /\ (receiptsLinked (books s) -> receiptsLinked (books s'))
    /\ (paymentsOfStudents s -> paymentsOfStudents s')
    /\ (concessionsOfStudents s -> concessionsOfStudents s').
Proof.
  intros s updated s' removed. unfold s', removed.
  split; [ apply students_after | ].
  split.
  { intros p Hp. rewrite payments_after in Hp. apply filter_In in Hp.
    destruct Hp as [Hp Hkept]. split; [ assumption | ].
    intros Hdel. apply includes_In in Hdel. rewrite Hdel in Hkept.
    discriminate. }
  split.
  { intros fc Hfc. rewrite concessions_after in Hfc.
    apply filter_In in Hfc.
    destruct Hfc as [Hfc Hkept]. split; [ assumption | ].
    intros Hdel. apply includes_In in Hdel. rewrite Hdel in Hkept.
    discriminate. }
  split.
  { intros je Hje. rewrite journal_after in Hje. apply filter_In in Hje.
    destruct Hje as [Hje Hkeep]. split; [ assumption | ].
    intros p id Hp Hdel Hrel Hid Heq.
    unfold notLinkedTo in Hkeep. rewrite Hrel in Hkeep.
    apply orb_true_iff in Hkeep. destruct Hkeep as [Hempty | Hnot].
    - apply String.eqb_eq in Hempty. contradiction.
    - apply negb_true_iff in Hnot.
      assert (Hin : includes
                      (map fp_id
                         (filter (fun fp =>
                            includes (deletedIds st_id (students s) updated)
                                     (fp_studentId fp))
                            (feePayments (books s)))) id = true).
      { apply includes_In. rewrite <- Heq. apply in_map.
        apply filter_In. split; [ assumption | ].
        now apply includes_In. }
      congruence. }
  split; [ apply students_keep_receipts | ].
  split; [ apply students_keep_payments | apply students_keep_concessions ].
Qed.

(** *** What [handleSaveClasses] stores *)

Lemma classes_after (s : State) (updated : list ClassInfo) :
  let removed := deletedIds cl_id (classes s) updated in
  let afterStudents :=
    handleSaveStudents s
      (filter (fun st => negb (includes removed (st_classId st)))
              (students s)) in
  classes (handleSaveClasses s updated) = updated
  /\ students (handleSaveClasses s updated)
     = filter (fun st => negb (includes removed (st_classId st)))
              (students s)
  /\ classFees (handleSaveClasses s updated)
     = filter (fun cf => negb (includes removed (cf_classId cf)))
              (classFees s)
  /\ (removed <> [] ->
      feeConcessions (handleSaveClasses s updated)
      = feeConcessions afterStudents
      /\ books (handleSaveClasses s updated) = books afterStudents)
  /\ (removed = [] ->
      feeConcessions (handleSaveClasses s updated) = feeConcessions s
      /\ books (handleSaveClasses s updated) = books s).
Proof.
  intros removed afterStudents. unfold handleSaveClasses.
  fold removed.
  destruct (0 <? List.length removed)%nat eqn:E.
  - simpl. split; [ reflexivity | ].
    split; [ apply students_after | ].
    split; [ reflexivity | ].
    split; [ intros _; split; reflexivity | ].
    intros Hnil. rewrite Hnil in E. discriminate.
  - apply none_deleted in E. simpl. split; [ reflexivity | ].
    rewrite E. simpl.
    split; [ symmetry; now apply filter_all | ].
    split; [ symmetry; now apply filter_all | ].
    split; [ intros Hne; now contradiction Hne | ].
    intros _. split; reflexivity.
Qed.

(** X8.  Saving the classes keeps the stores consistent, whatever
    collection is saved: if every linked journal entry names a stored
    payment, every payment and concession a stored student, and every
    student and fee assignment a stored class, then the same holds after
    [handleSaveClasses]; the students and fee assignments of the removed
    classes are gone. *)
Theorem handleSaveClasses_keeps_consistent :
  forall (s : State) (updated : list ClassInfo),
    consistent s ->
    let s' := handleSaveClasses s updated in
    consistent s'
    /\ classes s' = updated
    /\ (forall st, In st (students s') ->
                   ~ In (st_classId st)
                        (deletedIds cl_id (classes s) updated))
    /\ (forall cf, In cf (classFees s') ->
                   ~ In (cf_classId cf)
                        (deletedIds cl_id (classes s) updated)).
Proof.
  intros s updated [Hrec [Hpay [Hcon [Hstu Hfee]]]] s'. unfold s'.
  destruct (classes_after s updated)
    as [Hclasses [Hstudents [Hfees [Hsome Hnone]]]].
  set (removed := deletedIds cl_id (classes s) updated) in *.
  set (kept := filter (fun st => negb (includes removed (st_classId st)))
                      (students s)) in *.
  assert (Hbooks :
            receiptsLinked (books (handleSaveClasses s updated))
            /\ paymentsOfStudents (handleSaveClasses s updated)
            /\ concessionsOfStudents (handleSaveClasses s updated)).
  { destruct removed as [ | r rs ] eqn:Er.
    - destruct (Hnone eq_refl) as [Hc Hb].
      assert (Hsame : students (handleSaveClasses s updated) = students s).
      { rewrite Hstudents. unfold kept. now apply filter_all. }
      unfold paymentsOfStudents, concessionsOfStudents.
      rewrite Hb, Hc, Hsame. auto.
    - assert (Hne : r :: rs <> []) by discriminate.
      destruct (Hsome Hne) as [Hc Hb].
      unfold paymentsOfStudents, concessionsOfStudents.
      rewrite Hb, Hc, Hstudents.
      destruct (students_after s kept) as [Hk _].
      split; [ now apply students_keep_receipts | ].
      split.
      + intros p Hp.
        pose proof (students_keep_payments s kept Hpay p Hp) as H.
        now rewrite Hk in H.
      + intros fc Hfc.
        pose proof (students_keep_concessions s kept Hcon fc Hfc) as H.
        now rewrite Hk in H. }
  destruct Hbooks as [Hrec' [Hpay' Hcon']].
  assert (Hstu' : forall st, In st (students (handleSaveClasses s updated)) ->
                    In st (students s) /\ ~ In (st_classId st) removed).
  { intros st Hst. rewrite Hstudents in Hst. apply filter_In in Hst.
    destruct Hst as [Hst Hkept]. split; [ assumption | ].
    intros Hdel. apply includes_In in Hdel. rewrite Hdel in Hkept.
    discriminate. }
  assert (Hfee' : forall cf, In cf (classFees (handleSaveClasses s updated)) ->
                    In cf (classFees s) /\ ~ In (cf_classId cf) removed).
  { intros cf Hcf. rewrite Hfees in Hcf. apply filter_In in Hcf.
    destruct Hcf as [Hcf Hkept]. split; [ assumption | ].
    intros Hdel. apply includes_In in Hdel. rewrite Hdel in Hkept.
    discriminate. }
  split.
  { split; [ assumption | ]. split; [ assumption | ].
    split; [ assumption | ]. split.
    - intros st Hst. destruct (Hstu' st Hst) as [Hold Hkept].
      rewrite Hclasses. specialize (Hstu st Hold).
      apply in_map_iff in Hstu. destruct Hstu as [c [Hid Hc]].
      rewrite <- Hid. apply (kept_id cl_id (classes s)); [ assumption | ].
      now rewrite Hid.
    - intros cf Hcf. destruct (Hfee' cf Hcf) as [Hold Hkept].
      rewrite Hclasses. specialize (Hfee cf Hold).
      apply in_map_iff in Hfee. destruct Hfee as [c [Hid Hc]].
      rewrite <- Hid. apply (kept_id cl_id (classes s)); [ assumption | ].
      now rewrite Hid. }
  split; [ assumption | ].
  split; [ intros st Hst; apply (Hstu' st Hst)
         | intros cf Hcf; apply (Hfee' cf Hcf) ].
Qed.

Lemma exampleState_consistent : consistent exampleState.
Proof.
  split.
  { intros je id [<- | []] Hrel _. injection Hrel as <-.
    exists payment1. split; [ now left | reflexivity ]. }
  split.
  { intros p [<- | [<- | []]]; simpl; auto. }
  split.
  { intros fc [<- | []]; simpl; auto. }
  split.
  { intros st [<- | [<- | []]]; simpl; auto. }
  intros cf [<- | []]; simpl; auto.
Qed.

Lemma handleSaveClasses_keeps_consistent_witness :
  consistent (handleSaveClasses exampleState []).
Proof.
  destruct (handleSaveClasses_keeps_consistent exampleState []
              exampleState_consistent) as [H _].
  exact H.
Defined.

(** *** Recording and deleting a fee payment *)

Lemma find_In {A : Type} (f : A -> bool) (l : list A) (x : A) :
  find f l = Some x -> In x l.
Proof. intros H. now apply find_some in H. Qed.

(** What [handleSavePayment] returns for a form it accepts. *)
Lemma handleSavePayment_saved (accounts : list Account)
    (feeHeads : list FeeHead) (classFees : list ClassFee) (b : Books)
    (student : Student) (form : PaymentForm) (paymentId entryId : string)
    (paid : Q) (date : Z) (cash fee : Account) :
  pf_classFeeId form <> EmptyString ->
  pf_amount form = Some paid -> 0 < paid -> pf_date form = Some date ->
  find (fun a => String.eqb (acc_name a) "Cash in Hand") accounts
  = Some cash ->
  find (fun a => String.eqb (acc_name a) "Tuition Fees") accounts
  = Some fee ->
  exists text,
    handleSavePayment accounts feeHeads classFees b student form
                      paymentId entryId
    = Saved {| feePayments :=
                 feePayments b
                 ++ [ mkFeePayment paymentId (st_id student)
                                   (pf_classFeeId form) paid date
                                   (pf_remarks form) ];
               journalEntries :=
                 journalEntries b
                 ++ [ receiptFor (journalEntries b) cash fee paid date text
                                 paymentId entryId ] |}.
Proof.
  intros Hfee Hamount Hpos Hdate Hcash Hfees.
  unfold handleSavePayment. rewrite Hamount, Hdate, Hcash, Hfees.
  apply String.eqb_neq in Hfee. rewrite Hfee.
  assert (Hle : Qle_bool paid 0 = false).
  { destruct (Qle_bool paid 0) eqn:E; [ | reflexivity ].
    apply Qle_bool_iff in E. lra. }
  rewrite Hle. simpl orb. cbv iota.
  rewrite feePayments_saved. eexists. reflexivity.
Qed.

(** What [handleSavePayment] returns otherwise. *)
Lemma handleSavePayment_cases (accounts : list Account)
    (feeHeads : list FeeHead) (classFees : list ClassFee) (b : Books)
    (student : Student) (form : PaymentForm) (paymentId entryId : string) :
  (exists message,
      handleSavePayment accounts feeHeads classFees b student form
                        paymentId entryId = Alerted message)
  \/ (exists paid date cash fee,
         pf_classFeeId form <> EmptyString
         /\ pf_amount form = Some paid /\ 0 < paid
         /\ pf_date form = Some date
         /\ find (fun a => String.eqb (acc_name a) "Cash in Hand") accounts
            = Some cash
         /\ find (fun a => String.eqb (acc_name a) "Tuition Fees") accounts
            = Some fee).
Proof.
  unfold handleSavePayment.
  destruct (pf_amount form) as [paid | ]; [ | left; eexists; reflexivity ].
  destruct (pf_date form) as [date | ]; [ | left; eexists; reflexivity ].
  destruct (String.eqb_spec (pf_classFeeId form) EmptyString) as [ | Hfee ];
    [ left; eexists; reflexivity | ].
  destruct (Qle_bool paid 0) eqn:Hle; [ left; eexists; reflexivity | ].
  simpl orb. cbv iota.
  destruct (find (fun a => String.eqb (acc_name a) "Cash in Hand") accounts)
    as [cash | ]; [ | left; eexists; reflexivity ].
  destruct (find (fun a => String.eqb (acc_name a) "Tuition Fees") accounts)
    as [fee | ]; [ | left; eexists; reflexivity ].
  right. exists paid, date, cash, fee.
  repeat split; try assumption; try reflexivity.
  apply Qnot_le_lt. intros H. apply Qle_bool_iff in H. congruence.
Qed.

(** X9.  A fee payment that the form accepts is recorded together with
    its receipt voucher: the payment is appended to the fee payments and
    one voucher is appended to the journal; the voucher is a receipt dated
    as the payment, linked to the new payment, numbered above every stored
    voucher, with a debit of the cash account and a credit of the fee
    income account of the amount paid, so that it is balanced and every
    line of it names an account of the chart; and the delete button of the
    new payment is disabled from then on. *)
Theorem handleSavePayment_posts_receipt :
  forall (accounts : list Account) (feeHeads : list FeeHead)
         (classFees : list ClassFee) (b : Books) (student : Student)
         (form : PaymentForm) (paymentId entryId : string)
         (paid : Q) (date : Z) (cash fee : Account),
    pf_classFeeId form <> EmptyString ->
    pf_amount form = Some paid -> 0 < paid -> pf_date form = Some date ->
    find (fun a => String.eqb (acc_name a) "Cash in Hand") accounts
    = Some cash ->
    find (fun a => String.eqb (acc_name a) "Tuition Fees") accounts
    = Some fee ->
    exists payment voucher,
      handleSavePayment accounts feeHeads classFees b student form
                        paymentId entryId
      = Saved {| feePayments := feePayments b ++ [payment];
                 journalEntries := journalEntries b ++ [voucher] |}
      /\ fp_id payment = paymentId
      /\ fp_studentId payment = st_id student
      /\ fp_amountPaid payment = paid
      /\ fp_paymentDate payment = date
      /\ voucherType voucher = Receipt
      /\ je_date voucher = date
      /\ relatedFeePaymentId voucher = Some paymentId
      /\ transactions voucher
         = [ mkTransaction (acc_id cash) debit paid;
             mkTransaction (acc_id fee) credit paid ]
      /\ balanced voucher
      /\ linesInChart accounts voucher
      /\ (forall je, In je (journalEntries b) ->
                     (voucherNumber je < voucherNumber voucher)%Z)
      /\ deleteDisabled (journalEntries b ++ [voucher]) payment = true.
Proof.
  intros accounts feeHeads classFees b student form paymentId entryId
         paid date cash fee Hfee Hamount Hpos Hdate Hcash Hfees.
  destruct (handleSavePayment_saved accounts feeHeads classFees b student
              form paymentId entryId paid date cash fee
              Hfee Hamount Hpos Hdate Hcash Hfees) as [text Hsaved].
  eexists. eexists. split; [ exact Hsaved | ].
  repeat (split; [ reflexivity | ]).
  split.
  { unfold balanced, debitTotal, creditTotal, reduceSum. simpl. lra. }
  split.
  { intros t [<- | [<- | []]]; simpl.
    - exists cash. split; [ now apply find_In in Hcash | reflexivity ].
    - exists fee. split; [ now apply find_In in Hfees | reflexivity ]. }
  split.
  { intros je Hje. simpl. unfold lastVoucherNumber.
    destruct (fold_max_spec (journalEntries b) 0) as [_ [Hmax _]].
    specialize (Hmax je Hje). lia. }
  apply deleteDisabled_iff_linked. eexists. split.
  - apply in_or_app. right. now left.
  - reflexivity.
Qed.

Lemma handleSavePayment_posts_receipt_witness :
  exists payment voucher,
    handleSavePayment exampleChart [] (classFees exampleState)
                      (books exampleState)
                      (mkStudent "_s2" "102" "Bala" "Kumar" "Devi" "_c1")
                      examplePaymentForm "_p3" "_v2"
    = Saved {| feePayments := feePayments (books exampleState) ++ [payment];
               journalEntries :=
                 journalEntries (books exampleState) ++ [voucher] |}
    /\ voucherNumber voucher = 2%Z
    /\ balanced voucher.
Proof.
  destruct (handleSavePayment_posts_receipt exampleChart []
              (classFees exampleState) (books exampleState)
              (mkStudent "_s2" "102" "Bala" "Kumar" "Devi" "_c1")
              examplePaymentForm "_p3" "_v2" 250 19730
              (mkAccount "_cash" "Cash in Hand" Assets 0 debit true)
              (mkAccount "_fees" "Tuition Fees" Income 0 credit true))
    as [payment [voucher [Hsaved H]]];
    try reflexivity; try discriminate.
  exists payment, voucher. split; [ exact Hsaved | ].
  simpl in Hsaved. injection Hsaved as _ Hv. subst voucher.
  split; [ reflexivity | ]. apply H.
Defined.

Lemma receiptsLinked_payment (b : Books) (payment : FeePayment)
    (voucher : JournalEntry) :
  receiptsLinked b ->
  relatedFeePaymentId voucher = Some (fp_id payment) ->
  receiptsLinked {| feePayments := feePayments b ++ [payment];
                    journalEntries := journalEntries b ++ [voucher] |}.
Proof.
  intros Hlinked Hrel je id Hje Hid Hne. simpl in *.
  apply in_app_or in Hje. destruct Hje as [Hje | [<- | []]].
  - destruct (Hlinked je id Hje Hid Hne) as [p [Hp Hpid]].
    exists p. split; [ apply in_or_app; now left | assumption ].
  - exists payment. split; [ apply in_or_app; right; now left | ].
    congruence.
Qed.

Lemma receiptsLinked_delete (confirmed : bool) (b : Books) (id : string) :
  receiptsLinked b -> receiptsLinked (handleDeletePayment confirmed b id).
Proof.
  intros Hlinked. unfold handleDeletePayment.
  destruct confirmed; [ | assumption ].
  set (data := filter (fun p => negb (String.eqb (fp_id p) id))
                      (feePayments b)).
  intros je rid Hje Hrel Hne.
  rewrite feePayments_saved.
  unfold handleSaveFeePayments in Hje. fold data in Hje.
  destruct (List.length data <? List.length (feePayments b))%nat eqn:E;
    simpl in Hje.
  - apply filter_In in Hje. destruct Hje as [Hje Hkeep].
    destruct (Hlinked je rid Hje Hrel Hne) as [p [Hp Hpid]].
    unfold notLinkedTo in Hkeep. rewrite Hrel in Hkeep.
    apply orb_true_iff in Hkeep. destruct Hkeep as [Hempty | Hnot].
    { apply String.eqb_eq in Hempty. contradiction. }
    apply negb_true_iff in Hnot.
    destruct (existsb (fun dp => String.eqb (fp_id dp) rid) data) eqn:Ex.
    + now apply existsb_hasPayment.
    + exfalso.
      assert (Hin : includes
                      (map fp_id
                         (filter (fun p0 =>
                            negb (existsb
                                    (fun dp => String.eqb (fp_id dp)
                                                          (fp_id p0))
                                    data))
                            (feePayments b))) rid = true).
      { apply includes_In. rewrite <- Hpid. apply in_map.
        apply filter_In. split; [ assumption | ].
        rewrite Hpid, Ex. reflexivity. }
      congruence.
  - (* nothing was removed: the filter kept every payment *)
    apply Nat.ltb_ge in E.
    destruct (Hlinked je rid Hje Hrel Hne) as [p [Hp Hpid]].
    exists p. split; [ | assumption ].
    unfold data. apply filter_In. split; [ assumption | ].
    destruct (String.eqb (fp_id p) id) eqn:Eid; [ | reflexivity ].
    exfalso.
    pose proof (filter_length_lt
                  (fun p => negb (String.eqb (fp_id p) id))
                  (feePayments b) p Hp) as Hlt.
    cbv beta in Hlt. rewrite Eid in Hlt. specialize (Hlt eq_refl).
    fold data in Hlt. lia.
Qed.

(** X10.  Recording a fee payment and deleting one keep the books linked
    and the vouchers numbered: if every linked journal entry names a
    stored payment, the same holds after [handleSavePayment] and after
    [handleDeletePayment], whatever the form holds and whatever the
    operator answers; and a journal that arose by posting stays one, so
    that its voucher numbers keep increasing along the list. *)
Theorem payments_keep_books_linked :
  forall (accounts : list Account) (feeHeads : list FeeHead)
         (classFees : list ClassFee) (b : Books) (student : Student)
         (form : PaymentForm) (paymentId entryId id : string)
         (confirmed : bool),
    receiptsLinked b ->
    let saved :=
      stateAfter b (handleSavePayment accounts feeHeads classFees b student
                                      form paymentId entryId) in
    let deleted := handleDeletePayment confirmed b id in
    receiptsLinked saved
    /\ receiptsLinked deleted
    /\ (posted (journalEntries b) ->
        posted (journalEntries saved) /\ posted (journalEntries deleted)
        /\ increasing (journalEntries saved)
        /\ increasing (journalEntries deleted)).
Proof.
  intros accounts feeHeads classFees b student form paymentId entryId id
         confirmed Hlinked saved deleted.
  assert (Hsaved : receiptsLinked saved
                   /\ (posted (journalEntries b) ->
                       posted (journalEntries saved))).
  { unfold saved.
    destruct (handleSavePayment_cases accounts feeHeads classFees b student
                form paymentId entryId)
      as [[message ->] | [paid [date [cash [fee
            [Hfee [Hamount [Hpos [Hdate [Hcash Hfees]]]]]]]]]].
    - simpl. auto.
    - destruct (handleSavePayment_saved accounts feeHeads classFees b
                  student form paymentId entryId paid date cash fee
                  Hfee Hamount Hpos Hdate Hcash Hfees) as [text ->].
      simpl. split.
      + now apply receiptsLinked_payment.
      + intros Hposted.
        apply (posted_new (journalEntries b)
                 (mkDraft date Receipt text
                    [ mkTransaction (acc_id cash) debit paid;
                      mkTransaction (acc_id fee) credit paid ]
                    (Some paymentId))
                 entryId Hposted). }
  assert (Hdeleted : posted (journalEntries b) ->
                     posted (journalEntries deleted)).
  { intros Hposted. unfold deleted, handleDeletePayment.
    destruct confirmed; [ | assumption ].
    unfold handleSaveFeePayments.
    match goal with
    | |- context [ if ?c then _ else _ ] => destruct c
    end; simpl; [ now apply posted_filter | assumption ]. }
  destruct Hsaved as [Hsaved Hposted].
  split; [ assumption | ].
  split; [ now apply receiptsLinked_delete | ].
  intros Hp. specialize (Hposted Hp). specialize (Hdeleted Hp).
  split; [ assumption | ]. split; [ assumption | ].
  split; [ now apply posted_invariant | now apply posted_invariant ].
Qed.

Lemma exampleBooks_linked : receiptsLinked exampleBooks.
Proof.
  intros je id [<- | []] Hrel _. injection Hrel as <-.
  exists payment1. split; [ now left | reflexivity ].
Qed.

Lemma payments_keep_books_linked_witness :
  receiptsLinked (handleDeletePayment true exampleBooks "_p1").
Proof.
  destruct (payments_keep_books_linked exampleChart [] [] exampleBooks
              (mkStudent "_s2" "102" "Bala" "Kumar" "Devi" "_c1")
              examplePaymentForm "_p3" "_v2" "_p1" true
              exampleBooks_linked) as [_ [H _]].
  exact H.
Defined.

End DashboardFacts.

(** ** Students, classes and their accounts in the simple-posting variant *)

Module EnrolmentFacts.
Import School SimplePosting SimplePostingDashboard EnrolmentSpec SchoolFacts.

Lemma renamed_refl (acc : Account) : renamed acc acc.
Proof. repeat split. Qed.

Lemma renamed_trans (a b c : Account) :
  renamed a b -> renamed b c -> renamed a c.
Proof.
  intros [H1 [H2 [H3 [H4 [H5 [H6 H7]]]]]] [K1 [K2 [K3 [K4 [K5 [K6 K7]]]]]].
  repeat split; try congruence.
  intros Hnone. rewrite K7 by congruence. now apply H7.
Qed.

Lemma renamed_manual (a b : Account) :
  renamed a b -> acc_studentId a = None -> b = a.
Proof.
  intros [H1 [H2 [H3 [H4 [H5 [H6 H7]]]]]] Hnone.
  specialize (H7 Hnone). destruct a, b. simpl in *. congruence.
Qed.

Lemma Forall2_renamed_refl (l : list Account) : Forall2 renamed l l.
Proof. induction l; constructor; auto using renamed_refl. Qed.

Lemma Forall2_renamed_trans (l1 l2 l3 : list Account) :
  Forall2 renamed l1 l2 -> Forall2 renamed l2 l3 -> Forall2 renamed l1 l3.
Proof.
  intros H12. revert l3. induction H12; intros l3 H23; inversion H23; subst.
  - constructor.
  - constructor; [ eapply renamed_trans; eassumption | auto ].
Qed.

Lemma renameAccountOf_renamed (id name : string) (l l' : list Account) :
  renameAccountOf id name l = Some l' -> Forall2 renamed l l'.
Proof.
  revert l'. induction l as [ | acc rest IH ]; simpl; intros l' H;
    [ discriminate | ].
  destruct (isAccountOf id acc) eqn:E.
  - injection H as <-. constructor; [ | apply Forall2_renamed_refl ].
    repeat split. simpl. intros Hnone.
    unfold isAccountOf in E. rewrite Hnone in E. discriminate.
  - destruct (renameAccountOf id name rest) as [rest' | ]; [ | discriminate ].
    injection H as <-. constructor; [ apply renamed_refl | now apply IH ].
Qed.

Lemma renameStep_renamed (originalStudents : list Student)
    (state : list Account * bool) (student : Student) :
  Forall2 renamed (fst state) (fst (renameStep originalStudents state student)).
Proof.
  unfold renameStep.
  destruct (find _ originalStudents) as [original | ];
    [ | apply Forall2_renamed_refl ].
  destruct (negb (String.eqb (st_name original) (st_name student)));
    [ | apply Forall2_renamed_refl ].
  destruct (renameAccountOf (st_id student) (st_name student) (fst state))
    as [l' | ] eqn:E; [ | apply Forall2_renamed_refl ].
  simpl. apply (renameAccountOf_renamed _ _ _ _ E).
Qed.

Lemma renameSteps_renamed (originalStudents updated : list Student) :
  forall state,
    Forall2 renamed (fst state)
            (fst (fold_left (renameStep originalStudents) updated state)).
Proof.
  induction updated as [ | st updated IH ]; intros state; simpl.
  - apply Forall2_renamed_refl.
  - eapply Forall2_renamed_trans;
      [ apply renameStep_renamed | apply IH ].
Qed.

Lemma Forall2_In_right {A B : Type} (R : A -> B -> Prop) (l : list A)
    (l' : list B) (y : B) :
  Forall2 R l l' -> In y l' -> exists x, In x l /\ R x y.
Proof.
  intros H. induction H as [ | x y' l l' Hxy _ IH ]; intros Hin.
  - contradiction.
  - destruct Hin as [<- | Hin].
    + exists x. split; [ now left | assumption ].
    + destruct (IH Hin) as [x0 [Hx0 HR]]. exists x0.
      split; [ now right | assumption ].
Qed.

Lemma Forall2_manual (l l' : list Account) :
  Forall2 renamed l l' -> filter manual l' = filter manual l.
Proof.
  intros H. induction H as [ | a b l l' Hab _ IH ]; [ reflexivity | ].
  simpl. rewrite IH.
  assert (Hsame : manual b = manual a).
  { unfold manual. destruct Hab as [_ [_ [_ [_ [_ [H6 _]]]]]].
    now rewrite H6. }
  rewrite Hsame. destruct (manual a) eqn:E; [ | reflexivity ].
  f_equal. apply renamed_manual; [ assumption | ].
  unfold manual in E. destruct (acc_studentId a); [ discriminate | ].
  reflexivity.
Qed.

(** *** The loop over the new students *)

Lemma accountFor_more (classes : list ClassInfo)
    (categories extra : list AccountCategory) (student : Student)
    (acc : Account) :
  accountFor classes categories student acc ->
  accountFor classes (categories ++ extra) student acc.
Proof.
  intros [H1 [H2 [H3 [H4 [cat [className [Hin H]]]]]]].
  repeat (split; [ assumption | ]).
  exists cat, className. split; [ apply in_or_app; now left | exact H ].
Qed.

(** One iteration appends to the categories and to the new accounts; for
    a student of a named class it appends the student's account. *)
Lemma addStep_grows (generateId : nat -> string) (classes : list ClassInfo)
    (a : Additions) (student : Student) :
  exists moreCategories moreAccounts,
    finalCategories (addStep generateId classes a student)
    = finalCategories a ++ moreCategories
    /\ newAccounts (addStep generateId classes a student)
       = newAccounts a ++ moreAccounts
    /\ (categoriesChanged (addStep generateId classes a student) = false ->
        moreCategories = [] /\ categoriesChanged a = false)
    /\ (forall cat, In cat moreCategories ->
                    isSystem cat = Some true
                    /\ exists c, In c classes /\ cl_name c = cat_name cat)
    /\ (forall acc, In acc moreAccounts ->
                    accountFor classes
                      (finalCategories (addStep generateId classes a student))
                      student acc)
    /\ (forall className,
          enrolled classes student className -> moreAccounts <> []).
Proof.
  unfold addStep.
  destruct (find (fun c => String.eqb (cl_id c) (st_classId student))
                 classes) as [class | ] eqn:Eclass.
  2:{ exists [], []. rewrite !app_nil_r.
      split; [ reflexivity | ]. split; [ reflexivity | ].
      split; [ intros H; now split | ].
      split; [ intros cat [] | ]. split; [ intros acc [] | ].
      intros className [class [Hfind _]]. congruence. }
  destruct (String.eqb_spec (cl_name class) EmptyString) as [Hempty | Hname].
  { exists [], []. rewrite !app_nil_r.
    split; [ reflexivity | ]. split; [ reflexivity | ].
    split; [ intros H; now split | ].
    split; [ intros cat [] | ]. split; [ intros acc [] | ].
    intros className [class' [Hfind [Hcn Hne]]].
    rewrite Eclass in Hfind. injection Hfind as <-. congruence. }
  assert (Henrolled : enrolled classes student (cl_name class)).
  { exists class. repeat split; assumption. }
  destruct (find (fun c => String.eqb (cat_name c) (cl_name class)
                           && truthy (isSystem c))
                 (finalCategories a)) as [category | ] eqn:Ecat.
  - apply find_some in Ecat. destruct Ecat as [Hin Hcat].
    apply andb_true_iff in Hcat. destruct Hcat as [Hcn Hsys].
    apply String.eqb_eq in Hcn.
    exists []. eexists. simpl. rewrite app_nil_r.
    split; [ reflexivity | ]. split; [ reflexivity | ].
    split; [ intros H; split; [ reflexivity | exact H ] | ].
    split; [ intros ? [] | ].
    split; [ | discriminate ].
    intros acc [<- | []]. repeat (split; [ reflexivity | ]).
    exists category, (cl_name class). auto.
  - apply find_some in Eclass. destruct Eclass as [Hclass _].
    eexists. eexists. simpl.
    split; [ reflexivity | ]. split; [ reflexivity | ].
    split; [ discriminate | ].
    split.
    { intros cat [<- | []]. simpl.
      split; [ reflexivity | now exists class ]. }
    split; [ | discriminate ].
    intros acc [<- | []]. repeat (split; [ reflexivity | ]).
    eexists. exists (cl_name class).
    split; [ apply in_or_app; right; now left | ].
    repeat split; try reflexivity; assumption.
Qed.

Lemma addStep_ok (generateId : nat -> string) (classes : list ClassInfo)
    (categories : list AccountCategory) (new : list Student)
    (a : Additions) (student : Student) :
  In student new ->
  additionsOk classes categories new a ->
  additionsOk classes categories new (addStep generateId classes a student).
Proof.
  intros Hnew [[added [Hcats [Hflag Hadded]]] Haccs].
  destruct (addStep_grows generateId classes a student)
    as [moreC [moreA [HC [HA [Hf [HmoreC [HmoreA _]]]]]]].
  split.
  - exists (added ++ moreC). rewrite HC, Hcats, app_assoc.
    split; [ reflexivity | ]. split.
    + intros Hfalse. destruct (Hf Hfalse) as [-> Ha].
      rewrite (Hflag Ha). reflexivity.
    + intros cat Hcat. apply in_app_or in Hcat.
      destruct Hcat as [Hcat | Hcat]; auto.
  - intros acc Hacc. rewrite HA in Hacc. apply in_app_or in Hacc.
    destruct Hacc as [Hacc | Hacc].
    + destruct (Haccs acc Hacc) as [st [Hst Hfor]].
      exists st. split; [ assumption | ].
      rewrite HC. now apply accountFor_more.
    + exists student. split; [ assumption | now apply HmoreA ].
Qed.

Lemma addSteps_ok (generateId : nat -> string) (classes : list ClassInfo)
    (categories : list AccountCategory) (new todo : list Student) :
  (forall st, In st todo -> In st new) ->
  forall a,
    additionsOk classes categories new a ->
    additionsOk classes categories new
                (fold_left (addStep generateId classes) todo a).
Proof.
  induction todo as [ | st todo IH ]; intros Hsub a Hok; simpl;
    [ assumption | ].
  apply IH; [ intros st' Hst'; apply Hsub; now right | ].
  apply addStep_ok; [ apply Hsub; now left | assumption ].
Qed.

Lemma additions_start (classes : list ClassInfo)
    (categories : list AccountCategory) (new : list Student) :
  additionsOk classes categories new
    {| finalCategories := categories; newAccounts := [];
       categoriesChanged := false; idsDrawn := O |}.
Proof.
  split.
  - exists []. simpl. split; [ now rewrite app_nil_r | ].
    split; [ reflexivity | intros cat [] ].
  - intros acc [].
Qed.

(** An account opened in one iteration is still there, in a category that
    is still there, after the later iterations. *)
Lemma addSteps_keep (generateId : nat -> string) (classes : list ClassInfo)
    (todo : list Student) :
  forall (a : Additions) (student : Student) (acc : Account),
    In acc (newAccounts a) ->
    accountFor classes (finalCategories a) student acc ->
    In acc (newAccounts (fold_left (addStep generateId classes) todo a))
    /\ accountFor classes
         (finalCategories (fold_left (addStep generateId classes) todo a))
         student acc.
Proof.
  induction todo as [ | st todo IH ]; intros a student acc Hin Hfor; simpl;
    [ now split | ].
  destruct (addStep_grows generateId classes a st)
    as [moreC [moreA [HC [HA _]]]].
  apply IH.
  - rewrite HA. apply in_or_app. now left.
  - rewrite HC. now apply accountFor_more.
Qed.

(** Every new student of a named class has an account after the loop. *)
Lemma addSteps_cover (generateId : nat -> string) (classes : list ClassInfo)
    (todo : list Student) :
  forall (a : Additions) (student : Student) (className : string),
    In student todo -> enrolled classes student className ->
    exists acc,
      In acc (newAccounts (fold_left (addStep generateId classes) todo a))
      /\ accountFor classes
           (finalCategories (fold_left (addStep generateId classes) todo a))
           student acc.
Proof.
  induction todo as [ | st todo IH ]; intros a student className Hin Henr;
    [ contradiction | ].
  simpl. destruct Hin as [-> | Hin]; [ | now apply (IH _ _ className) ].
  destruct (addStep_grows generateId classes a student)
    as [moreC [moreA [HC [HA [_ [_ [HmoreA Hsome]]]]]]].
  specialize (Hsome className Henr).
  destruct moreA as [ | acc moreA ]; [ contradiction | ].
  exists acc. apply addSteps_keep.
  - rewrite HA. apply in_or_app. right. now left.
  - apply HmoreA. now left.
Qed.

(** *** What [handleSaveStudents] stores *)

Lemma renameStep_flag (originalStudents : list Student)
    (state : list Account * bool) (student : Student) :
  renameStep originalStudents state student = state
  \/ snd (renameStep originalStudents state student) = true.
Proof.
  unfold renameStep.
  destruct (find _ originalStudents) as [original | ]; [ | now left ].
  destruct (negb (String.eqb (st_name original) (st_name student)));
    [ | now left ].
  destruct (renameAccountOf (st_id student) (st_name student) (fst state));
    [ now right | now left ].
Qed.

Lemma renameSteps_flag_stays (originalStudents updated : list Student) :
  forall state,
    snd state = true ->
    snd (fold_left (renameStep originalStudents) updated state) = true.
Proof.
  induction updated as [ | st updated IH ]; intros state Hflag; simpl;
    [ assumption | ].
  apply IH.
  destruct (renameStep_flag originalStudents state st) as [-> | H];
    assumption.
Qed.

Lemma renameSteps_unchanged (originalStudents updated : list Student) :
  forall state,
    snd (fold_left (renameStep originalStudents) updated state) = false ->
    fst (fold_left (renameStep originalStudents) updated state) = fst state.
Proof.
  induction updated as [ | st updated IH ]; intros state Hflag; simpl in *;
    [ reflexivity | ].
  destruct (renameStep_flag originalStudents state st) as [Hsame | Htrue].
  - rewrite Hsame in *. now apply IH.
  - rewrite (renameSteps_flag_stays _ _ _ Htrue) in Hflag. discriminate.
Qed.

(** The state after [handleSaveStudents], without the flags: the accounts
    are the renamed accounts followed by the new ones, less the student
    accounts of the removed students. *)
Lemma handleSaveStudents_stores (generateId : nat -> string) (s : State)
    (updated new : list Student) :
  let removed := deletedIds st_id (students s) updated in
  let additions :=
    fold_left (addStep generateId (classes s)) new
              {| finalCategories := accountCategories s; newAccounts := [];
                 categoriesChanged := false; idsDrawn := O |} in
  let renamedAccounts :=
    fst (fold_left (renameStep (students s)) updated (accounts s, false)) in
  handleSaveStudents generateId s updated new
  = {| classes := classes s;
       students := updated;
       classFees := classFees s;
       feeConcessions :=
         filter (fun fc => negb (includes removed (fc_studentId fc)))
                (feeConcessions s);
       feePayments :=
         filter (fun fp => negb (includes removed (fp_studentId fp)))
                (feePayments s);
       accountCategories := finalCategories additions;
       accounts :=
         filter (fun acc =>
                   negb (truthy (isStudentAccount acc))
                   || negb (match acc_studentId acc with
                            | Some id => includes removed id
                            | None => false
                            end))
                (renamedAccounts ++ newAccounts additions) |}.
Proof.
  intros removed additions renamedAccounts.
  unfold handleSaveStudents. fold removed. fold additions.
  pose proof (renameSteps_unchanged (students s) updated (accounts s, false))
    as Hflag.
  fold renamedAccounts in Hflag. unfold renamedAccounts.
  destruct (fold_left (renameStep (students s)) updated (accounts s, false))
    as [finalAccounts accountsChanged].
  simpl in Hflag. simpl fst.
  assert (Hcats : (if categoriesChanged additions
                   then finalCategories additions else accountCategories s)
                  = finalCategories additions).
  { destruct (addSteps_ok generateId (classes s) (accountCategories s)
                new new (fun st H => H) _
                (additions_start (classes s) (accountCategories s) new))
      as [[added [Hfinal [Hnone _]]] _].
    fold additions in Hfinal, Hnone.
    destruct (categoriesChanged additions); [ reflexivity | ].
    rewrite Hfinal, (Hnone eq_refl). now rewrite app_nil_r. }
  rewrite Hcats.
  assert (Hnew : (if (0 <? List.length (newAccounts additions))%nat
                  then (finalAccounts ++ newAccounts additions, true)
                  else (finalAccounts, accountsChanged))
                 = (finalAccounts ++ newAccounts additions,
                    accountsChanged
                    || (0 <? List.length (newAccounts additions))%nat)).
  { destruct (newAccounts additions) as [ | acc accs ]; simpl.
    - now rewrite app_nil_r, orb_false_r.
    - now rewrite orb_true_r. }
  rewrite Hnew.
  destruct (0 <? List.length removed)%nat eqn:Edel.
  - reflexivity.
  - apply none_deleted in Edel. rewrite Edel. simpl.
    rewrite !filter_all by (intros; reflexivity).
    rewrite filter_all
      by (intros acc _; destruct (acc_studentId acc);
          now rewrite orb_true_r).
    f_equal.
    destruct accountsChanged; simpl.
    + reflexivity.
    + destruct (newAccounts additions) as [ | acc accs ]; simpl.
      * rewrite app_nil_r. symmetry. now apply Hflag.
      * reflexivity.
Qed.

Lemma accounts_after (generateId : nat -> string) (s : State)
    (updated new : list Student) (acc : Account) :
  let s' := handleSaveStudents generateId s updated new in
  In acc (accounts s') ->
  ((exists a, In a (accounts s) /\ renamed a acc)
   \/ (exists st, In st new
                  /\ accountFor (classes s) (accountCategories s') st acc))
  /\ (truthy (isStudentAccount acc) = true ->
      forall id, acc_studentId acc = Some id ->
                 ~ In id (deletedIds st_id (students s) updated)).
Proof.
  intros s'. unfold s'. rewrite handleSaveStudents_stores. simpl.
  intros Hin. apply filter_In in Hin. destruct Hin as [Hin Hkeep].
  split.
  - apply in_app_or in Hin. destruct Hin as [Hin | Hin].
    + left.
      apply (Forall2_In_right renamed (accounts s) _ acc
               (renameSteps_renamed (students s) updated (accounts s, false))
               Hin).
    + right.
      destruct (addSteps_ok generateId (classes s) (accountCategories s)
                  new new (fun st H => H) _
                  (additions_start (classes s) (accountCategories s) new))
        as [_ Haccs].
      now apply Haccs.
  - intros Hflag id Hid Hdel. rewrite Hflag, Hid in Hkeep. simpl in Hkeep.
    apply includes_iff in Hdel. rewrite Hdel in Hkeep. discriminate.
Qed.

Lemma categories_after (generateId : nat -> string) (s : State)
    (updated new : list Student) :
  exists added,
    accountCategories (handleSaveStudents generateId s updated new)
    = accountCategories s ++ added
    /\ forall cat, In cat added ->
                   isSystem cat = Some true
                   /\ exists c, In c (classes s) /\ cl_name c = cat_name cat.
Proof.
  rewrite handleSaveStudents_stores. simpl.
  destruct (addSteps_ok generateId (classes s) (accountCategories s)
              new new (fun st H => H) _
              (additions_start (classes s) (accountCategories s) new))
    as [[added [Hfinal [_ Hadded]]] _].
  exists added. now split.
Qed.

Lemma save_keeps_accounts (generateId : nat -> string) (s : State)
    (updated new : list Student) :
  (forall st, In st new -> In (st_id st) (map st_id updated)) ->
  accountsOfStudents s ->
  accountsOfStudents (handleSaveStudents generateId s updated new).
Proof.
  intros Hnew Hacc acc id Hin Hflag Hid.
  destruct (accounts_after generateId s updated new acc Hin)
    as [Horigin Hkept].
  specialize (Hkept Hflag id Hid).
  assert (Hstudents : students (handleSaveStudents generateId s updated new)
                      = updated)
    by now rewrite handleSaveStudents_stores.
  rewrite Hstudents.
  destruct Horigin as [[a [Ha Hren]] | [st [Hst Hfor]]].
  - destruct Hren as [_ [_ [_ [_ [H5 [H6 _]]]]]].
    rewrite H5 in Hflag. rewrite H6 in Hid.
    specialize (Hacc a id Ha Hflag Hid).
    apply in_map_iff in Hacc. destruct Hacc as [x [Hx Hxin]].
    rewrite <- Hx. apply (kept_id st_id (students s)); [ assumption | ].
    now rewrite Hx.
  - destruct Hfor as [_ [_ [_ [H4 _]]]].
    rewrite H4 in Hid. injection Hid as <-. now apply Hnew.
Qed.

Lemma save_keeps_payments (generateId : nat -> string) (s : State)
    (updated new : list Student) :
  paymentsOfStudents s ->
  paymentsOfStudents (handleSaveStudents generateId s updated new).
Proof.
  intros Hpay p Hp. rewrite handleSaveStudents_stores in *. simpl in *.
  apply filter_In in Hp. destruct Hp as [Hp Hkept].
  specialize (Hpay p Hp). apply in_map_iff in Hpay.
  destruct Hpay as [x [Hx Hxin]]. rewrite <- Hx.
  apply (kept_id st_id (students s)); [ assumption | ].
  intros Hdel. apply includes_iff in Hdel. rewrite Hx in Hdel.
  rewrite Hdel in Hkept. discriminate.
Qed.

Lemma save_keeps_concessions (generateId : nat -> string) (s : State)
    (updated new : list Student) :
  concessionsOfStudents s ->
  concessionsOfStudents (handleSaveStudents generateId s updated new).
Proof.
  intros Hcon fc Hfc. rewrite handleSaveStudents_stores in *. simpl in *.
  apply filter_In in Hfc. destruct Hfc as [Hfc Hkept].
  specialize (Hcon fc Hfc). apply in_map_iff in Hcon.
  destruct Hcon as [x [Hx Hxin]]. rewrite <- Hx.
  apply (kept_id st_id (students s)); [ assumption | ].
  intros Hdel. apply includes_iff in Hdel. rewrite Hx in Hdel.
  rewrite Hdel in Hkept. discriminate.
Qed.

Lemma save_keeps_manual (generateId : nat -> string) (s : State)
    (updated new : list Student) :
  filter manual (accounts (handleSaveStudents generateId s updated new))
  = filter manual (accounts s).
Proof.
  rewrite handleSaveStudents_stores. simpl.
  set (keep := fun acc : Account =>
                 negb (truthy (isStudentAccount acc))
                 || negb (match acc_studentId acc with
                          | Some id =>
                              includes (deletedIds st_id (students s) updated)
                                       id
                          | None => false
                          end)).
  assert (Hkeep : forall l, filter manual (filter keep l) = filter manual l).
  { induction l as [ | acc l IH ]; simpl; [ reflexivity | ].
    destruct (keep acc) eqn:Ek; simpl.
    - now rewrite IH.
    - rewrite IH. unfold keep, manual in *.
      destruct (acc_studentId acc); [ reflexivity | ].
      rewrite orb_true_r in Ek. discriminate. }
  rewrite Hkeep, filter_app.
  rewrite (Forall2_manual _ _
             (renameSteps_renamed (students s) updated (accounts s, false))).
  simpl.
  destruct (addSteps_ok generateId (classes s) (accountCategories s)
              new new (fun st H => H) _
              (additions_start (classes s) (accountCategories s) new))
    as [_ Haccs].
  match goal with
  | |- _ ++ filter manual ?l = _ =>
      rewrite (filter_none manual l); [ apply app_nil_r | ]
  end.
  intros acc Hacc. destruct (Haccs acc Hacc) as [st [_ Hfor]].
  destruct Hfor as [_ [_ [_ [H4 _]]]]. unfold manual. now rewrite H4.
Qed.

(** X11.  Saving the students keeps the accounts in step with them,
    whatever collections are saved: the accounts that belong to no student
    are kept as they are and in their order; categories are only added,
    each a system category named after a stored class; every account
    still names a stored category; no fee payment, concession or student
    account of a removed student remains; and, where the new students are
    among the saved ones, every student account names a saved student. *)
Theorem handleSaveStudents_keeps_accounts :
  forall (generateId : nat -> string) (s : State)
         (updated new : list Student),
    let s' := handleSaveStudents generateId s updated new in
    students s' = updated
    /\ filter manual (accounts s') = filter manual (accounts s)
    /\ (exists added,
          accountCategories s' = accountCategories s ++ added
          /\ forall cat, In cat added ->
                         isSystem cat = Some true
                         /\ exists c, In c (classes s)
                                      /\ cl_name c = cat_name cat)
    /\ (categoriesKnown s -> categoriesKnown s')
    /\ (paymentsOfStudents s -> paymentsOfStudents s')
    /\ (concessionsOfStudents s -> concessionsOfStudents s')
    /\ ((forall st, In st new -> In (st_id st) (map st_id updated)) ->
        accountsOfStudents s -> accountsOfStudents s').
Proof.
  intros generateId s updated new s'. unfold s'.
  split; [ now rewrite handleSaveStudents_stores | ].
  split; [ apply save_keeps_manual | ].
  split; [ apply categories_after | ].
  split.
  { intros Hknown acc Hin.
    destruct (accounts_after generateId s updated new acc Hin)
      as [[[a [Ha Hren]] | [st [Hst Hfor]]] _].
    - destruct (categories_after generateId s updated new)
        as [added [-> _]].
      destruct Hren as [_ [_ [_ [H4 _]]]]. rewrite H4.
      rewrite map_app. apply in_or_app. left. now apply Hknown.
    - destruct Hfor as [_ [_ [_ [_ [cat [cn [Hcat [Hid _]]]]]]]].
      rewrite <- Hid. now apply in_map. }
  split; [ apply save_keeps_payments | ].
  split; [ apply save_keeps_concessions | apply save_keeps_accounts ].
Qed.

(** X12.  Every new student whose class is stored under a name gets an
    account: after [handleSaveStudents] there is an account with the
    student's name and father's name, flagged as a student account and
    naming the student, in a stored system category named after the
    student's class, provided the student is among the saved ones. *)
Theorem new_student_gets_account :
  forall (generateId : nat -> string) (s : State)
         (updated new : list Student) (student : Student)
         (className : string),
    In student new ->
    In (st_id student) (map st_id updated) ->
    enrolled (classes s) student className ->
    let s' := handleSaveStudents generateId s updated new in
    exists acc,
      In acc (accounts s')
      /\ accountFor (classes s) (accountCategories s') student acc.
Proof.
  intros generateId s updated new student className Hnew Hsaved Henr s'.
  unfold s'. rewrite handleSaveStudents_stores. simpl.
  destruct (addSteps_cover generateId (classes s) new
              {| finalCategories := accountCategories s; newAccounts := [];
                 categoriesChanged := false; idsDrawn := O |}
              student className Hnew Henr) as [acc [Hacc Hfor]].
  exists acc. split; [ | assumption ].
  apply filter_In. split; [ apply in_or_app; now right | ].
  destruct Hfor as [_ [_ [H3 [H4 _]]]]. rewrite H3, H4. simpl.
  apply negb_true_iff.
  destruct (includes (deletedIds st_id (students s) updated) (st_id student))
    eqn:E; [ | reflexivity ].
  exfalso. apply includes_iff in E. apply deletedIds_spec in E.
  destruct E as [x [_ [Hx Hnone]]].
  apply in_map_iff in Hsaved. destruct Hsaved as [u [Hu Huin]].
  now apply (Hnone u Huin).
Qed.

Lemma new_student_gets_account_witness :
  exists acc,
    In acc (accounts (handleSaveStudents freshId exampleSchool
                        (students exampleSchool ++ [newcomer]) [newcomer]))
    /\ acc_studentId acc = Some "_s2" /\ categoryId acc = "_k1".
Proof.
  destruct (new_student_gets_account freshId exampleSchool
              (students exampleSchool ++ [newcomer]) [newcomer] newcomer
              "Class 1") as [acc [Hin Hfor]].
  - now left.
  - simpl. auto.
  - exists (mkClassInfo "_c1" "Class 1").
    split; [ reflexivity | ]. split; [ reflexivity | discriminate ].
  - exists acc. split; [ exact Hin | ].
    simpl in Hin. destruct Hin as [<- | [<- | [<- | []]]].
    + destruct Hfor as [_ [_ [_ [H _]]]]. discriminate.
    + destruct Hfor as [_ [_ [_ [H _]]]]. discriminate.
    + split; reflexivity.
Defined.

(** *** What [handleSaveClasses] stores *)

Lemma handleSaveClasses_stores (generateId : nat -> string) (s : State)
    (updated : list ClassInfo) :
  let removed := deletedIds cl_id (classes s) updated in
  let kept :=
    filter (fun st => negb (includes removed (st_classId st))) (students s) in
  let after :=
    if (0 <? List.length removed)%nat
    then handleSaveStudents generateId s kept []
    else s in
  let s' := handleSaveClasses generateId s updated in
  classes s' = updated
  /\ students s' = students after
  /\ classFees s'
     = filter (fun cf => negb (includes removed (cf_classId cf)))
              (classFees s)
  /\ feeConcessions s' = feeConcessions after
  /\ feePayments s' = feePayments after
  /\ accounts s' = accounts after
  /\ students after = kept.
Proof.
  intros removed kept after s'. unfold s', handleSaveClasses.
  fold removed. fold kept. fold after.
  destruct (fold_left (renameClassStep (classes s)) updated _)
    as [updatedCategories wasChanged].
  simpl. repeat (split; [ reflexivity | ]).
  split.
  - destruct (0 <? List.length removed)%nat eqn:E; [ reflexivity | ].
    apply none_deleted in E. rewrite E. simpl.
    symmetry. now apply filter_all.
  - split; [ reflexivity | ]. split; [ reflexivity | ].
    split; [ reflexivity | ].
    unfold after.
    destruct (0 <? List.length removed)%nat eqn:E.
    + now rewrite handleSaveStudents_stores.
    + apply none_deleted in E. unfold kept. rewrite E. simpl.
      symmetry. now apply filter_all.
Qed.

(** X13.  Saving the classes keeps the stores linked, whatever collection
    is saved: if every student account, fee payment and concession names
    a stored student and every student and fee assignment a stored class,
    the same holds after [handleSaveClasses]; the students and fee
    assignments of the removed classes are gone, and the accounts that
    belong to no student are kept as they are. *)
Theorem handleSaveClasses_keeps_linked :
  forall (generateId : nat -> string) (s : State)
         (updated : list ClassInfo),
    linked s ->
    let s' := handleSaveClasses generateId s updated in
    let removed := deletedIds cl_id (classes s) updated in
    linked s'
    /\ classes s' = updated
    /\ (forall st, In st (students s') -> ~ In (st_classId st) removed)
    /\ (forall cf, In cf (classFees s') -> ~ In (cf_classId cf) removed)
    /\ filter manual (accounts s') = filter manual (accounts s).
Proof.
  intros generateId s updated [Hacc [Hpay [Hcon [Hstu Hfee]]]] s' removed.
  destruct (handleSaveClasses_stores generateId s updated)
    as [Hclasses [Hstudents [Hfees [Hcons [Hpays [Haccs Hkept]]]]]].
  fold s' in Hclasses, Hstudents, Hfees, Hcons, Hpays, Haccs.
  fold removed in Hstudents, Hfees, Hcons, Hpays, Haccs, Hkept.
  set (kept := filter (fun st => negb (includes removed (st_classId st)))
                      (students s)) in *.
  set (after := if (0 <? List.length removed)%nat
                then handleSaveStudents generateId s kept []
                else s) in *.
  assert (Hafter : accountsOfStudents after /\ paymentsOfStudents after
                   /\ concessionsOfStudents after
                   /\ filter manual (accounts after)
                      = filter manual (accounts s)).
  { unfold after. destruct (0 <? List.length removed)%nat.
    - split; [ apply save_keeps_accounts; [ intros st [] | assumption ] | ].
      split; [ now apply save_keeps_payments | ].
      split; [ now apply save_keeps_concessions | ].
      apply save_keeps_manual.
    - auto. }
  destruct Hafter as [Hacc' [Hpay' [Hcon' Hman']]].
  assert (Hstu' : forall st, In st (students s') ->
                             In st (students s)
                             /\ ~ In (st_classId st) removed).
  { intros st Hst. rewrite Hstudents, Hkept in Hst.
    apply filter_In in Hst. destruct Hst as [Hst Hk].
    split; [ assumption | ]. intros Hdel. apply includes_iff in Hdel.
    rewrite Hdel in Hk. discriminate. }
  assert (Hfee' : forall cf, In cf (classFees s') ->
                             In cf (classFees s)
                             /\ ~ In (cf_classId cf) removed).
  { intros cf Hcf. rewrite Hfees in Hcf.
    apply filter_In in Hcf. destruct Hcf as [Hcf Hk].
    split; [ assumption | ]. intros Hdel. apply includes_iff in Hdel.
    rewrite Hdel in Hk. discriminate. }
  split.
  { split.
    { intros acc id Hin. rewrite Haccs in Hin. rewrite Hstudents.
      now apply Hacc'. }
    split.
    { intros p Hp. rewrite Hpays in Hp. rewrite Hstudents.
      now apply Hpay'. }
    split.
    { intros fc Hfc. rewrite Hcons in Hfc. rewrite Hstudents.
      now apply Hcon'. }
    split.
    - intros st Hst. destruct (Hstu' st Hst) as [Hold Hk].
      rewrite Hclasses. specialize (Hstu st Hold).
      apply in_map_iff in Hstu. destruct Hstu as [c [Hid Hc]].
      rewrite <- Hid. apply (kept_id cl_id (classes s)); [ assumption | ].
      now rewrite Hid.
    - intros cf Hcf. destruct (Hfee' cf Hcf) as [Hold Hk].
      rewrite Hclasses. specialize (Hfee cf Hold).
      apply in_map_iff in Hfee. destruct Hfee as [c [Hid Hc]].
      rewrite <- Hid. apply (kept_id cl_id (classes s)); [ assumption | ].
      now rewrite Hid. }
  split; [ assumption | ].
  split; [ intros st Hst; apply (Hstu' st Hst) | ].
  split; [ intros cf Hcf; apply (Hfee' cf Hcf) | ].
  now rewrite Haccs.
Qed.

Lemma exampleSchool_linked : linked exampleSchool.
Proof.
  split.
  { intros acc id [<- | [<- | []]] Hflag Hid; simpl in *;
      [ injection Hid as <-; auto | discriminate ]. }
  split.
  { intros p [<- | []]; simpl; auto. }
  split.
  { intros fc [<- | []]; simpl; auto. }
  split.
  { intros st [<- | []]; simpl; auto. }
  intros cf [<- | []]; simpl; auto.
Qed.

Lemma handleSaveClasses_keeps_linked_witness :
  linked (handleSaveClasses freshId exampleSchool [])
  /\ students (handleSaveClasses freshId exampleSchool []) = [].
Proof.
  destruct (handleSaveClasses_keeps_linked freshId exampleSchool []
              exampleSchool_linked) as [H _].
  split; [ exact H | reflexivity ].
Defined.

(** *** The categories after [handleSaveClasses] *)

Lemma recategorised_refl (cat : AccountCategory) : recategorised cat cat.
Proof. repeat split. Qed.

Lemma Forall2_recategorised_refl (l : list AccountCategory) :
  Forall2 recategorised l l.
Proof. induction l; constructor; auto using recategorised_refl. Qed.

Lemma Forall2_recategorised_trans (l1 l2 l3 : list AccountCategory) :
  Forall2 recategorised l1 l2 -> Forall2 recategorised l2 l3 ->
  Forall2 recategorised l1 l3.
Proof.
  intros H12. revert l3. induction H12 as [ | a b l1 l2 [H1 [H2 H3]] _ IH ];
    intros l3 H23; inversion H23 as [ | b' c l2' l3' [K1 [K2 K3]] Hrest ];
    subst.
  - constructor.
  - constructor; [ | now apply IH ].
    repeat split; try congruence.
    intros Hown. rewrite K3 by congruence. now apply H3.
Qed.

Lemma Forall2_recategorised_ids (l l' : list AccountCategory) :
  Forall2 recategorised l l' ->
  map cat_id l' = map cat_id l /\ map isSystem l' = map isSystem l
  /\ filter ownCategory l' = filter ownCategory l.
Proof.
  intros H. induction H as [ | a b l l' [H1 [H2 H3]] _ [IH1 [IH2 IH3]] ];
    [ repeat split | ].
  simpl. rewrite IH1, IH2, IH3, H1, H2.
  split; [ reflexivity | ]. split; [ reflexivity | ].
  assert (Hsame : ownCategory b = ownCategory a)
    by (unfold ownCategory; now rewrite H2).
  rewrite Hsame. destruct (ownCategory a) eqn:E; [ | reflexivity ].
  f_equal. unfold ownCategory in E. apply negb_true_iff in E.
  specialize (H3 E). destruct a, b. simpl in *. congruence.
Qed.

Lemma renameClassStep_recategorised (originalClasses : list ClassInfo)
    (state : list AccountCategory * bool) (updatedClass : ClassInfo) :
  NoDup (map cat_id (fst state)) ->
  Forall2 recategorised (fst state)
          (fst (renameClassStep originalClasses state updatedClass))
  /\ (renameClassStep originalClasses state updatedClass = state
      \/ snd (renameClassStep originalClasses state updatedClass) = true).
Proof.
  intros Hnd. unfold renameClassStep.
  destruct (find _ originalClasses) as [originalClass | ];
    [ | split; [ apply Forall2_recategorised_refl | now left ] ].
  destruct (negb (String.eqb (cl_name originalClass) (cl_name updatedClass)));
    [ | split; [ apply Forall2_recategorised_refl | now left ] ].
  destruct (find _ (fst state)) as [categoryToUpdate | ] eqn:Efind;
    [ | split; [ apply Forall2_recategorised_refl | now left ] ].
  apply find_some in Efind. destruct Efind as [Hin Hsys].
  apply andb_true_iff in Hsys. destruct Hsys as [Hsys _].
  simpl. split; [ | now right ].
  assert (Hall : forall l,
             (forall cat, In cat l -> In cat (fst state)) ->
             Forall2 recategorised l
               (map (fun cat =>
                       if String.eqb (cat_id cat) (cat_id categoryToUpdate)
                       then {| cat_id := cat_id cat;
                               cat_name := cl_name updatedClass;
                               isSystem := isSystem cat |}
                       else cat) l)).
  { induction l as [ | cat l IH ]; intros Hsub; simpl; constructor.
    - destruct (String.eqb_spec (cat_id cat) (cat_id categoryToUpdate))
        as [Heq | ]; [ | apply recategorised_refl ].
      repeat split. simpl. intros Hown.
      assert (cat = categoryToUpdate).
      { apply (NoDup_map_injective cat_id (fst state)); auto.
        apply Hsub. now left. }
      subst cat. congruence.
    - apply IH. intros c Hc. apply Hsub. now right. }
  apply Hall. auto.
Qed.

Lemma renameClassSteps_recategorised (originalClasses updated : list ClassInfo) :
  forall state,
    NoDup (map cat_id (fst state)) ->
    let final := fold_left (renameClassStep originalClasses) updated state in
    Forall2 recategorised (fst state) (fst final)
    /\ (snd state = true -> snd final = true)
    /\ (snd final = false -> fst final = fst state).
Proof.
  induction updated as [ | c updated IH ]; intros state Hnd; simpl.
  - split; [ apply Forall2_recategorised_refl | ]. split; auto.
  - destruct (renameClassStep_recategorised originalClasses state c Hnd)
      as [Hstep Hflag].
    assert (Hnd' : NoDup (map cat_id
                            (fst (renameClassStep originalClasses state c)))).
    { destruct (Forall2_recategorised_ids _ _ Hstep) as [-> _]. exact Hnd. }
    destruct (IH _ Hnd') as [Hrest [Hstay Hsame]].
    split; [ eapply Forall2_recategorised_trans; eassumption | ].
    split.
    + intros Htrue. apply Hstay.
      destruct Hflag as [-> | Hflag]; assumption.
    + intros Hfalse. rewrite (Hsame Hfalse).
      destruct Hflag as [-> | Hflag]; [ reflexivity | ].
      rewrite (Hstay Hflag) in Hfalse. discriminate.
Qed.

Lemma filter_own_remaining (names : list string)
    (l : list AccountCategory) :
  filter ownCategory
         (filter (fun cat => negb (truthy (isSystem cat)
                                   && includes names (cat_name cat))) l)
  = filter ownCategory l.
Proof.
  induction l as [ | cat l IH ]; simpl; [ reflexivity | ].
  destruct (ownCategory cat) eqn:E.
  - unfold ownCategory in E. apply negb_true_iff in E. rewrite E.
    simpl. unfold ownCategory at 1. rewrite E. simpl. f_equal. apply IH.
  - destruct (negb (truthy (isSystem cat)
                    && includes names (cat_name cat)));
      simpl; [ rewrite E | ]; apply IH.
Qed.

(** X14.  Saving the classes, with categories stored under distinct
    identifiers: the categories stored afterwards are the stored ones,
    less the system categories named after removed classes, some of them
    renamed; their identifiers and system flags are unchanged, and the
    categories that are not system categories are kept as they are and
    in their order. *)
Theorem handleSaveClasses_categories :
  forall (generateId : nat -> string) (s : State)
         (updated : list ClassInfo),
    NoDup (map cat_id (accountCategories s)) ->
    let s' := handleSaveClasses generateId s updated in
    let removedNames :=
      map cl_name
          (filter (fun c => includes (deletedIds cl_id (classes s) updated)
                                     (cl_id c))
                  (classes s)) in
    let remaining :=
      filter (fun cat => negb (truthy (isSystem cat)
                               && includes removedNames (cat_name cat)))
             (accountCategories s) in
    map cat_id (accountCategories s') = map cat_id remaining
    /\ map isSystem (accountCategories s') = map isSystem remaining
    /\ filter ownCategory (accountCategories s')
       = filter ownCategory (accountCategories s)
    /\ NoDup (map cat_id (accountCategories s')).
Proof.
  intros generateId s updated Hnd s' removedNames remaining.
  assert (Hown : filter ownCategory remaining
                 = filter ownCategory (accountCategories s))
    by apply filter_own_remaining.
  assert (Hrel : Forall2 recategorised remaining (accountCategories s')).
  { unfold s', handleSaveClasses.
    set (removed := deletedIds cl_id (classes s) updated).
    fold removed in removedNames. fold removedNames.
    destruct (0 <? List.length removed)%nat eqn:Edel.
    - fold remaining.
      destruct (renameClassSteps_recategorised (classes s) updated
                  (remaining, true)) as [Hrel [Hstay _]].
      { simpl. unfold remaining. now apply filter_NoDup_map. }
      specialize (Hstay eq_refl). simpl in Hrel.
      destruct (fold_left (renameClassStep (classes s)) updated
                          (remaining, true)) as [cats flag].
      simpl in *. subst flag. exact Hrel.
    - assert (Hsame : remaining = accountCategories s).
      { unfold remaining, removedNames.
        apply none_deleted in Edel. fold removed. rewrite Edel. simpl.
        rewrite (filter_none (fun _ : ClassInfo => false))
          by reflexivity.
        apply filter_all. intros cat _.
        destruct (truthy (isSystem cat)); reflexivity. }
      destruct (renameClassSteps_recategorised (classes s) updated
                  (accountCategories s, false) Hnd) as [Hrel [_ Hkeep]].
      simpl in Hrel, Hkeep.
      destruct (fold_left (renameClassStep (classes s)) updated
                          (accountCategories s, false)) as [cats flag].
      simpl in *. rewrite Hsame.
      destruct flag; [ exact Hrel | ].
      apply Forall2_recategorised_refl. }
  destruct (Forall2_recategorised_ids _ _ Hrel) as [Hids [Hsys Hkept]].
  split; [ assumption | ]. split; [ assumption | ].
  split; [ now rewrite Hkept | ].
  rewrite Hids. unfold remaining. now apply filter_NoDup_map.
Qed.

Lemma handleSaveClasses_categories_witness :
  filter ownCategory
         (accountCategories
            (handleSaveClasses freshId exampleSchool
               [ mkClassInfo "_c1" "Class One" ]))
  = filter ownCategory (accountCategories exampleSchool).
Proof.
  destruct (handleSaveClasses_categories freshId exampleSchool
              [ mkClassInfo "_c1" "Class One" ]) as [_ [_ [H _]]].
  - repeat constructor; simpl; intuition discriminate.
  - exact H.
Defined.

End EnrolmentFacts.

(** ** Fee heads and fee assignments *)

Module FeeManagerFacts.
Import School FeeManager FeeSpec SchoolFacts.

Lemma edit_keeps_ids (form : ClassFee) (l : list ClassFee) :
  map cf_id (map (fun cf => if String.eqb (cf_id cf) (cf_id form)
                            then form else cf) l)
  = map cf_id l.
Proof.
  induction l as [ | cf l IH ]; simpl; [ reflexivity | ].
  rewrite IH. f_equal.
  destruct (String.eqb_spec (cf_id cf) (cf_id form)); congruence.
Qed.

Lemma edit_absent (form : ClassFee) (l : list ClassFee) :
  ~ In (cf_id form) (map cf_id l) ->
  map (fun cf => if String.eqb (cf_id cf) (cf_id form) then form else cf) l
  = l.
Proof.
  induction l as [ | cf l IH ]; simpl; intros Hnotin; [ reflexivity | ].
  destruct (String.eqb_spec (cf_id cf) (cf_id form)) as [Heq | Hne].
  - exfalso. apply Hnotin. now left.
  - f_equal. apply IH. intros Hin. apply Hnotin. now right.
Qed.

(** No other assignment has the class and fee head of the form. *)
Lemma not_duplicate (form : ClassFee) (l : list ClassFee) :
  existsb (fun cf => String.eqb (cf_classId cf) (cf_classId form)
                     && String.eqb (cf_feeHeadId cf) (cf_feeHeadId form)
                     && negb (String.eqb (cf_id cf) (cf_id form))) l
  = false ->
  forall cf, In cf l -> assignmentKey cf = assignmentKey form ->
             cf_id cf = cf_id form.
Proof.
  intros Hnone cf Hin Hkey. rewrite existsb_false in Hnone.
  specialize (Hnone cf Hin). unfold assignmentKey in Hkey.
  injection Hkey as Hc Hh. rewrite Hc, Hh, !String.eqb_refl in Hnone.
  simpl in Hnone. apply negb_false_iff in Hnone.
  now apply String.eqb_eq.
Qed.

Lemma edit_keeps_keys (form : ClassFee) (l : list ClassFee) :
  NoDup (map cf_id l) -> NoDup (map assignmentKey l) ->
  (forall cf, In cf l -> assignmentKey cf = assignmentKey form ->
              cf_id cf = cf_id form) ->
  NoDup (map assignmentKey
             (map (fun cf => if String.eqb (cf_id cf) (cf_id form)
                             then form else cf) l)).
Proof.
  induction l as [ | cf l IH ]; simpl; intros Hids Hkeys Hsame;
    [ constructor | ].
  inversion Hids as [ | ? ? Hid Hids' ]; subst.
  inversion Hkeys as [ | ? ? Hkey Hkeys' ]; subst.
  assert (Hrest : forall c, In c l -> assignmentKey c = assignmentKey form ->
                            cf_id c = cf_id form)
    by (intros c Hc; apply Hsame; now right).
  destruct (String.eqb_spec (cf_id cf) (cf_id form)) as [Heq | Hne].
  - rewrite edit_absent by now rewrite <- Heq.
    constructor; [ | assumption ].
    intros Hin. apply in_map_iff in Hin. destruct Hin as [c [Hc Hcin]].
    apply Hid. rewrite Heq, <- (Hrest c Hcin Hc). now apply in_map.
  - constructor; [ | now apply IH ].
    intros Hin. apply in_map_iff in Hin. destruct Hin as [c' [Hc' Hin]].
    apply in_map_iff in Hin. destruct Hin as [c [Hc Hcin]].
    destruct (String.eqb_spec (cf_id c) (cf_id form)) as [Heq' | Hne'].
    + subst c'. apply Hne. apply Hsame; [ now left | now symmetry ].
    + subst c'. apply Hkey. rewrite <- Hc'. now apply in_map.
Qed.

(** X15.  Saving a fee assignment keeps the assignments distinct and
    valid: where the assignments are stored under distinct identifiers,
    none of them empty, and no fee head is assigned twice to a class,
    the same holds after [handleSaveAssignment], for a new identifier
    that is not empty and not in use, and after [handleDeleteAssignment];
    every stored assignment keeps a
    class, a fee head and a positive amount; and a form that would assign
    a fee head to a class a second time changes nothing. *)
Theorem handleSaveAssignment_keeps_distinct :
  forall (classFees : list ClassFee) (form : option ClassFee)
         (newId id : string) (confirmed : bool),
    assignmentsDistinct classFees ->
    newId <> EmptyString -> ~ In newId (map cf_id classFees) ->
    let saved :=
      stateAfter classFees (handleSaveAssignment classFees form newId) in
    let deleted :=
      stateAfter classFees (handleDeleteAssignment confirmed classFees id)
    in
    assignmentsDistinct saved
    /\ (assignmentsValid classFees -> assignmentsValid saved)
    /\ (forall f other,
           form = Some f -> In other classFees ->
           assignmentKey other = assignmentKey f ->
           cf_id other <> cf_id f ->
           saved = classFees)
    /\ assignmentsDistinct deleted.
Proof.
  intros classFees form newId id confirmed [Hids [Hempty Hkeys]] Hnew Hfresh
         saved deleted.
  assert (Hdeleted : assignmentsDistinct deleted).
  { unfold deleted, handleDeleteAssignment.
    destruct confirmed; simpl; [ | repeat split; assumption ].
    split; [ now apply filter_NoDup_map | ].
    split; [ | now apply filter_NoDup_map ].
    intros Hin. apply Hempty. apply in_map_iff in Hin.
    destruct Hin as [cf [Hcf Hcfin]]. apply filter_In in Hcfin.
    rewrite <- Hcf. apply in_map. apply Hcfin. }
  cut (assignmentsDistinct saved
       /\ (assignmentsValid classFees -> assignmentsValid saved)
       /\ (forall f other,
              form = Some f -> In other classFees ->
              assignmentKey other = assignmentKey f ->
              cf_id other <> cf_id f ->
              saved = classFees)).
  { intros [H1 [H2 H3]]. split; [ exact H1 | ]. split; [ exact H2 | ].
    split; [ exact H3 | exact Hdeleted ]. }
  clear Hdeleted deleted.
  unfold saved, handleSaveAssignment.
  destruct form as [form | ];
    [ | simpl; repeat split; auto; intros f other H; discriminate ].
  destruct (String.eqb (cf_classId form) EmptyString
            || String.eqb (cf_feeHeadId form) EmptyString
            || Qeq_bool (cf_amount form) 0
            || Qle_bool (cf_amount form) 0) eqn:Echeck;
    [ simpl; repeat split; auto | ].
  apply orb_false_iff in Echeck. destruct Echeck as [Echeck Hle].
  apply orb_false_iff in Echeck. destruct Echeck as [Echeck _].
  apply orb_false_iff in Echeck. destruct Echeck as [Hclass Hhead].
  apply String.eqb_neq in Hclass. apply String.eqb_neq in Hhead.
  assert (Hpos : 0 < cf_amount form).
  { apply Qnot_le_lt. intros H. apply Qle_bool_iff in H. congruence. }
  destruct (existsb _ classFees) eqn:Edup; [ simpl; repeat split; auto | ].
  pose proof (not_duplicate form classFees Edup) as Hsame.
  destruct (String.eqb_spec (cf_id form) EmptyString) as [Hid | Hid]; simpl.
  - (* a new assignment *)
    split.
    + split; [ | split ].
      * rewrite map_app. simpl. now apply NoDup_snoc.
      * rewrite map_app. simpl. intros Hin. apply in_app_or in Hin.
        destruct Hin as [Hin | [Heq | []]]; [ contradiction | ].
        now apply Hnew.
      * rewrite map_app. simpl. apply NoDup_snoc; [ assumption | ].
        intros Hin. apply in_map_iff in Hin.
        destruct Hin as [c [Hc Hcin]].
        apply Hempty. rewrite <- Hid.
        rewrite <- (Hsame c Hcin Hc). now apply in_map.
    + split.
      * intros Hvalid. apply Forall_app. split; [ assumption | ].
        constructor; [ | constructor ]. simpl. auto.
      * intros f other Hf Hother Hkey Hne. injection Hf as <-.
        exfalso. apply Hne. now apply Hsame.
  - (* an edited assignment *)
    split.
    + split; [ | split ].
      * now rewrite edit_keeps_ids.
      * now rewrite edit_keeps_ids.
      * now apply edit_keeps_keys.
    + split.
      * intros Hvalid. unfold assignmentsValid in *. apply Forall_map.
        apply (Forall_impl _ (P := fun cf => cf_classId cf <> EmptyString
                                            /\ cf_feeHeadId cf <> EmptyString
                                            /\ 0 < cf_amount cf));
          [ | exact Hvalid ].
        intros cf Hcf. destruct (String.eqb (cf_id cf) (cf_id form)); auto.
      * intros f other Hf Hother Hkey Hne. injection Hf as <-.
        exfalso. apply Hne. now apply Hsame.
Qed.

Lemma exampleAssignments_distinct : assignmentsDistinct exampleAssignments.
Proof.
  split; [ | split ].
  - repeat constructor; simpl; intuition discriminate.
  - simpl. intuition discriminate.
  - repeat constructor; simpl; intuition discriminate.
Qed.

Lemma handleSaveAssignment_keeps_distinct_witness :
  assignmentsDistinct
    (stateAfter exampleAssignments
       (handleSaveAssignment exampleAssignments
          (Some (mkClassFee EmptyString "_c1" "_fh2" 300)) "_cf3")).
Proof.
  destruct (handleSaveAssignment_keeps_distinct exampleAssignments
              (Some (mkClassFee EmptyString "_c1" "_fh2" 300)) "_cf3"
              "_cf1" true exampleAssignments_distinct) as [H _].
  - discriminate.
  - simpl. intuition discriminate.
  - exact H.
Defined.

Lemma head_edit_keeps_ids (form : FeeHead) (l : list FeeHead) :
  map fh_id (map (fun h => if String.eqb (fh_id h) (fh_id form)
                           then {| fh_id := fh_id h; fh_name := fh_name form |}
                           else h) l)
  = map fh_id l.
Proof.
  induction l as [ | h l IH ]; simpl; [ reflexivity | ].
  rewrite IH. f_equal. destruct (String.eqb (fh_id h) (fh_id form));
    reflexivity.
Qed.

Lemma head_saved_known (feeHeads : list FeeHead) (form : option FeeHead)
    (newId : string) (classFees : list ClassFee) :
  headsKnown feeHeads classFees ->
  headsKnown (stateAfter feeHeads (handleSaveHead feeHeads form newId))
             classFees.
Proof.
  intros Hknown. unfold handleSaveHead.
  destruct form as [form | ]; [ | assumption ].
  destruct (String.eqb (fh_name form) EmptyString); [ assumption | ].
  destruct (negb (String.eqb (fh_id form) EmptyString)); simpl.
  - intros cf Hcf. rewrite head_edit_keeps_ids. now apply Hknown.
  - intros cf Hcf. rewrite map_app. apply in_or_app. left.
    now apply Hknown.
Qed.

(** X16.  A fee head that is assigned to a class cannot be deleted, and
    the fee heads the assignments name stay stored: [handleDeleteHead]
    changes nothing when some assignment names the fee head or the
    operator declines, and removes exactly the fee heads stored under
    that identifier otherwise; if every assignment names a stored fee
    head, the same holds after [handleDeleteHead] and after
    [handleSaveHead]. *)
Theorem fee_heads_stay_known :
  forall (confirmed : bool) (classFees : list ClassFee)
         (feeHeads : list FeeHead) (id : string) (form : option FeeHead)
         (newId : string),
    let deleted :=
      stateAfter feeHeads (handleDeleteHead confirmed classFees feeHeads id)
    in
    let saved := stateAfter feeHeads (handleSaveHead feeHeads form newId) in
    (In id (map cf_feeHeadId classFees) \/ confirmed = false ->
     deleted = feeHeads)
    /\ (~ In id (map cf_feeHeadId classFees) -> confirmed = true ->
        deleted = filter (fun h => negb (String.eqb (fh_id h) id)) feeHeads)
    /\ (headsKnown feeHeads classFees ->
        headsKnown deleted classFees /\ headsKnown saved classFees).
Proof.
  intros confirmed classFees feeHeads id form newId deleted saved.
  unfold deleted, handleDeleteHead.
  destruct (existsb (fun cf => String.eqb (cf_feeHeadId cf) id) classFees)
    eqn:Eused.
  - apply existsb_exists in Eused. destruct Eused as [cf [Hcf Heq]].
    apply String.eqb_eq in Heq.
    assert (Hin : In id (map cf_feeHeadId classFees))
      by (rewrite <- Heq; now apply in_map).
    simpl. split; [ reflexivity | ]. split; [ contradiction | ].
    intros Hknown. split; [ assumption | ].
    unfold saved. apply head_saved_known. assumption.
  - rewrite existsb_false in Eused.
    assert (Hnot : ~ In id (map cf_feeHeadId classFees)).
    { intros Hin. apply in_map_iff in Hin. destruct Hin as [cf [Heq Hcf]].
      specialize (Eused cf Hcf). apply String.eqb_neq in Eused.
      contradiction. }
    split.
    { intros [Hin | ->]; [ contradiction | reflexivity ]. }
    split.
    { intros _ ->. reflexivity. }
    intros Hknown. split.
    + destruct confirmed; simpl; [ | assumption ].
      intros cf Hcf. specialize (Hknown cf Hcf).
      apply in_map_iff in Hknown. destruct Hknown as [h [Hh Hhin]].
      rewrite <- Hh. apply in_map. apply filter_In.
      split; [ assumption | ]. apply negb_true_iff. apply String.eqb_neq.
      intros Heq. apply Hnot. rewrite <- Heq, Hh. now apply in_map.
    + unfold saved. apply head_saved_known. assumption.
Qed.

End FeeManagerFacts.

(** ** The ledger report in general *)

Module LedgerReportFacts.
Import DoubleEntry LedgerSpec SumFacts.

(** What the loop over the lines of one voucher adds to the running
    balance and to the rows. *)
Lemma ledgerLines_spec (accountId : string) (je : JournalEntry)
    (lines : list Transaction) :
  forall (balance : Q) (rows : list LedgerRow),
    exists balance' new,
      fold_left (ledgerLine accountId je) lines (balance, rows)
      = (balance', rows ++ new)
      /\ balance' == balance + netOf (linesOf accountId
                                        [ mkJournalEntry (je_id je)
                                            (je_date je) (voucherType je)
                                            (voucherNumber je) (narration je)
                                            lines (relatedFeePaymentId je) ])
      /\ List.length new
         = List.length (filter (fun t => String.eqb (t_accountId t) accountId)
                               lines)
      /\ Forall (fun row => row_date row = On (je_date je)) new
      /\ (new = [] -> balance' = balance)
      /\ (forall init row, new = init ++ [row] -> row_balance row = balance').
Proof.
  unfold linesOf, netOf. simpl. rewrite app_nil_r.
  induction lines as [ | t lines IH ]; intros balance rows; simpl.
  - exists balance, []. rewrite app_nil_r. unfold reduceSum. simpl.
    split; [ reflexivity | ]. split; [ lra | ]. split; [ reflexivity | ].
    split; [ constructor | ]. split; [ reflexivity | ].
    intros init row H. destruct init; discriminate.
  - destruct (String.eqb (t_accountId t) accountId) eqn:E.
    + match goal with
      | |- context [ fold_left _ lines (?b, rows ++ [?r]) ] =>
          destruct (IH b (rows ++ [r]))
            as [balance' [new [Hfold [Hbal [Hlen [Hdates [Hnil Hlast]]]]]]];
          exists balance', (r :: new)
      end.
      rewrite Hfold, <- app_assoc. simpl.
      split; [ reflexivity | ]. split.
      { rewrite Hbal, reduceSum_cons. lra. }
      split; [ now rewrite Hlen | ].
      split; [ constructor; [ reflexivity | assumption ] | ].
      split; [ discriminate | ].
      intros init row Heq. destruct new as [ | r' new ].
      * destruct init as [ | x init ].
        -- injection Heq as <-. simpl. symmetry. now apply Hnil.
        -- injection Heq as _ Heq. destruct init; discriminate.
      * destruct init as [ | x init ]; [ discriminate | ].
        injection Heq as _ Heq. now apply (Hlast init).
    + destruct (IH balance rows)
        as [balance' [new [Hfold [Hbal [Hlen [Hdates [Hnil Hlast]]]]]]].
      exists balance', new. auto 10.
Qed.

(** What the loop over the vouchers adds. *)
Lemma ledgerVouchers_spec (accountId : string) (js : list JournalEntry) :
  forall (balance : Q) (rows : list LedgerRow),
    exists balance' new,
      fold_left (fun state je =>
                   fold_left (ledgerLine accountId je) (transactions je) state)
                js (balance, rows)
      = (balance', rows ++ new)
      /\ balance' == balance + netOf (linesOf accountId js)
      /\ List.length new = List.length (linesOf accountId js)
      /\ Forall (fun row => exists je, In je js
                                       /\ row_date row = On (je_date je)) new
      /\ (new = [] -> balance' = balance)
      /\ (forall init row, new = init ++ [row] -> row_balance row = balance').
Proof.
  induction js as [ | je js IH ]; intros balance rows; simpl.
  - exists balance, []. rewrite app_nil_r. unfold netOf, reduceSum. simpl.
    split; [ reflexivity | ]. split; [ lra | ]. split; [ reflexivity | ].
    split; [ constructor | ]. split; [ reflexivity | ].
    intros init row H. destruct init; discriminate.
  - destruct (ledgerLines_spec accountId je (transactions je) balance rows)
      as [b1 [new1 [Hfold1 [Hbal1 [Hlen1 [Hdates1 [Hnil1 Hlast1]]]]]]].
    rewrite Hfold1.
    destruct (IH b1 (rows ++ new1))
      as [b2 [new2 [Hfold2 [Hbal2 [Hlen2 [Hdates2 [Hnil2 Hlast2]]]]]]].
    exists b2, (new1 ++ new2). rewrite Hfold2, app_assoc.
    split; [ reflexivity | ].
    unfold linesOf, netOf in *. simpl in *. rewrite app_nil_r in Hbal1.
    split.
    { rewrite Hbal2, Hbal1, reduceSum_app. lra. }
    split.
    { rewrite !length_app. now rewrite Hlen1, Hlen2. }
    split.
    { apply Forall_app. split.
      - apply (Forall_impl _ (P := fun row => row_date row = On (je_date je)));
          [ | assumption ].
        intros row Hrow. exists je. split; [ now left | assumption ].
      - apply (Forall_impl _ (P := fun row =>
                                     exists je0, In je0 js
                                       /\ row_date row = On (je_date je0)));
          [ | assumption ].
        intros row [je0 [Hin Hrow]]. exists je0.
        split; [ now right | assumption ]. }
    split.
    { intros Hnil. apply app_eq_nil in Hnil. destruct Hnil as [H1 H2].
      rewrite (Hnil2 H2). now apply Hnil1. }
    intros init row Heq.
    destruct new2 as [ | r2 new2 ].
    + rewrite app_nil_r in Heq. rewrite (Hnil2 eq_refl).
      now apply (Hlast1 init).
    + destruct (exists_last (l := r2 :: new2)) as [init2 [row2 Hlast]];
        [ discriminate | ].
      rewrite Hlast, app_assoc in Heq.
      apply app_inj_tail in Heq. destruct Heq as [_ <-].
      now apply (Hlast2 init2).
Qed.

Lemma linesOf_perm (accountId : string) (js js' : list JournalEntry) :
  Permutation js js' ->
  Permutation (linesOf accountId js) (linesOf accountId js').
Proof.
  intros H. unfold linesOf. induction H; simpl.
  - constructor.
  - now apply Permutation_app_head.
  - rewrite !app_assoc. apply Permutation_app_tail.
    apply Permutation_app_comm.
  - eapply Permutation_trans; eassumption.
Qed.

(** X17.  The ledger report of an account, in general.  There is a report
    exactly when an account is selected and stored.  Its final balance is
    the account's fixed opening balance plus the lines of the vouchers
    dated within the range that name the account, debit positive: the
    vouchers dated before the range do not enter it.  The report has one
    row for each of these lines, after an opening row when the opening
    balance is positive; every row but the opening row is dated within
    the range; and the balance of the last row is the final balance. *)
Theorem ledgerReportData_balance :
  forall (accountId : string) (startDate endDate : Z)
         (accounts : list Account) (journalEntries : list JournalEntry),
    let inside := filter (inRange startDate endDate) journalEntries in
    match ledgerReportData accountId startDate endDate accounts
                           journalEntries with
    | None =>
        accountId = EmptyString
        \/ forall a, In a accounts -> acc_id a <> accountId
    | Some report =>
        accountId <> EmptyString
        /\ exists acc,
             In acc accounts /\ acc_id acc = accountId
             /\ accountName report = acc_name acc
             /\ finalBalance report
                == debitPositive (openingBalanceType acc) (openingBalance acc)
                   + netOf (linesOf accountId inside)
             /\ List.length (report_transactions report)
                = (openingRows acc
                   + List.length (linesOf accountId inside))%nat
             /\ (forall row, In row (report_transactions report) ->
                             row_date row = Opening
                             \/ exists d, row_date row = On d
                                          /\ (startDate <= d <= endDate)%Z)
             /\ (forall init row,
                    report_transactions report = init ++ [row] ->
                    row_balance row = finalBalance report)
    end.
Proof.
  intros accountId startDate endDate accounts journalEntries inside.
  unfold ledgerReportData.
  destruct (String.eqb_spec accountId EmptyString) as [Hempty | Hid];
    [ now left | ].
  destruct (find (fun a => String.eqb (acc_id a) accountId) accounts)
    as [acc | ] eqn:Efind.
  2:{ right. intros a Ha Heq.
      apply (find_none _ _ Efind) in Ha. apply String.eqb_neq in Ha.
      contradiction. }
  apply find_some in Efind. destruct Efind as [Hacc Heq].
  apply String.eqb_eq in Heq.
  set (opening := debitPositive (openingBalanceType acc) (openingBalance acc)).
  set (rows0 := if Qgtb (openingBalance acc) 0 then _ else []).
  set (sorted := sortWith byDateThenNumber _).
  assert (Hperm : Permutation sorted inside) by apply sortWith_perm.
  destruct (ledgerVouchers_spec accountId sorted opening rows0)
    as [balance [new [Hfold [Hbal [Hlen [Hdates [Hnil Hlast]]]]]]].
  rewrite Hfold. simpl.
  split; [ assumption | ].
  exists acc. split; [ assumption | ]. split; [ assumption | ].
  split; [ reflexivity | ].
  split.
  { rewrite Hbal. unfold netOf.
    rewrite (reduceSum_perm _ _ _ (linesOf_perm accountId _ _ Hperm)).
    reflexivity. }
  split.
  { rewrite length_app, Hlen.
    rewrite (Permutation_length (linesOf_perm accountId _ _ Hperm)).
    f_equal. unfold rows0, openingRows.
    destruct (Qgtb (openingBalance acc) 0); reflexivity. }
  split.
  { intros row Hrow. apply in_app_or in Hrow. destruct Hrow as [Hrow | Hrow].
    - left. unfold rows0 in Hrow.
      destruct (Qgtb (openingBalance acc) 0); [ | contradiction ].
      destruct Hrow as [<- | []]. reflexivity.
    - right. rewrite Forall_forall in Hdates.
      destruct (Hdates row Hrow) as [je [Hje Hdate]].
      exists (je_date je). split; [ assumption | ].
      apply (Permutation_in _ Hperm) in Hje.
      apply filter_In in Hje. destruct Hje as [_ Hin].
      unfold inRange in Hin. apply andb_true_iff in Hin.
      destruct Hin as [H1 H2].
      apply Z.leb_le in H1. apply Z.leb_le in H2. lia. }
  intros init row Hrows.
  destruct new as [ | r new ].
  - rewrite app_nil_r in Hrows. rewrite (Hnil eq_refl).
    unfold rows0 in Hrows.
    destruct (Qgtb (openingBalance acc) 0).
    + destruct init as [ | x init ].
      * injection Hrows as <-. reflexivity.
      * injection Hrows as _ Hrows. destruct init; discriminate.
    + destruct init; discriminate.
  - destruct (exists_last (l := r :: new)) as [init' [row' Hnew]];
      [ discriminate | ].
    rewrite Hnew, app_assoc in Hrows.
    apply app_inj_tail in Hrows. destruct Hrows as [_ <-].
    now apply (Hlast init').
Qed.

End LedgerReportFacts.

(** ** The rows of the voucher form *)

Module VoucherFormModalFacts.
Import DoubleEntry DoubleEntrySpec VoucherFormModal VoucherFormSpec.
Import SumFacts VoucherFormFacts.

Lemma voucher_rows_sided (rows : list TextRow) :
  reachable rows -> Forall oneSided rows.
Proof.
  intros H. induction H as [ id1 id2 | id field value rows _ IH
                           | newId rows _ IH | id rows _ IH ].
  - repeat constructor.
  - unfold handleTransactionChange. apply Forall_map.
    apply (Forall_impl _ (P := oneSided)); [ | exact IH ].
    intros t Ht. destruct (String.eqb (tr_id t) id); [ | exact Ht ].
    destruct field.
    + exact Ht.
    + destruct (String.eqb_spec value EmptyString) as [-> | _]; simpl.
      * now left.
      * now right.
    + destruct (String.eqb_spec value EmptyString) as [-> | _]; simpl.
      * now right.
      * now left.
  - apply Forall_app. split; [ exact IH | ].
    repeat constructor.
  - apply Forall_forall. intros t Ht. apply filter_In in Ht.
    rewrite Forall_forall in IH. apply IH. apply Ht.
Qed.

(** X18.  A row of the voucher form never holds both a debit and a
    credit: in every form that arises from the opening rows by changing
    fields, adding rows and removing rows, each row has an empty debit
    text or an empty credit text; typing a debit clears the credit of the
    row and typing a credit clears the debit. *)
Theorem voucher_rows_one_sided :
  forall rows : list TextRow,
    reachable rows -> Forall oneSided rows.
Proof. exact voucher_rows_sided. Qed.

Lemma voucher_rows_one_sided_witness : Forall oneSided filledForm.
Proof.
  apply (voucher_rows_one_sided filledForm).
  repeat constructor.
Defined.

(** X19.  A voucher saved from the form is balanced where every row is
    complete: for a parser that reads the empty text as not a number, a
    form that arose from the opening rows, in which every row has an
    account and no amount is negative, is either rejected or stored with
    lines whose debits and credits are the totals compared by
    [handleSave], so that they differ by at most 0.01. *)
Theorem complete_form_saves_balanced_voucher :
  forall (parseFloat : string -> JsNumber) (date : Z)
         (voucherType : VoucherType) (narration : string)
         (rows : list TextRow) (entry : JournalEntryDraft),
    parseFloat EmptyString = NaN ->
    reachable rows ->
    (forall t, In t rows ->
               tr_accountId t <> EmptyString
               /\ 0 <= numberOf (parseFloat (tr_debit t))
               /\ 0 <= numberOf (parseFloat (tr_credit t))) ->
    handleSaveForm parseFloat date voucherType narration rows
    = OnSave entry ->
    debitTotal (d_transactions entry)
    == totalDebit (map (formRow parseFloat) rows)
    /\ creditTotal (d_transactions entry)
       == totalCredit (map (formRow parseFloat) rows)
    /\ Qabs (debitTotal (d_transactions entry)
             - creditTotal (d_transactions entry)) <= 1 # 100
    /\ ~ debitTotal (d_transactions entry) == 0.
Proof.
  intros parseFloat date voucherType narration rows entry Hempty Hreach
         Hcomplete Hsaved.
  pose proof (voucher_rows_sided rows Hreach) as Hsided.
  assert (Htotals :
            debitTotal (finalTransactions (map (formRow parseFloat) rows))
            == totalDebit (map (formRow parseFloat) rows)
            /\ creditTotal (finalTransactions (map (formRow parseFloat) rows))
               == totalCredit (map (formRow parseFloat) rows)).
  { apply finalTransactions_totals. intros r Hr.
    apply in_map_iff in Hr. destruct Hr as [t [<- Ht]].
    destruct (Hcomplete t Ht) as [Hacc [Hd Hc]].
    rewrite Forall_forall in Hsided. specialize (Hsided t Ht).
    simpl. repeat split; try assumption.
    destruct Hsided as [-> | ->]; rewrite Hempty; simpl;
      [ left | right ]; reflexivity. }
  unfold handleSaveForm in Hsaved.
  pose proof (saveVoucherForm_checks [] date voucherType narration
                (map (formRow parseFloat) rows) EmptyString) as Hchecks.
  rewrite Hsaved in Hchecks.
  destruct Hchecks as [Hdiff [Hnonzero [Hlines _]]].
  rewrite Hlines. destruct Htotals as [Hd Hc].
  split; [ exact Hd | ]. split; [ exact Hc | ].
  split.
  - rewrite Hd, Hc. exact Hdiff.
  - rewrite Hd. exact Hnonzero.
Qed.

Lemma complete_form_saves_balanced_voucher_witness :
  exists entry,
    handleSaveForm exampleParse 19727 Receipt "Fee" filledForm = OnSave entry
    /\ Qabs (debitTotal (d_transactions entry)
             - creditTotal (d_transactions entry)) <= 1 # 100.
Proof.
  eexists. split; [ reflexivity | ].
  destruct (complete_form_saves_balanced_voucher exampleParse 19727 Receipt
              "Fee" filledForm
              (mkDraft 19727 Receipt "Fee"
                 [ mkTransaction "_cash" debit 100;
                   mkTransaction "_fees" credit 100 ] None))
    as [_ [_ [H _]]].
  - reflexivity.
  - repeat constructor.
  - intros t [<- | [<- | []]]; simpl;
      (split; [ discriminate | split; discriminate ]).
  - reflexivity.
  - exact H.
Defined.

End VoucherFormModalFacts.

(** ** Concessions *)

Module ConcessionFacts.
Import School ConcessionManagerModal ConcessionSpec SchoolFacts.

Lemma set_keys (amounts : Amounts) (key : string) (value : Q) :
  map fst (set amounts key value)
  = if existsb (String.eqb key) (map fst amounts)
    then map fst amounts else map fst amounts ++ [key].
Proof.
  induction amounts as [ | [k v] rest IH ]; simpl; [ reflexivity | ].
  rewrite (String.eqb_sym key k).
  destruct (String.eqb k key) eqn:E; simpl; [ reflexivity | ].
  rewrite IH. destruct (existsb (String.eqb key) (map fst rest));
    reflexivity.
Qed.

Lemma set_NoDup (amounts : Amounts) (key : string) (value : Q) :
  NoDup (map fst amounts) -> NoDup (map fst (set amounts key value)).
Proof.
  intros Hnd. rewrite set_keys.
  destruct (existsb (String.eqb key) (map fst amounts)) eqn:E;
    [ assumption | ].
  apply NoDup_snoc; [ assumption | ].
  intros Hin. rewrite existsb_false in E. specialize (E key Hin).
  rewrite String.eqb_refl in E. discriminate.
Qed.

Lemma get_set_same (amounts : Amounts) (key : string) (value : Q) :
  get (set amounts key value) key = Some value.
Proof.
  unfold get. induction amounts as [ | [k v] rest IH ]; simpl.
  - now rewrite String.eqb_refl.
  - destruct (String.eqb k key) eqn:E; simpl; rewrite E;
      [ reflexivity | assumption ].
Qed.

Lemma get_set_other (amounts : Amounts) (key other : string) (value : Q) :
  other <> key -> get (set amounts key value) other = get amounts other.
Proof.
  intros Hne. unfold get.
  induction amounts as [ | [k v] rest IH ]; simpl.
  - apply String.eqb_neq in Hne. rewrite String.eqb_sym in Hne.
    now rewrite Hne.
  - destruct (String.eqb_spec k key) as [-> | Hk]; simpl.
    + apply String.eqb_neq in Hne. rewrite String.eqb_sym in Hne.
      now rewrite Hne.
    + destruct (String.eqb k other); [ reflexivity | assumption ].
Qed.

Lemma get_In (amounts : Amounts) (key : string) (value : Q) :
  NoDup (map fst amounts) -> In (key, value) amounts ->
  get amounts key = Some value.
Proof.
  unfold get. induction amounts as [ | [k v] rest IH ]; simpl;
    intros Hnd Hin; [ contradiction | ].
  inversion Hnd as [ | ? ? Hk Hnd' ]; subst.
  destruct Hin as [Heq | Hin].
  - injection Heq as -> ->. now rewrite String.eqb_refl.
  - destruct (String.eqb_spec k key) as [-> | Hne].
    + exfalso. apply Hk. apply in_map_iff. now exists (key, value).
    + now apply IH.
Qed.

Lemma concessionsMap_NoDup (student : Student)
    (feeConcessions : list FeeConcession) :
  NoDup (map fst (concessionsMap student feeConcessions)).
Proof.
  unfold concessionsMap.
  assert (H : forall l acc,
             NoDup (map fst acc) ->
             NoDup (map fst
                      (fold_left
                         (fun acc curr =>
                            set acc (fc_classFeeId curr)
                                (concessionAmount curr)) l acc))).
  { induction l as [ | fc l IH ]; intros acc Hacc; simpl;
      [ assumption | ].
    apply IH. now apply set_NoDup. }
  apply H. constructor.
Qed.

(** X20.  The amounts of the concession form: each fee assignment has at
    most one entry, when the form opens and after every change; a change
    stores for its fee assignment an amount from zero up to the maximum
    given, the amount typed where that lies in between, and leaves the
    entries of the other fee assignments as they are. *)
Theorem handleConcessionChange_clamps :
  forall (student : Student) (feeConcessions : list FeeConcession)
         (classFeeId : string) (amount maxAmount : Q) (prev : Amounts),
    let next := handleConcessionChange classFeeId amount maxAmount prev in
    NoDup (map fst (concessionsMap student feeConcessions))
    /\ (NoDup (map fst prev) -> NoDup (map fst next))
    /\ (exists stored,
          get next classFeeId = Some stored
          /\ 0 <= stored
          /\ (0 <= maxAmount -> stored <= maxAmount)
          /\ (0 <= amount -> amount <= maxAmount -> stored = amount))
    /\ (forall other, other <> classFeeId -> get next other = get prev other).
Proof.
  intros student feeConcessions classFeeId amount maxAmount prev next.
  split; [ apply concessionsMap_NoDup | ].
  split; [ apply set_NoDup | ].
  split.
  - exists (max 0 (min amount maxAmount)).
    split; [ apply get_set_same | ].
    unfold max, min.
    destruct (Qle_bool amount maxAmount) eqn:E1.
    + apply Qle_bool_iff in E1.
      destruct (Qle_bool 0 amount) eqn:E2.
      * apply Qle_bool_iff in E2.
        split; [ assumption | ]. split; [ intros _; assumption | ].
        reflexivity.
      * assert (amount < 0).
        { apply Qnot_le_lt. intros H. apply Qle_bool_iff in H. congruence. }
        split; [ lra | ]. split; [ intros H0; exact H0 | ].
        intros H0 _. exfalso. lra.
    + assert (maxAmount < amount).
      { apply Qnot_le_lt. intros H. apply Qle_bool_iff in H. congruence. }
      destruct (Qle_bool 0 maxAmount) eqn:E2.
      * apply Qle_bool_iff in E2.
        split; [ assumption | ]. split; [ intros _; lra | ].
        intros _ H0. exfalso. lra.
      * assert (maxAmount < 0).
        { apply Qnot_le_lt. intros H0. apply Qle_bool_iff in H0.
          congruence. }
        split; [ lra | ]. split; [ intros H1; exact H1 | ].
        intros _ H1. exfalso. lra.
  - intros other Hne. now apply get_set_other.
Qed.

(** What the loop of [handleSaveConcessions] appends. *)
Lemma saveSteps_spec (generateId : nat -> string) (student : Student)
    (feeConcessions : list FeeConcession) (todo : Amounts) :
  forall (new : list FeeConcession) (n : nat),
    exists added n',
      fold_left (saveStep generateId student feeConcessions) todo (new, n)
      = (new ++ added, n')
      /\ map grant added = granted todo
      /\ Forall (fun fc => ofStudent student fc = true) added.
Proof.
  induction todo as [ | [k v] todo IH ]; intros new n; simpl.
  - exists [], n. rewrite app_nil_r. repeat split. constructor.
  - unfold saveStep at 2. simpl. unfold granted. simpl.
    destruct (Qgtb v 0) eqn:Epos.
    + destruct (find (fun fc => String.eqb (fc_studentId fc) (st_id student)
                                && String.eqb (fc_classFeeId fc) k)
                     feeConcessions) as [existing | ] eqn:Efind.
      * apply find_some in Efind. destruct Efind as [_ Hmatch].
        apply andb_true_iff in Hmatch. destruct Hmatch as [Hs Hk].
        apply String.eqb_eq in Hk.
        match goal with
        | |- context [ fold_left _ todo (new ++ [?fc], _) ] =>
            destruct (IH (new ++ [fc]) n) as [added [n' [Hfold [Hmap Hall]]]];
            exists (fc :: added), n'
        end.
        rewrite Hfold, <- app_assoc. simpl.
        split; [ reflexivity | ]. split.
        -- unfold grant at 1. simpl. rewrite Hk. f_equal. exact Hmap.
        -- constructor; [ exact Hs | exact Hall ].
      * match goal with
        | |- context [ fold_left _ todo (new ++ [?fc], _) ] =>
            destruct (IH (new ++ [fc]) (S n))
              as [added [n' [Hfold [Hmap Hall]]]];
            exists (fc :: added), n'
        end.
        rewrite Hfold, <- app_assoc. simpl.
        split; [ reflexivity | ]. split.
        -- unfold grant at 1. simpl. f_equal. exact Hmap.
        -- constructor; [ | exact Hall ].
           unfold ofStudent. simpl. apply String.eqb_refl.
    + apply IH.
Qed.

Lemma filter_filter_negb {A : Type} (f : A -> bool) (l : list A) :
  filter (fun x => negb (f x)) (filter (fun x => negb (f x)) l)
  = filter (fun x => negb (f x)) l.
Proof.
  induction l as [ | x l IH ]; simpl; [ reflexivity | ].
  destruct (f x) eqn:E; simpl; [ assumption | ].
  rewrite E. simpl. now rewrite IH.
Qed.

(** X21.  Saving the concessions of a student, from a form with at most
    one entry for each fee assignment: the concessions of the other
    students are kept as they are and in their order; the student's
    concessions stored afterwards are exactly the entries of the form
    with a positive amount, one concession for each, in the order of the
    form; so each of them is positive and no fee assignment has two. *)
Theorem handleSaveConcessions_one_per_fee :
  forall (generateId : nat -> string) (student : Student)
         (feeConcessions : list FeeConcession) (localConcessions : Amounts),
    NoDup (map fst localConcessions) ->
    let saved :=
      handleSaveConcessions generateId student feeConcessions
                            localConcessions in
    filter (ofOthers student) saved
    = filter (ofOthers student) feeConcessions
    /\ map grant (filter (ofStudent student) saved)
       = granted localConcessions
    /\ NoDup (map fc_classFeeId (filter (ofStudent student) saved))
    /\ (forall fc, In fc saved -> ofStudent student fc = true ->
                   0 < concessionAmount fc
                   /\ get localConcessions (fc_classFeeId fc)
                      = Some (concessionAmount fc)).
Proof.
  intros generateId student feeConcessions localConcessions Hnd saved.
  unfold saved, handleSaveConcessions.
  destruct (saveSteps_spec generateId student feeConcessions
              localConcessions [] O) as [added [n' [Hfold [Hmap Hall]]]].
  rewrite Hfold. simpl.
  assert (Hmine : filter (ofStudent student) added = added).
  { apply filter_all. now rewrite Forall_forall in Hall. }
  assert (Hnotmine : filter (ofOthers student) added = []).
  { apply filter_none. intros fc Hfc. rewrite Forall_forall in Hall.
    unfold ofOthers. unfold ofStudent in Hall. now rewrite (Hall fc Hfc). }
  assert (Hothers :
            filter (ofStudent student)
                   (filter (fun fc => negb (String.eqb (fc_studentId fc)
                                                       (st_id student)))
                           feeConcessions) = []).
  { apply filter_none. intros fc Hfc. apply filter_In in Hfc.
    destruct Hfc as [_ Hfc]. unfold ofStudent.
    now apply negb_true_iff in Hfc. }
  assert (Hstudent :
            filter (ofStudent student)
                   (filter (fun fc => negb (String.eqb (fc_studentId fc)
                                                       (st_id student)))
                           feeConcessions ++ added) = added).
  { now rewrite filter_app, Hothers, Hmine. }
  split.
  { rewrite filter_app, Hnotmine, app_nil_r.
    apply (filter_filter_negb
             (fun fc => String.eqb (fc_studentId fc) (st_id student))). }
  split; [ now rewrite Hstudent | ].
  split.
  { rewrite Hstudent.
    replace (map fc_classFeeId added) with (map fst (map grant added))
      by (rewrite map_map; reflexivity).
    rewrite Hmap. unfold granted. now apply filter_NoDup_map. }
  intros fc Hfc Hmine'.
  assert (Hin : In fc added).
  { rewrite <- Hstudent. apply filter_In. now split. }
  assert (Hgrant : In (grant fc) (granted localConcessions)).
  { rewrite <- Hmap. now apply in_map. }
  unfold granted in Hgrant. apply filter_In in Hgrant.
  destruct Hgrant as [Hlocal Hpos]. simpl in Hpos.
  split; [ now apply Qgtb_true | ].
  now apply get_In.
Qed.

Lemma handleSaveConcessions_one_per_fee_witness :
  map grant
      (filter (ofStudent asha)
              (handleSaveConcessions concessionId asha storedConcessions
                 (handleConcessionChange "_cf2" 30 500
                    (concessionsMap asha storedConcessions))))
  = [ ("_cf1", 100); ("_cf2", 30) ].
Proof.
  destruct (handleSaveConcessions_one_per_fee concessionId asha
              storedConcessions
              (handleConcessionChange "_cf2" 30 500
                 (concessionsMap asha storedConcessions)))
    as [_ [H _]].
  - repeat constructor; simpl; intuition discriminate.
  - exact H.
Defined.

End ConcessionFacts.

(** ** Users *)

Module UserManagerFacts.
Import UserManager UserSpec SchoolFacts.

Lemma find_by_id (users : list User) (u : User) :
  distinctIds users -> In u users ->
  find (fun x => String.eqb (u_id x) (u_id u)) users = Some u.
Proof.
  unfold distinctIds. induction users as [ | x users IH ]; simpl;
    intros Hnd Hin; [ contradiction | ].
  inversion Hnd as [ | ? ? Hx Hnd' ]; subst.
  destruct Hin as [-> | Hin].
  - now rewrite String.eqb_refl.
  - destruct (String.eqb_spec (u_id x) (u_id u)) as [Heq | _].
    + exfalso. apply Hx. rewrite Heq. now apply in_map.
    + now apply IH.
Qed.

(** X22.  The superadmins are protected, with users stored under
    distinct identifiers: [handleDelete] never removes a superadmin,
    whatever identifier is given and whatever the operator answers;
    [handleSave] leaves the user with the address of the default
    superadmin a superadmin under the same identifier; and a user added
    through the form is an admin whose address no stored user has. *)
Theorem superadmins_protected :
  forall (users : list User) (form : option User) (newId id : string)
         (confirmed : bool),
    distinctIds users ->
    let deleted := stateAfter users (handleDelete confirmed users id) in
    let saved := stateAfter users (handleSave users form newId) in
    (forall u, In u users -> u_role u = superadmin -> In u deleted)
    /\ (forall u, In u users ->
                  u_email u = "superadmin@app.com" ->
                  u_role u = superadmin ->
                  exists u', In u' saved /\ u_id u' = u_id u
                             /\ u_role u' = superadmin)
    /\ (forall u', In u' saved ->
                   In u' users
                   \/ (exists f, form = Some f /\ u_id f <> EmptyString
                                 /\ u' = f)
                   \/ (u_role u' = admin
                       /\ ~ In (u_email u') (map u_email users))).
Proof.
  intros users form newId id confirmed Hnd deleted saved.
  split; [ | split ].
  - intros u Hu Hrole. unfold deleted, handleDelete.
    destruct (find (fun x => String.eqb (u_id x) id) users) as [x | ] eqn:E.
    + destruct (u_role x) eqn:Ex; simpl; [ assumption | ].
      destruct confirmed; simpl; [ | assumption ].
      apply filter_In. split; [ assumption | ].
      apply negb_true_iff. apply String.eqb_neq. intros Heq.
      apply find_some in E. destruct E as [Hx Hxid].
      apply String.eqb_eq in Hxid.
      assert (x = u).
      { apply (NoDup_map_injective u_id users); auto. congruence. }
      subst x. congruence.
    + simpl. destruct confirmed; simpl; [ | assumption ].
      apply filter_In. split; [ assumption | ].
      apply negb_true_iff. apply String.eqb_neq. intros Heq.
      apply (find_none _ _ E) in Hu. apply String.eqb_neq in Hu.
      contradiction.
  - intros u Hu Hemail Hrole. unfold saved, handleSave.
    destruct form as [form | ]; [ | simpl; now exists u ].
    destruct (String.eqb (u_email form) EmptyString
              || String.eqb (u_password form) EmptyString);
      [ simpl; now exists u | ].
    destruct (String.eqb_spec (u_id form) EmptyString) as [Hnew | Hedit];
      simpl.
    + destruct (existsb _ users); simpl;
        [ now exists u | ].
      exists u. split; [ apply in_or_app; now left | now split ].
    + destruct (String.eqb_spec (u_id u) (u_id form)) as [Hsame | Hother].
      * rewrite <- Hsame, (find_by_id users u Hnd Hu), Hemail. simpl.
        destruct (u_role form) eqn:Eform; simpl.
        -- exists form. split; [ | split; [ now symmetry | assumption ] ].
           apply in_map_iff. exists u. split; [ | assumption ].
           now rewrite String.eqb_refl.
        -- now exists u.
      * match goal with
        | |- context [ if ?c then _ else _ ] => destruct c
        end; simpl; [ now exists u | ].
        exists u. split; [ | now split ].
        apply in_map_iff. exists u. split; [ | assumption ].
        apply String.eqb_neq in Hother. now rewrite Hother.
  - intros u' Hu'. unfold saved, handleSave in Hu'.
    destruct form as [form | ]; [ | now left ].
    destruct (String.eqb (u_email form) EmptyString
              || String.eqb (u_password form) EmptyString);
      [ now left | ].
    destruct (String.eqb_spec (u_id form) EmptyString) as [Hnew | Hedit];
      simpl in Hu'.
    + destruct (existsb (fun u => String.eqb (u_email u) (u_email form))
                        users) eqn:Eused; simpl in Hu'; [ now left | ].
      apply in_app_or in Hu'. destruct Hu' as [Hu' | [<- | []]];
        [ now left | ].
      right. right. simpl. split; [ reflexivity | ].
      intros Hin. apply in_map_iff in Hin. destruct Hin as [x [Hx Hxin]].
      rewrite existsb_false in Eused. specialize (Eused x Hxin).
      apply String.eqb_neq in Eused. contradiction.
    + match type of Hu' with
      | context [ if ?c then _ else _ ] => destruct c
      end; simpl in Hu'; [ now left | ].
      apply in_map_iff in Hu'. destruct Hu' as [x [Hx Hxin]].
      destruct (String.eqb (u_id x) (u_id form)).
      * right. left. exists form. repeat split; auto.
      * left. now subst.
Qed.

Lemma superadmins_protected_witness :
  In (mkUser "superadmin_001" "superadmin@app.com" "superpassword" superadmin)
     (stateAfter exampleUsers
        (handleDelete true exampleUsers "superadmin_001")).
Proof.
  destruct (superadmins_protected exampleUsers None "_u2" "superadmin_001"
              true) as [H _].
  - repeat constructor; simpl; intuition discriminate.
  - apply H; [ now left | reflexivity ].
Defined.

End UserManagerFacts.

(** ** Attendance *)

Module AttendanceFacts.
Import School AttendanceManager AttendanceSpec SumFacts SchoolFacts.

Lemma entryOf_set_same (record : AttendanceRecord) (date : Z)
    (daily : DailyAttendance) :
  entryOf (setEntry record date daily) date = Some daily.
Proof.
  unfold entryOf. induction record as [ | [k v] rest IH ]; simpl.
  - now rewrite Z.eqb_refl.
  - destruct (k =? date)%Z eqn:E; simpl; rewrite E;
      [ reflexivity | assumption ].
Qed.

Lemma entryOf_set_other (record : AttendanceRecord) (date other : Z)
    (daily : DailyAttendance) :
  other <> date ->
  entryOf (setEntry record date daily) other = entryOf record other.
Proof.
  intros Hne. unfold entryOf.
  induction record as [ | [k v] rest IH ]; simpl.
  - destruct (Z.eqb_spec date other); [ congruence | reflexivity ].
  - destruct (Z.eqb_spec k date) as [-> | Hk]; simpl.
    + destruct (Z.eqb_spec date other); [ congruence | reflexivity ].
    + destruct (k =? other)%Z; [ reflexivity | assumption ].
Qed.

Lemma recordOf_set_same (data : AttendanceData) (studentId : string)
    (record : AttendanceRecord) :
  recordOf (setRecord data studentId record) studentId = Some record.
Proof.
  unfold recordOf. induction data as [ | [k v] rest IH ]; simpl.
  - now rewrite String.eqb_refl.
  - destruct (String.eqb k studentId) eqn:E; simpl; rewrite E;
      [ reflexivity | assumption ].
Qed.

Lemma recordOf_set_other (data : AttendanceData) (studentId other : string)
    (record : AttendanceRecord) :
  other <> studentId ->
  recordOf (setRecord data studentId record) other = recordOf data other.
Proof.
  intros Hne. unfold recordOf.
  induction data as [ | [k v] rest IH ]; simpl.
  - destruct (String.eqb_spec studentId other); [ congruence | reflexivity ].
  - destruct (String.eqb_spec k studentId) as [-> | Hk]; simpl.
    + destruct (String.eqb_spec studentId other);
        [ congruence | reflexivity ].
    + destruct (String.eqb k other); [ reflexivity | assumption ].
Qed.

(** The cell that a change writes, and the cells it leaves alone. *)
Lemma change_writes (randomIn randomOut : string) (data : AttendanceData)
    (studentId : string) (date : Z) (change : Change) :
  let before := getAttendanceForDay data studentId date in
  let after :=
    getAttendanceForDay
      (handleAttendanceChange randomIn randomOut data studentId date change)
      studentId date in
  after
  = match change with
    | SetStatus P =>
        {| status := P;
           inTime := orElse (inTime before) randomIn;
           outTime := orElse (outTime before) randomOut |}
    | SetStatus value =>
        {| status := value; inTime := EmptyString; outTime := EmptyString |}
    | SetInTime value =>
        {| status := status before; inTime := value;
           outTime := outTime before |}
    | SetOutTime value =>
        {| status := status before; inTime := inTime before;
           outTime := value |}
    end.
Proof.
  intros before after. unfold after, handleAttendanceChange.
  unfold getAttendanceForDay at 1.
  rewrite recordOf_set_same, entryOf_set_same.
  unfold before, getAttendanceForDay.
  destruct (recordOf data studentId) as [record | ]; simpl.
  - destruct (entryOf record date); reflexivity.
  - reflexivity.
Qed.

Lemma change_keeps (randomIn randomOut : string) (data : AttendanceData)
    (studentId : string) (date : Z) (change : Change)
    (otherStudent : string) (otherDate : Z) :
  otherStudent <> studentId \/ otherDate <> date ->
  getAttendanceForDay
    (handleAttendanceChange randomIn randomOut data studentId date change)
    otherStudent otherDate
  = getAttendanceForDay data otherStudent otherDate.
Proof.
  intros Hother. unfold handleAttendanceChange, getAttendanceForDay.
  destruct (String.eqb_spec otherStudent studentId) as [-> | Hs].
  - destruct Hother as [H | Hd]; [ contradiction | ].
    rewrite recordOf_set_same, entryOf_set_other by assumption.
    destruct (recordOf data studentId) as [record | ]; reflexivity.
  - now rewrite recordOf_set_other.
Qed.

(** X23.  Clicking a cell of the sheet cycles its status: present becomes
    absent, absent becomes leave, leave becomes present, and a cell that
    is empty or marked holiday becomes present, so that three clicks on a
    cell marked present, absent or leave bring its status back; a cell
    that becomes absent or leave loses its times, a cell that becomes
    present keeps the times it has or gets the times drawn; and no other
    cell of the sheet changes. *)
Theorem handleStatusCycle_cycles :
  forall (randomIn randomOut : string) (data : AttendanceData)
         (studentId : string) (date : Z),
    let click := fun d => handleStatusCycle randomIn randomOut d studentId
                                            date in
    let before := getAttendanceForDay data studentId date in
    let after := getAttendanceForDay (click data) studentId date in
    status after = nextStatus (status before)
    /\ (status after <> P ->
        inTime after = EmptyString /\ outTime after = EmptyString)
    /\ (status after = P ->
        inTime after = orElse (inTime before) randomIn
        /\ outTime after = orElse (outTime before) randomOut)
    /\ (status before = P \/ status before = A \/ status before = L ->
        status (getAttendanceForDay (click (click (click data)))
                                    studentId date)
        = status before)
    /\ (forall otherStudent otherDate,
           otherStudent <> studentId \/ otherDate <> date ->
           getAttendanceForDay (click data) otherStudent otherDate
           = getAttendanceForDay data otherStudent otherDate).
Proof.
  intros randomIn randomOut data studentId date click before after.
  assert (Hstep : forall d,
             getAttendanceForDay (click d) studentId date
             = match nextStatus (status (getAttendanceForDay d studentId
                                                             date)) with
               | P => {| status := P;
                         inTime := orElse (inTime (getAttendanceForDay
                                                     d studentId date))
                                          randomIn;
                         outTime := orElse (outTime (getAttendanceForDay
                                                       d studentId date))
                                           randomOut |}
               | value => {| status := value; inTime := EmptyString;
                             outTime := EmptyString |}
               end).
  { intros d. unfold click, handleStatusCycle.
    rewrite change_writes.
    destruct (nextStatus (status (getAttendanceForDay d studentId date)));
      reflexivity. }
  assert (Hstatus : forall d,
             status (getAttendanceForDay (click d) studentId date)
             = nextStatus (status (getAttendanceForDay d studentId date))).
  { intros d. rewrite Hstep.
    destruct (nextStatus (status (getAttendanceForDay d studentId date)));
      reflexivity. }
  split; [ apply Hstatus | ].
  split.
  { unfold after. rewrite Hstep. fold before.
    destruct (nextStatus (status before)); simpl; intros H; auto.
    now contradiction H. }
  split.
  { unfold after. rewrite Hstep. fold before.
    destruct (nextStatus (status before)); simpl; intros H;
      try discriminate. auto. }
  split.
  { intros Hmarked. rewrite !Hstatus. fold before.
    destruct Hmarked as [-> | [-> | ->]]; reflexivity. }
  intros otherStudent otherDate Hother. unfold click, handleStatusCycle.
  now apply change_keeps.
Qed.

Lemma handleStatusCycle_cycles_witness :
  status (getAttendanceForDay
            (handleStatusCycle "09:30" "16:30"
               (handleStatusCycle "09:30" "16:30"
                  (handleStatusCycle "09:30" "16:30" exampleAttendance
                                     "_s1" 19727)
                  "_s1" 19727)
               "_s1" 19727)
            "_s1" 19727)
  = P.
Proof.
  destruct (handleStatusCycle_cycles "09:30" "16:30" exampleAttendance
              "_s1" 19727) as [_ [_ [_ [H _]]]].
  apply H. now left.
Defined.

(** *** Summaries *)

Lemma countDay_adds (holidays : list Holiday)
    (workableSundays : list WorkableSunday) (data : AttendanceData)
    (studentId : string) (counts : Summary) (date : Z) :
  countDay holidays workableSundays data studentId counts date
  = addSummary counts
      (countDay holidays workableSundays data studentId noCounts date).
Proof.
  unfold countDay, addSummary, noCounts.
  destruct ((negb (getDay date =? 0)%Z
             || isWorkableSunday workableSundays date)
            && negb (isHoliday holidays date)).
  - destruct (status (getAttendanceForDay data studentId date)); simpl;
      f_equal; lia.
  - destruct counts. simpl. f_equal; lia.
Qed.

Lemma addSummary_assoc (a b c : Summary) :
  addSummary (addSummary a b) c = addSummary a (addSummary b c).
Proof. unfold addSummary. simpl. f_equal; lia. Qed.

Lemma addSummary_noCounts (a : Summary) : addSummary noCounts a = a.
Proof. destruct a. reflexivity. Qed.

Lemma countDays_adds (holidays : list Holiday)
    (workableSundays : list WorkableSunday) (data : AttendanceData)
    (studentId : string) (days : list Z) :
  forall counts,
    fold_left (countDay holidays workableSundays data studentId) days counts
    = addSummary counts
        (fold_left (countDay holidays workableSundays data studentId) days
                   noCounts).
Proof.
  induction days as [ | d days IH ]; intros counts; simpl.
  - destruct counts. unfold addSummary, noCounts. simpl. f_equal; lia.
  - rewrite IH, countDay_adds.
    rewrite (IH (countDay _ _ _ _ noCounts d)).
    now rewrite addSummary_assoc.
Qed.

Lemma countDay_one (holidays : list Holiday)
    (workableSundays : list WorkableSunday) (data : AttendanceData)
    (studentId : string) (date : Z) :
  countDay holidays workableSundays data studentId noCounts date
  = if workingDay holidays workableSundays date then
      match status (getAttendanceForDay data studentId date) with
      | P => mkSummary 1 0 0 1
      | A => mkSummary 0 1 0 1
      | L => mkSummary 0 0 1 1
      | H | Blank => mkSummary 0 0 0 1
      end
    else noCounts.
Proof.
  unfold countDay, workingDay.
  destruct ((negb (getDay date =? 0)%Z
             || isWorkableSunday workableSundays date)
            && negb (isHoliday holidays date)); [ | reflexivity ].
  destruct (status (getAttendanceForDay data studentId date)); reflexivity.
Qed.

(** The counts of a list of days. *)
Lemma countDays_bounds (holidays : list Holiday)
    (workableSundays : list WorkableSunday) (data : AttendanceData)
    (studentId : string) (days : list Z) :
  let counts :=
    fold_left (countDay holidays workableSundays data studentId) days
              noCounts in
  workingDays counts
  = List.length (filter (workingDay holidays workableSundays) days)
  /\ (present counts + absent counts + leave counts <= workingDays counts)%nat
  /\ present counts
     = List.length
         (filter (fun d => workingDay holidays workableSundays d
                           && match status (getAttendanceForDay data
                                              studentId d) with
                              | P => true
                              | _ => false
                              end) days).
Proof.
  induction days as [ | d days IH ]; simpl; [ repeat split; lia | ].
  rewrite countDays_adds, countDay_one.
  destruct IH as [IH1 [IH2 IH3]].
  destruct (workingDay holidays workableSundays d); simpl.
  - destruct (status (getAttendanceForDay data studentId d)); simpl;
      rewrite <- ?IH1, <- ?IH3; repeat split; lia.
  - rewrite <- IH1, <- IH3. repeat split; lia.
Qed.

Lemma overall_is_sum (holidays : list Holiday)
    (workableSundays : list WorkableSunday) (data : AttendanceData)
    (studentId : string) (months : list Month) :
  fold_left
    (fun counts month =>
       fold_left (countDay holidays workableSundays data studentId)
                 month counts)
    months noCounts
  = fold_right
      (fun month total =>
         addSummary
           (fold_left (countDay holidays workableSundays data studentId)
                      month noCounts)
           total)
      noCounts months.
Proof.
  assert (H : forall start,
             fold_left
               (fun counts month =>
                  fold_left (countDay holidays workableSundays data
                                      studentId) month counts)
               months start
             = addSummary start
                 (fold_right
                    (fun month total =>
                       addSummary
                         (fold_left (countDay holidays workableSundays data
                                              studentId) month noCounts)
                         total)
                    noCounts months)).
  { induction months as [ | m months IH ]; intros start; simpl.
    - destruct start. unfold addSummary, noCounts. simpl. f_equal; lia.
    - rewrite IH, countDays_adds. now rewrite addSummary_assoc. }
  rewrite H. apply addSummary_noCounts.
Qed.

(** X24.  The summaries of the attendance sheet count working days: in
    the summary of a month, the working days are the days of the month
    that are no holiday and no Sunday, or a Sunday marked workable; the
    days present are the working days marked present; present, absent and
    leave together never exceed the working days; and the overall
    summary of a student is the sum of the student's monthly
    summaries. *)
Theorem summaries_count_working_days :
  forall (holidays : list Holiday) (workableSundays : list WorkableSunday)
         (data : AttendanceData) (sheet : Sheet) (studentId : string)
         (month : Month),
    let monthly :=
      getMonthlySummary holidays workableSundays data (Some sheet) studentId
                        month in
    workingDays monthly
    = List.length (filter (workingDay holidays workableSundays) month)
    /\ (present monthly + absent monthly + leave monthly
        <= workingDays monthly)%nat
    /\ present monthly
       = List.length
           (filter (fun d => workingDay holidays workableSundays d
                             && match status (getAttendanceForDay data
                                                studentId d) with
                                | P => true
                                | _ => false
                                end) month)
    /\ (forall student,
           In student (sheet_students sheet) ->
           In (st_id student,
               sumOfMonths holidays workableSundays data sheet
                           (st_id student))
              (overallSummary holidays workableSundays data (Some sheet))).
Proof.
  intros holidays workableSundays data sheet studentId month monthly.
  destruct (countDays_bounds holidays workableSundays data studentId month)
    as [H1 [H2 H3]].
  split; [ exact H1 | ]. split; [ exact H2 | ]. split; [ exact H3 | ].
  intros student Hin. unfold overallSummary.
  apply in_map_iff. exists student. split; [ | assumption ].
  f_equal. unfold sumOfMonths, getMonthlySummary. apply overall_is_sum.
Qed.

Lemma summaries_count_working_days_witness :
  workingDays
    (getMonthlySummary exampleHolidays [] exampleAttendance
       (Some (mkSheet [] [ [ 19727; 19728; 19729 ]%Z ])) "_s1"
       [ 19727; 19728; 19729 ]%Z)
  = 2%nat.
Proof.
  destruct (summaries_count_working_days exampleHolidays []
              exampleAttendance (mkSheet [] [ [ 19727; 19728; 19729 ]%Z ])
              "_s1" [ 19727; 19728; 19729 ]%Z) as [H _].
  exact H.
Defined.

(** *** Workable Sundays and holidays *)

Lemma isHoliday_iff (holidays : list Holiday) (date : Z) :
  isHoliday holidays date = true
  <-> exists h, In h holidays /\ h_date h = date.
Proof.
  unfold isHoliday. rewrite existsb_exists.
  split; intros [h [Hin Hd]]; exists h; (split; [ assumption | ]).
  - now apply Z.eqb_eq.
  - now apply Z.eqb_eq.
Qed.

Lemma sortWith_In {A : Type} (compareFn : A -> A -> Z) (l : list A) (x : A) :
  In x (sortWith compareFn l) <-> In x l.
Proof.
  split; apply Permutation_in;
    [ | apply Permutation_sym ]; apply sortWith_perm.
Qed.

(** X25.  Only Sundays are marked workable, each once: where the stored
    workable Sundays are Sundays with distinct dates, the same holds
    after [handleSave] of the workable Sundays; a date that is no Sunday
    and a date already marked change nothing; and a Sunday that is
    accepted counts as a working day from then on unless it is a
    holiday. *)
Theorem workable_sundays_are_sundays :
  forall (workableSundays : list WorkableSunday) (currentDate : option Z)
         (newId : string) (holidays : list Holiday),
    sundaysValid workableSundays ->
    let saved :=
      stateAfter workableSundays
        (handleSaveWorkableSunday workableSundays currentDate newId) in
    sundaysValid saved
    /\ (forall date,
           currentDate = Some date ->
           getDay date <> 0%Z \/ In date (map ws_date workableSundays) ->
           saved = workableSundays)
    /\ (forall date,
           currentDate = Some date -> getDay date = 0%Z ->
           isWorkableSunday saved date = true
           /\ workingDay holidays saved date
              = negb (isHoliday holidays date)).
Proof.
  intros workableSundays currentDate newId holidays [Hsun Hnd] saved.
  unfold saved, handleSaveWorkableSunday.
  destruct currentDate as [date | ].
  2:{ simpl. split; [ now split | ].
      split; intros d H; discriminate. }
  destruct (Z.eqb_spec (getDay date) 0) as [Hday | Hday]; simpl.
  2:{ split; [ now split | ]. split; [ reflexivity | ].
      intros d Hd Hs. injection Hd as <-. contradiction. }
  destruct (existsb (fun ws => (ws_date ws =? date)%Z) workableSundays)
    eqn:Eused; simpl.
  - split; [ now split | ]. split; [ reflexivity | ].
    intros d Hd _. injection Hd as <-.
    assert (Hw : isWorkableSunday workableSundays date = true)
      by exact Eused.
    split; [ exact Hw | ].
    unfold workingDay. now rewrite Hw, orb_true_r.
  - rewrite existsb_false in Eused.
    assert (Hfresh : ~ In date (map ws_date workableSundays)).
    { intros Hin. apply in_map_iff in Hin. destruct Hin as [ws [Hd Hws]].
      specialize (Eused ws Hws). apply Z.eqb_neq in Eused. contradiction. }
    set (new := {| ws_id := newId; ws_date := date |}).
    pose proof (sortWith_perm (byDate ws_date) (workableSundays ++ [new]))
      as Hperm.
    split.
    + split.
      * apply Forall_forall. intros ws Hws. apply sortWith_In in Hws.
        apply in_app_or in Hws. destruct Hws as [Hws | [<- | []]].
        -- rewrite Forall_forall in Hsun. now apply Hsun.
        -- exact Hday.
      * apply (Permutation_NoDup
                 (Permutation_sym (Permutation_map ws_date Hperm))).
        rewrite map_app. simpl. now apply NoDup_snoc.
    + split.
      * intros d Hd [Hno | Hin]; injection Hd as <-; contradiction.
      * intros d Hd _. injection Hd as <-.
        assert (Hw : isWorkableSunday
                       (sortWith (byDate ws_date) (workableSundays ++ [new]))
                       date = true).
        { unfold isWorkableSunday. apply existsb_exists. exists new.
          split; [ | apply Z.eqb_refl ].
          apply sortWith_In. apply in_or_app. right. now left. }
        split; [ exact Hw | ].
        unfold workingDay. now rewrite Hw, orb_true_r.
Qed.

Lemma workable_sundays_are_sundays_witness :
  sundaysValid
    (stateAfter [ mkWorkableSunday "_w1" 19736 ]
       (handleSaveWorkableSunday [ mkWorkableSunday "_w1" 19736 ]
                                 (Some 19729%Z) "_w2")).
Proof.
  destruct (workable_sundays_are_sundays [ mkWorkableSunday "_w1" 19736 ]
              (Some 19729%Z) "_w2" []) as [H _].
  - split; repeat constructor; simpl; intuition discriminate.
  - exact H.
Defined.

Lemma trim_not_empty (text : string) :
  trim text <> EmptyString -> text <> EmptyString.
Proof. intros H ->. now apply H. Qed.

(** X26.  Clicking the header of a date toggles the holiday of that date
    and of no other, with holidays stored under distinct identifiers,
    one for a date: a date that is a holiday is none after the operator
    confirms, a date that is none is a holiday after the operator enters a
    name that is not blank, and the other dates are holidays after the
    click exactly when they were before. *)
Theorem handleDateHeaderClick_toggles :
  forall (confirmed : bool) (holidayName : option string)
         (holidays : list Holiday) (date : Z) (newId : string),
    holidaysDistinct holidays ->
    let after :=
      stateAfter holidays
        (handleDateHeaderClick confirmed holidayName holidays date newId) in
    (forall other, other <> date ->
                   isHoliday after other = isHoliday holidays other)
    /\ (isHoliday holidays date = true -> confirmed = true ->
        isHoliday after date = false)
    /\ (isHoliday holidays date = false ->
        forall text, holidayName = Some text -> trim text <> EmptyString ->
                     isHoliday after date = true).
Proof.
  intros confirmed holidayName holidays date newId [Hids Hdates] after.
  unfold after, handleDateHeaderClick.
  destruct (find (fun h => (h_date h =? date)%Z) holidays)
    as [existing | ] eqn:Efind.
  - apply find_some in Efind. destruct Efind as [Hex Hdate].
    apply Z.eqb_eq in Hdate.
    assert (Hkeep : forall h, In h holidays ->
                      (negb (String.eqb (h_id h) (h_id existing)) = true
                       <-> h_date h <> date)).
    { intros h Hh. rewrite negb_true_iff, String.eqb_neq. split.
      - intros Hid Hd. apply Hid. f_equal.
        apply (NoDup_map_injective h_date holidays); auto. congruence.
      - intros Hd Hid. apply Hd.
        rewrite (NoDup_map_injective h_id holidays h existing); auto. }
    destruct confirmed; simpl.
    + split; [ | split ].
      * intros other Hother. apply eq_true_iff_eq.
        rewrite !isHoliday_iff. split.
        -- intros [h [Hh Hd]]. apply filter_In in Hh.
           exists h. split; [ apply Hh | assumption ].
        -- intros [h [Hh Hd]]. exists h. split; [ | assumption ].
           apply filter_In. split; [ assumption | ].
           apply (Hkeep h Hh). congruence.
      * intros _ _. apply not_true_iff_false. rewrite isHoliday_iff.
        intros [h [Hh Hd]]. apply filter_In in Hh.
        destruct Hh as [Hh Hk]. now apply (Hkeep h Hh) in Hk.
      * intros Hnot. exfalso. apply not_true_iff_false in Hnot.
        apply Hnot. apply isHoliday_iff. now exists existing.
    + split; [ reflexivity | ]. split; [ discriminate | ].
      intros Hnot. exfalso. apply not_true_iff_false in Hnot.
      apply Hnot. apply isHoliday_iff. now exists existing.
  - assert (Hnone : isHoliday holidays date = false).
    { apply not_true_iff_false. rewrite isHoliday_iff.
      intros [h [Hh Hd]]. apply (find_none _ _ Efind) in Hh.
      apply Z.eqb_neq in Hh. contradiction. }
    destruct holidayName as [text | ]; simpl.
    2:{ split; [ reflexivity | ]. split; [ congruence | ].
        intros _ t Ht. discriminate. }
    destruct (negb (String.eqb text EmptyString)
              && negb (String.eqb (trim text) EmptyString)) eqn:Ename; simpl.
    + set (new := {| h_id := newId; h_date := date; h_name := trim text |}).
      split; [ | split ].
      * intros other Hother. apply eq_true_iff_eq.
        rewrite !isHoliday_iff. split.
        -- intros [h [Hh Hd]]. apply sortWith_In in Hh.
           apply in_app_or in Hh. destruct Hh as [Hh | [<- | []]].
           ++ now exists h.
           ++ simpl in Hd. congruence.
        -- intros [h [Hh Hd]]. exists h. split; [ | assumption ].
           apply sortWith_In. apply in_or_app. now left.
      * congruence.
      * intros _ t Ht Htrim. apply isHoliday_iff. exists new.
        split; [ | reflexivity ].
        apply sortWith_In. apply in_or_app. right. now left.
    + split; [ reflexivity | ]. split; [ congruence | ].
      intros _ t Ht Htrim. injection Ht as <-. exfalso.
      apply andb_false_iff in Ename. destruct Ename as [E | E];
        apply negb_false_iff in E; apply String.eqb_eq in E.
      * now apply (trim_not_empty text).
      * contradiction.
Qed.

Lemma handleDateHeaderClick_toggles_witness :
  isHoliday
    (stateAfter exampleHolidays
       (handleDateHeaderClick true None exampleHolidays 19748 "_h2"))
    19748
  = false.
Proof.
  destruct (handleDateHeaderClick_toggles true None exampleHolidays 19748
              "_h2") as [_ [H _]].
  - split; repeat constructor; simpl; intuition discriminate.
  - now apply H.
Defined.

End AttendanceFacts.

(** ** A linked voucher and its payment (double-entry variant) *)

Module PaymentCascadeFacts.
Import School DoubleEntry DoubleEntrySpec DoubleEntryDashboard.
Import DashboardSpec CascadeSpec SchoolFacts CascadeFacts DashboardFacts.








End PaymentCascadeFacts.
